(** * TFOP SG1 upload utility: a shallow embedding of [sg1_utility.py]

    The development follows the single function [upload] of the script:
    filename classification, the consistency checks, the choice of the
    canonical measurement table, the completeness audit, the derivation of
    the per-filter submission entries and the final submission loop.

    Conventions.
    - Python [str] values are [string]s of 7-bit characters; [float] is the
      IEEE-754 binary64 type of [PrimFloat]; Python [int] is [Z].
    - The collaborators of the script (file system, table reader, FITS/WCS
      reader, HTTP session, console, and Python's float/text conversions)
      are the fields of a record [World]; the console answers are consumed
      from a list, and everything the run prints, asks or posts is appended
      to a trace of [event]s.
    - [sys.exit] and uncaught exceptions are the two abnormal results of the
      monad [M]. *)

From Stdlib Require Import List String Ascii ZArith Bool Lia Permutation.
From Stdlib Require Import Floats.
Import ListNotations.
Open Scope string_scope.
Open Scope Z_scope.

(* ================================================================== *)
(** * Python string primitives *)
(* ================================================================== *)

Module PyStr.

Definition code (c : ascii) : nat := nat_of_ascii c.

Definition in_range (lo hi : nat) (c : ascii) : bool :=
  (Nat.leb lo (code c) && Nat.leb (code c) hi)%bool.

Definition is_digit (c : ascii) : bool := in_range 48 57 c.
Definition is_upper (c : ascii) : bool := in_range 65 90 c.
Definition is_lower (c : ascii) : bool := in_range 97 122 c.
Definition is_alnum (c : ascii) : bool := (is_digit c || is_upper c || is_lower c)%bool.

(** [str.isspace] on one 7-bit character: TAB..CR, FS..US and the blank.
    The blanks beyond them (U+0085, U+00A0 and the like), which [str.strip]
    removes too, are outside the strings of this development. *)
Definition is_space (c : ascii) : bool :=
  (in_range 9 13 c || in_range 28 32 c)%bool.

Definition lower_char (c : ascii) : ascii :=
  if is_upper c then ascii_of_nat (code c + 32) else c.

Fixpoint lower (s : string) : string :=
  match s with
  | EmptyString => EmptyString
  | String c s' => String (lower_char c) (lower s')
  end.

Fixpoint lstrip (s : string) : string :=
  match s with
  | String c s' => if is_space c then lstrip s' else s
  | EmptyString => EmptyString
  end.

Fixpoint rev_string (s : string) (acc : string) : string :=
  match s with
  | EmptyString => acc
  | String c s' => rev_string s' (String c acc)
  end.

Definition rstrip (s : string) : string :=
  rev_string (lstrip (rev_string s EmptyString)) EmptyString.

Definition strip (s : string) : string := rstrip (lstrip s).

Definition startswith (p s : string) : bool := String.prefix p s.

Definition endswith (suffix s : string) : bool :=
  String.prefix (rev_string suffix EmptyString) (rev_string s EmptyString).

(** [sub in s] *)
Fixpoint contains (sub s : string) : bool :=
  if String.prefix sub s then true
  else match s with
       | EmptyString => false
       | String _ s' => contains sub s'
       end.

Fixpoint all_chars (p : ascii -> bool) (s : string) : bool :=
  match s with
  | EmptyString => true
  | String c s' => (p c && all_chars p s')%bool
  end.

(** [s.isdigit()] *)
Definition isdigit (s : string) : bool :=
  match s with
  | EmptyString => false
  | _ => all_chars is_digit s
  end.

Fixpoint int_acc (s : string) (acc : Z) : Z :=
  match s with
  | EmptyString => acc
  | String c s' => int_acc s' (10 * acc + Z.of_nat (code c - 48))
  end.

(** [int(s)] for a string of decimal digits. *)
Definition int_of_digits (s : string) : Z := int_acc s 0.

Definition digit_char (d : Z) : ascii := ascii_of_nat (48 + Z.to_nat d).

Fixpoint digits_fuel (fuel : nat) (n : Z) (acc : string) : string :=
  match fuel with
  | O => acc
  | S fuel' =>
      let acc' := String (digit_char (n mod 10)) acc in
      if n <? 10 then acc' else digits_fuel fuel' (n / 10) acc'
  end.

(** [str(n)] for a Python [int]. *)
Definition str_of_int (n : Z) : string :=
  if n <? 0 then String "-" (digits_fuel (S (Z.to_nat (Z.log2 (- n)))) (- n) EmptyString)
  else digits_fuel (S (Z.to_nat (Z.log2 n))) n EmptyString.

(** [s[:n]] and [s[n:]] *)
Definition take (n : nat) (s : string) : string := String.substring 0 n s.
Definition drop (n : nat) (s : string) : string :=
  String.substring n (String.length s - n) s.

(** [f"{s:<{w}}"] *)
Fixpoint spaces (n : nat) : string :=
  match n with O => EmptyString | S n' => String " " (spaces n') end.
Definition ljust (w : nat) (s : string) : string :=
  s ++ spaces (w - String.length s).

(** [sep.join(l)] *)
Definition join (sep : string) (l : list string) : string := String.concat sep l.

(** [repr] of a list of strings that hold no quote and no backslash. *)
Definition repr_list (l : list string) : string :=
  "[" ++ join ", " (map (fun s => "'" ++ s ++ "'") l) ++ "]".

(** [os.path.join(directory, name)] on POSIX. *)
Definition path_join (d name : string) : string :=
  if startswith "/" name then name
  else if (String.eqb d "" || endswith "/" d)%bool then d ++ name
  else d ++ "/" ++ name.

(** Stable insertion sort: the model of [sorted] and [list.sort] for a
    comparison that is a strict weak order on the elements at hand. *)
Section Sort.

Context {A : Type} (lt : A -> A -> bool).

Fixpoint insert (x : A) (l : list A) : list A :=
  match l with
  | [] => [x]
  | y :: l' => if lt y x then y :: insert x l' else x :: l
  end.

Definition sort (l : list A) : list A := fold_right insert [] l.

End Sort.

Definition sorted_strings (l : list string) : list string := sort String.ltb l.

Fixpoint mem (x : string) (l : list string) : bool :=
  match l with
  | [] => false
  | y :: l' => (String.eqb x y || mem x l')%bool
  end.

(** The distinct elements of [l], in order of first occurrence. *)
Fixpoint dedup (l : list string) : list string :=
  match l with
  | [] => []
  | x :: l' => x :: filter (fun y => negb (String.eqb x y)) (dedup l')
  end.

End PyStr.


(* ================================================================== *)
(** * Regular expressions: the fragment of [re] the script uses *)
(* ================================================================== *)

Module Re.

(** Abstract syntax of the patterns.  Repetition and option are greedy, as
    in [re]; [Group] is a named group [(?P<name>...)]. *)
Inductive regex : Type :=
| Lit (c : ascii)
| Class (p : ascii -> bool)
| Empty
| Seq (r1 r2 : regex)
| Opt (r : regex)
| Plus (r : regex)
| Group (name : string) (r : regex)
| Bol
| Eol.

Definition groups := list (string * string).

(** [m.group(name)]; [None] when the group did not take part in the match. *)
Fixpoint group (name : string) (g : groups) : option string :=
  match g with
  | [] => None
  | (n, v) :: g' => if String.eqb n name then Some v else group name g'
  end.

(** Backtracking matcher in continuation-passing style.  [pos] is the
    offset of [s] in the subject; the continuation receives the position,
    the rest of the subject and the groups captured so far, and a [None]
    from it makes the matcher try its next alternative, in the order
    Python's engine tries them. *)
Fixpoint run {A : Type} (r : regex) (pos : nat) (s : string) (g : groups)
    (k : nat -> string -> groups -> option A) {struct r} : option A :=
  match r with
  | Lit c =>
      match s with
      | String c' s' => if Ascii.eqb c c' then k (S pos) s' g else None
      | EmptyString => None
      end
  | Class p =>
      match s with
      | String c' s' => if p c' then k (S pos) s' g else None
      | EmptyString => None
      end
  | Empty => k pos s g
  | Seq r1 r2 => run r1 pos s g (fun pos' s' g' => run r2 pos' s' g' k)
  | Opt r1 =>
      match run r1 pos s g k with
      | Some x => Some x
      | None => k pos s g
      end
  | Plus r1 =>
      (fix loop (fuel : nat) (pos : nat) (s : string) (g : groups) : option A :=
         match fuel with
         | O => None
         | S fuel' =>
             run r1 pos s g (fun pos' s' g' =>
               if Nat.leb pos' pos then None
               else match loop fuel' pos' s' g' with
                    | Some x => Some x
                    | None => k pos' s' g'
                    end)
         end) (S (String.length s)) pos s g
  | Group name r1 =>
      run r1 pos s g (fun pos' s' g' =>
        k pos' s' ((name, String.substring 0 (pos' - pos) s) :: g'))
  | Bol => if Nat.eqb pos 0 then k pos s g else None
  | Eol =>
      match s with
      | EmptyString => k pos s g
      | String c EmptyString => if Ascii.eqb c "010" then k pos s g else None
      | _ => None
      end
  end.

(** [pattern.match(s)]: anchored at the start, free at the end. *)
Definition match_ (r : regex) (s : string) : option groups :=
  run r 0 s [] (fun _ _ g => Some g).

(** [re.fullmatch(pattern, s)]: the whole subject must be consumed. *)
Definition fullmatch (r : regex) (s : string) : option groups :=
  run r 0 s [] (fun _ s' g => match s' with EmptyString => Some g | _ => None end).

Fixpoint lit (s : string) : regex :=
  match s with
  | EmptyString => Empty
  | String c s' => Seq (Lit c) (lit s')
  end.

Fixpoint times (n : nat) (r : regex) : regex :=
  match n with
  | O => Empty
  | S n' => Seq r (times n' r)
  end.

Fixpoint seq (l : list regex) : regex :=
  match l with
  | [] => Empty
  | r :: l' => Seq r (seq l')
  end.

(** [\d] on 7-bit characters: [0] to [9].  On a Python [str] the class also
    holds the decimal digits of the other scripts, which a [string] of this
    development cannot hold. *)
Definition digit : regex := Class PyStr.is_digit.
(** [.] without DOTALL *)
Definition dot : regex := Class (fun c => negb (Ascii.eqb c "010")).

End Re.

(* ================================================================== *)
(** * Python and numpy floats *)
(* ================================================================== *)

(** Exceptions the script can let escape. *)
Inductive exn : Type :=
| ValueError
| OverflowError
| IndexError
| KeyError
| ReaderError   (* whatever [Table.read] raises *)
| EOFError.

Module PyFloat.

Local Open Scope float_scope.

(** Round half to even of [m * 2^e], [m > 0]. *)
Definition round_half_even (m : positive) (e : Z) : Z :=
  if (0 <=? e)%Z then (Zpos m * 2 ^ e)%Z
  else
    let d := (2 ^ (- e))%Z in
    let q := (Zpos m / d)%Z in
    let r := (Zpos m mod d)%Z in
    match (2 * r ?= d)%Z with
    | Lt => q
    | Gt => (q + 1)%Z
    | Eq => if Z.even q then q else (q + 1)%Z
    end.

(** [round(x)] with one argument: the nearest integer, ties to even;
    [ValueError] on a NaN and [OverflowError] on an infinity. *)
Definition round (x : float) : exn + Z :=
  match Prim2SF x with
  | S754_nan => inl ValueError
  | S754_infinity _ => inl OverflowError
  | S754_zero _ => inr 0%Z
  | S754_finite s m e =>
      let n := round_half_even m e in
      inr (if s then (- n)%Z else n)
  end.

(** [float(n)] for a Python [int]: the nearest binary64, ties to even. *)
Definition of_int (n : Z) : float :=
  SF2Prim (binary_normalize prec emax n 0 false).

(** The syntax [float(s)] accepts, after [strip]: an optional sign, then
    [inf], [infinity], [nan] (any case) or a decimal literal with optional
    fraction and exponent; digits may be separated by single underscores. *)
Fixpoint digitpart (after_digit : bool) (s : string) : option string :=
  match s with
  | String c s' =>
      if PyStr.is_digit c then
        match digitpart true s' with
        | Some rest => Some rest
        | None => Some s'
        end
      else if (Ascii.eqb c "_" && after_digit)%bool then
        match s' with
        | String c' _ => if PyStr.is_digit c' then digitpart false s' else None
        | EmptyString => None
        end
      else if after_digit then Some s else None
  | EmptyString => if after_digit then Some s else None
  end.

Definition skip_sign (s : string) : string :=
  match s with
  | String c s' => if (Ascii.eqb c "+" || Ascii.eqb c "-")%bool then s' else s
  | EmptyString => s
  end.

Definition exponent_ok (s : string) : bool :=
  match s with
  | EmptyString => true
  | String c s' =>
      if (Ascii.eqb c "e" || Ascii.eqb c "E")%bool then
        match digitpart false (skip_sign s') with
        | Some EmptyString => true
        | _ => false
        end
      else false
  end.

Definition number_ok (s : string) : bool :=
  match s with
  | String "." s' =>
      match digitpart false s' with
      | Some rest => exponent_ok rest
      | None => false
      end
  | _ =>
      match digitpart false s with
      | Some (String "." rest) =>
          match digitpart false rest with
          | Some rest' => exponent_ok rest'
          | None => exponent_ok rest
          end
      | Some rest => exponent_ok rest
      | None => false
      end
  end.

Definition syntax_ok (s : string) : bool :=
  let body := skip_sign (PyStr.strip s) in
  let low := PyStr.lower body in
  (String.eqb low "inf" || String.eqb low "infinity" || String.eqb low "nan"
   || number_ok body)%bool.

(** numpy reductions on a one-dimensional float array. *)
Definition is_nan (x : float) : bool := negb (x =? x).

Definition drop_nan (l : list float) : list float :=
  filter (fun x => negb (is_nan x)) l.

Definition sum (l : list float) : float :=
  match l with
  | [] => 0
  | x :: l' => fold_left add l' x
  end.

(** [np.mean] *)
Definition mean (l : list float) : float := sum l / of_int (Z.of_nat (List.length l)).

(** [np.nanmedian]: NaN on an empty or all-NaN array. *)
Definition nanmedian (l : list float) : float :=
  let v := PyStr.sort ltb (drop_nan l) in
  let n := List.length v in
  match v with
  | [] => nan
  | _ =>
      if Nat.even n
      then mean [nth (n / 2 - 1) v nan; nth (n / 2) v nan]
      else nth (n / 2) v nan
  end.

Definition fmax (x y : float) : float :=
  if is_nan x then y else if is_nan y then x else if x <? y then y else x.
Definition fmin (x y : float) : float :=
  if is_nan x then y else if is_nan y then x else if y <? x then y else x.

(** [np.nanmax] and [np.nanmin]: [ValueError] on an empty array, NaN on an
    all-NaN one. *)
Definition nanmax (l : list float) : exn + float :=
  match l with
  | [] => inl ValueError
  | x :: l' => inr (fold_left fmax l' x)
  end.
Definition nanmin (l : list float) : exn + float :=
  match l with
  | [] => inl ValueError
  | x :: l' => inr (fold_left fmin l' x)
  end.

Definition isfinite (x : float) : bool := PrimFloat.is_finite x.

End PyFloat.

(* ================================================================== *)
(** * Measurement tables as the reader returns them *)
(* ================================================================== *)

Inductive Column : Type :=
| ColFloat (xs : list float)
| ColInt (xs : list Z)
| ColStr (xs : list string).

(** An [astropy] table: named columns, in file order. *)
Definition Table : Type := list (string * Column).

Definition colnames (t : Table) : list string := map fst t.

Definition col_length (c : Column) : nat :=
  match c with
  | ColFloat xs => List.length xs
  | ColInt xs => List.length xs
  | ColStr xs => List.length xs
  end.

(** [len(t)]: the number of rows. *)
Definition table_len (t : Table) : nat :=
  match t with
  | [] => O
  | (_, c) :: _ => col_length c
  end.

(** [t[name]]; [None] stands for the [KeyError]. *)
Fixpoint column (name : string) (t : Table) : option Column :=
  match t with
  | [] => None
  | (n, c) :: t' => if String.eqb n name then Some c else column name t'
  end.

(* ================================================================== *)
(** * The run monad: console answers in, events out, exit or exception *)
(* ================================================================== *)

Inductive event : Type :=
| Print (line : string)
| Bell
| Input (prompt : string)
| Post (url : string) (data : list (string * string)) (file : option string).

Inductive result (A : Type) : Type :=
| Ok (a : A)
| Exit (code : Z)
| Raise (e : exn).
Arguments Ok {A} a.
Arguments Exit {A} code.
Arguments Raise {A} e.

(** A computation reads console answers from the front of a list and
    returns its result, the answers left and the events it caused. *)
Definition M (A : Type) : Type :=
  list string -> result A * list string * list event.

Definition ret {A} (a : A) : M A := fun ans => (Ok a, ans, []).

Definition bind {A B} (m : M A) (k : A -> M B) : M B :=
  fun ans =>
    match m ans with
    | (Ok a, ans', tr) =>
        match k a ans' with
        | (r, ans'', tr') => (r, ans'', (tr ++ tr')%list)
        end
    | (Exit c, ans', tr) => (Exit c, ans', tr)
    | (Raise e, ans', tr) => (Raise e, ans', tr)
    end.

Declare Scope run_scope.
Delimit Scope run_scope with run.
Notation "x <- c1 ;; c2" := (bind c1 (fun x => c2))
  (at level 61, c1 at next level, right associativity) : run_scope.
Notation "c1 ;; c2" := (bind c1 (fun _ => c2))
  (at level 61, right associativity) : run_scope.
Notation "' pat <- c1 ;; c2" :=
  (bind c1 (fun x => match x with pat => c2 end))
  (at level 61, pat pattern, c1 at next level, right associativity) : run_scope.
Open Scope run_scope.

Definition emit (e : event) : M unit := fun ans => (Ok tt, ans, [e]).
Definition print (s : string) : M unit := emit (Print s).
Definition exit {A} (c : Z) : M A := fun ans => (Exit c, ans, []).
Definition raise {A} (e : exn) : M A := fun ans => (Raise e, ans, []).

(** [input(prompt)]: the prompt is shown, then a line is read; end of input
    is the [EOFError]. *)
Definition input (prompt : string) : M string :=
  fun ans =>
    match ans with
    | [] => (Raise EOFError, [], [Input prompt])
    | a :: ans' => (Ok a, ans', [Input prompt])
    end.

Definition lift {A} (x : exn + A) : M A :=
  match x with
  | inl e => raise e
  | inr a => ret a
  end.

Definition when (b : bool) (m : M unit) : M unit := if b then m else ret tt.

Fixpoint for_each {A} (l : list A) (body : A -> M unit) : M unit :=
  match l with
  | [] => ret tt
  | x :: l' => body x ;; for_each l' body
  end.

Fixpoint map_m {A B} (f : A -> M B) (l : list A) : M (list B) :=
  match l with
  | [] => ret []
  | x :: l' => y <- f x ;; ys <- map_m f l' ;; ret (y :: ys)
  end.

(** [_bell] swallows every failure of the toolkit, so it is one event. *)
Definition _bell : M unit := emit Bell.

(** [_err(m)]: print, ring, [sys.exit(1)]. *)
Definition _err {A} (m : string) : M A := print m ;; _bell ;; exit 1.

(** The exit status of the process for each way a run can end. *)
Definition exit_code {A} (r : result A) : Z :=
  match r with
  | Ok _ => 0
  | Exit c => c
  | Raise _ => 1
  end.

(* ================================================================== *)
(** * Collaborators and arguments of [upload] *)
(* ================================================================== *)

Record World : Type := {
  (** [os.path.isdir] *)
  isdir : string -> bool;
  (** the regular files of a directory, in [os.listdir] order *)
  listdir : string -> list string;
  (** [Table.read(p, format='ascii.tab', data_start=1)]; [None] when it raises *)
  table_read : string -> option Table;
  (** [proj_plane_pixel_scales(WCS(fits.open(p)[0].header))]; [None] when
      any of the three raises *)
  wcs_pixel_scales : string -> option (list float);
  (** status code of the response to a POST *)
  status_code : string -> list (string * string) -> option string -> Z;
  (** [float(s)] for [s] of float syntax *)
  float_value : string -> float;
  (** [str(x)] for a float *)
  float_repr : float -> string;
  (** [round(x, 1)] *)
  round1 : float -> float;
  (** [f"{x:.2g}"] *)
  format_2g : float -> string;
  (** [list.sort] on keys that [<] does not order, one of them holding a
      NaN: the position, in the list as it was before the sort, of the
      element the sort leaves first.  The sort moves elements by the answers
      of [<] alone, and which element then comes first is a matter of the
      interpreter's algorithm. *)
  sort_first : list (float * Z * Z * string) -> nat
}.

Record Args : Type := {
  username : string;
  password : string;
  tic : string;
  toi : string;
  directory : string;
  group : string;
  coverage : option string;
  telsize : option string;
  camera : option string;
  psf : option string;
  deltamag : option string;
  notes : option string;
  skip_summary : bool;
  skip_files : bool
}.

(** Truth value of an optional string: [None] and [''] are false. *)
Definition truthy (o : option string) : bool :=
  match o with
  | None => false
  | Some s => negb (String.eqb s "")
  end.

Definition or_empty (o : option string) : string :=
  match o with
  | Some s => s
  | None => ""
  end.

(* ================================================================== *)
(** * Filename grammar and descriptor table *)
(* ================================================================== *)

(** [(\d+)\.(\d{2})] *)
Definition tic_pattern : Re.regex :=
  Re.seq [Re.Group "1" (Re.Plus Re.digit); Re.Lit "."; Re.Group "2" (Re.times 2 Re.digit)].

Definition obs_char (c : ascii) : bool := (PyStr.is_alnum c || Ascii.eqb c "-")%bool.
Definition flt_char (c : ascii) : bool :=
  (PyStr.is_alnum c || Ascii.eqb c "-" || Ascii.eqb c "+")%bool.

(** The pattern [base] of the script. *)
Definition base : Re.regex :=
  Re.seq
    [Re.Bol;
     Re.Group "tgt" (Re.Seq (Re.lit "TIC") (Re.Plus Re.digit));
     Re.Lit "-";
     Re.Group "pp" (Re.times 2 Re.digit);
     Re.Lit "_";
     Re.Group "ymd" (Re.times 8 Re.digit);
     Re.Lit "_";
     Re.Group "obs" (Re.Plus (Re.Class obs_char));
     Re.Lit "_";
     Re.Group "flt" (Re.Plus (Re.Class flt_char));
     Re.Opt (Re.seq [Re.Lit "_"; Re.Group "px" (Re.Plus Re.digit); Re.lit "px"]);
     Re.Lit "_";
     Re.Group "tail" (Re.Plus Re.dot);
     Re.Eol].

(** [^name$] with every character of [name] taken literally. *)
Definition exactly (name : string) : Re.regex :=
  Re.seq [Re.Bol; Re.lit name; Re.Eol].

Definition MEAS : string := "AstroImageJ Photometry Measurement Table".
Definition NOTES : string := "Notes and Results Text".
Definition WCS : string := "Plate-Solved Image".

(** [allowed_specs], in the insertion order of the dict. *)
Definition allowed_specs : list (Re.regex * string) :=
  [ (exactly "measurements_NEBcheck.zip", "NEB Depth Plots");
    (exactly "measurements_NEB-table.txt", "NEB Table");
    (exactly "measurements_dmagRMS-plot.png", "Dmag vs. RMS Plot");
    (exactly "measurements.tbl", MEAS);
    (exactly "measurements.plotcfg", "AstroImageJ Plot Configuration File");
    (exactly "measurements.radec", "AstroImageJ Photometry Aperture File");
    (exactly "lightcurve.png", "Light Curve Plot");
    (exactly "compstar-lightcurves.png", "Compstar Light Curve Plots");
    (exactly "field.png", "Field Image with Apertures");
    (exactly "field-zoom.png", "Zoomed-in FOV");
    (exactly "seeing-profile.png", "Seeing Profile");
    (exactly "notes.txt", NOTES);
    (exactly "WCS.fits", WCS);
    (exactly "subset.csv", "Photometry Table Subset for Joint Fitting") ].

Definition required_keys_per_filter : list string :=
  [ MEAS;
    "AstroImageJ Plot Configuration File";
    "AstroImageJ Photometry Aperture File";
    "Compstar Light Curve Plots";
    "Field Image with Apertures";
    "Zoomed-in FOV";
    WCS;
    "Seeing Profile" ].

Definition required_global : list string := [NOTES].

(** [set(allowed_specs.values())]; the iteration order of a Python set of
    strings is unspecified and changes from one process to the next, the
    table order stands for it.  The members are those of the set; the order
    only shows in the order of the lines of the optional files that the
    audit prints. *)
Definition descriptor_set : list string := PyStr.dedup (map snd allowed_specs).

Definition optional_keys : list string :=
  filter (fun v => (negb (PyStr.mem v required_keys_per_filter)
                    && negb (PyStr.mem v required_global))%bool)
         descriptor_set.

Definition order_types : list string :=
  [ MEAS;
    "AstroImageJ Plot Configuration File";
    "AstroImageJ Photometry Aperture File";
    "Light Curve Plot";
    "Compstar Light Curve Plots";
    "Field Image with Apertures";
    "Zoomed-in FOV";
    "Seeing Profile";
    NOTES;
    WCS;
    "NEB Table";
    "NEB Depth Plots";
    "Dmag vs. RMS Plot";
    "Photometry Table Subset for Joint Fitting" ].

(* ================================================================== *)
(** * Classification of the directory *)
(* ================================================================== *)

(** One element of [recognized]. *)
Record FileRecord : Type := {
  rec_fn : string;
  rec_desc : string;
  rec_ymd : string;
  rec_obs : string;
  rec_flt : string;
  rec_px : string
}.

(** The loop [for pat,d in allowed_specs.items(): if re.fullmatch(pat,tail): desc=d; break]. *)
Fixpoint first_desc (specs : list (Re.regex * string)) (tail : string) : option string :=
  match specs with
  | [] => None
  | (pat, d) :: specs' =>
      match Re.fullmatch pat tail with
      | Some _ => Some d
      | None => first_desc specs' tail
      end
  end.

Definition grp (name : string) (m : Re.groups) : string := or_empty (Re.group name m).

Definition REASON_PATTERN : string := "Name does not match pattern".
Definition REASON_PREFIX : string := "TIC/planet mismatch".
Definition REASON_TOKEN : string := "Unrecognized filetype token".

(** The body of the classification loop: a record for [recognized] or a
    pair for [rejected]. *)
Definition classify (tgt_prefix fn : string) : FileRecord + string * string :=
  match Re.match_ base fn with
  | None => inr (fn, REASON_PATTERN)
  | Some m =>
      if negb (String.eqb (grp "tgt" m ++ "-" ++ grp "pp" m) tgt_prefix)
      then inr (fn, REASON_PREFIX)
      else
        let tail := grp "tail" m in
        if truthy (first_desc allowed_specs tail)
        then inl {| rec_fn := fn;
                    rec_desc := or_empty (first_desc allowed_specs tail);
                    rec_ymd := grp "ymd" m;
                    rec_obs := grp "obs" m;
                    rec_flt := grp "flt" m;
                    rec_px := grp "px" m |}
        else inr (fn, REASON_TOKEN)
  end.

Fixpoint recognized_of (l : list (FileRecord + string * string)) : list FileRecord :=
  match l with
  | [] => []
  | inl r :: l' => r :: recognized_of l'
  | inr _ :: l' => recognized_of l'
  end.

Fixpoint rejected_of (l : list (FileRecord + string * string)) : list (string * string) :=
  match l with
  | [] => []
  | inl _ :: l' => rejected_of l'
  | inr x :: l' => x :: rejected_of l'
  end.

(** [global_notes] *)
Definition global_notes_of (recognized : list FileRecord) : list FileRecord :=
  filter (fun x => String.eqb (rec_desc x) NOTES) recognized.

(** [found[d]] of the loops over [recognized] for one filter. *)
Definition found (recognized : list FileRecord) (date observatory flt d : string)
  : list string :=
  map rec_fn
    (filter (fun x => (String.eqb (rec_flt x) flt && String.eqb (rec_ymd x) date
                       && String.eqb (rec_obs x) observatory
                       && String.eqb (rec_desc x) d)%bool)
            recognized).

(** [[k for k in keys if not found.get(k,[])]] *)
Definition missing (keys : list string) (fnd : string -> list string) : list string :=
  filter (fun k => match fnd k with [] => true | _ => false end) keys.

(* ================================================================== *)
(** * Canonical measurement table *)
(* ================================================================== *)

(** One element of [stats]: [(fn, med, var, px)]. *)
Record Stat : Type := {
  st_fn : string;
  st_med : float;
  st_var : Z;
  st_px : string
}.

Definition SENTINEL : float := (-1e9)%float.

(** The tuple of [key=lambda z: ...]. *)
Definition sort_key (z : Stat) : float * Z * Z * string :=
  ((- st_med z)%float,
   st_var z,
   (if PyStr.isdigit (st_px z) then - PyStr.int_of_digits (st_px z) else 0),
   st_fn z).

(** [k1 < k2] on such tuples, as Python compares them: the first position
    where the components are not [==] decides, by [<]. *)
Definition key_lt (k1 k2 : float * Z * Z * string) : bool :=
  let '(m1, v1, p1, f1) := k1 in
  let '(m2, v2, p2, f2) := k2 in
  if negb (m1 =? m2)%float then (m1 <? m2)%float
  else if negb (v1 =? v2) then v1 <? v2
  else if negb (p1 =? p2) then p1 <? p2
  else String.ltb f1 f2.

Definition stat_lt (a b : Stat) : bool := key_lt (sort_key a) (sort_key b).

(** No median is a NaN: the keys are then ordered by [<]. *)
Definition ordered (stats : list Stat) : bool :=
  forallb (fun z => negb (PyFloat.is_nan (st_med z))) stats.

(** [stats.sort(key=...); stats[0][0]], when [stats] is not empty.  On keys
    that [<] orders, the stable sort puts first the least of them, the
    earliest of the list among equals.  With a NaN median [<] answers false
    both ways and the sort leaves first an element of the list that its
    algorithm decides: the one at the position the interpreter gives, a
    position of the list (the remainder by the length keeps it there). *)
Definition choose (W : World) (stats : list Stat) : option string :=
  if ordered stats then
    match PyStr.sort stat_lt stats with
    | [] => None
    | z :: _ => Some (st_fn z)
    end
  else
    match stats with
    | [] => None
    | z0 :: _ =>
        Some (st_fn (nth (Nat.modulo (sort_first W (map sort_key stats))
                                     (List.length stats))
                         stats z0))
    end.

Section Upload.

Variable W : World.
Variable a : Args.

(** [float(x)] for one cell of a column. *)
Definition float_of_text (s : string) : exn + float :=
  if PyFloat.syntax_ok s then inr (float_value W s) else inl ValueError.

Fixpoint floats_of_texts (l : list string) : exn + list float :=
  match l with
  | [] => inr []
  | s :: l' =>
      match float_of_text s with
      | inl e => inl e
      | inr x =>
          match floats_of_texts l' with
          | inl e => inl e
          | inr xs => inr (x :: xs)
          end
      end
  end.

(** [np.array(col, dtype=float)] *)
Definition np_array_float (c : Column) : exn + list float :=
  match c with
  | ColFloat xs => inr xs
  | ColInt xs => inr (map PyFloat.of_int xs)
  | ColStr xs => floats_of_texts xs
  end.

(** [float(col[0])] and [float(col[-1])] *)
Definition cell_float (last : bool) (c : Column) : exn + float :=
  let pick {A} (xs : list A) : option A :=
    if last then List.last (map Some xs) None else List.hd_error xs in
  match c with
  | ColFloat xs =>
      match pick xs with Some x => inr x | None => inl IndexError end
  | ColInt xs =>
      match pick xs with Some n => inr (PyFloat.of_int n) | None => inl IndexError end
  | ColStr xs =>
      match pick xs with Some s => float_of_text s | None => inl IndexError end
  end.

(** The body of [for x in cands]: the reader's failure and the missing
    column give the sentinel; the numpy calls are not guarded. *)
Definition candidate_stat (x : FileRecord) : exn + Stat :=
  let p := PyStr.path_join (directory a) (rec_fn x) in
  let sentinel := {| st_fn := rec_fn x; st_med := SENTINEL; st_var := 1;
                     st_px := rec_px x |} in
  match table_read W p with
  | None => inr sentinel
  | Some t =>
      if PyStr.mem "Source_Radius" (colnames t) then
        match column "Source_Radius" t with
        | None => inl KeyError
        | Some c =>
            match np_array_float c with
            | inl e => inl e
            | inr sr =>
                match PyFloat.nanmax sr, PyFloat.nanmin sr with
                | inr hi, inr lo =>
                    let vspan := (hi - lo)%float in
                    inr {| st_fn := rec_fn x;
                           st_med := PyFloat.nanmedian sr;
                           st_var := if (PyFloat.is_nan vspan || (0 <? vspan)%float)%bool
                                     then 1 else 0;
                           st_px := rec_px x |}
                | inl e, _ => inl e
                | _, inl e => inl e
                end
            end
        end
      else inr sentinel
  end.

Fixpoint candidate_stats (cands : list FileRecord) : exn + list Stat :=
  match cands with
  | [] => inr []
  | x :: cands' =>
      match candidate_stat x with
      | inl e => inl e
      | inr s =>
          match candidate_stats cands' with
          | inl e => inl e
          | inr ss => inr (s :: ss)
          end
      end
  end.

Definition candidates (recognized : list FileRecord) (flt : string) : list FileRecord :=
  filter (fun x => (String.eqb (rec_flt x) flt && String.eqb (rec_desc x) MEAS)%bool)
         recognized.

(** [chosen_tbl_by_flt] as the list of its items. *)
Fixpoint select_tables (recognized : list FileRecord) (filter_list : list string)
  : exn + list (string * string) :=
  match filter_list with
  | [] => inr []
  | flt :: rest =>
      match candidate_stats (candidates recognized flt) with
      | inl e => inl e
      | inr stats =>
          match select_tables recognized rest with
          | inl e => inl e
          | inr chosen =>
              match choose W stats with
              | Some fn => inr ((flt, fn) :: chosen)
              | None => inr chosen
              end
          end
      end
  end.

(** [chosen_tbl_by_flt.get(flt)] *)
Fixpoint chosen_get (chosen : list (string * string)) (flt : string) : option string :=
  match chosen with
  | [] => None
  | (f, fn) :: chosen' => if String.eqb f flt then Some fn else chosen_get chosen' flt
  end.

(* ------------------------------------------------------------------ *)
(** ** Arguments, target and login *)

Definition nl : string := String "010" EmptyString.

Record Target : Type := {
  tic_num : string;
  planet_tic : string;
  toi_lbl_display : string;
  toi_lbl_upload : string;
  target_title : string;
  tgt_prefix : string
}.

Definition check_args : M unit :=
  print (nl ++ "===== TFOP SG1 Utility for Uploading Observations to ExoFOP =====") ;;
  when (negb (isdir W (directory a))) (_err "ERROR: Invalid directory.") ;;
  when (negb (truthy (telsize a)))
       (_err "ERROR: Please provide telescope size via --telsize.") ;;
  when (negb (truthy (camera a)))
       (_err "ERROR: Please provide camera name via --camera.") ;;
  when (negb (truthy (coverage a)))
       (_err "ERROR: Please provide --coverage (Full, Ingress, Egress, or 'Out of Transit').").

Definition dq : string := String (ascii_of_nat 34) EmptyString.

Definition ERR_IDS : string :=
  "ERROR: tic and toi must look like " ++ dq ++ "12345678.01" ++ dq ++ " and "
  ++ dq ++ "1234.01" ++ dq ++ ".".

Definition parse_target : M Target :=
  let tic_str := PyStr.strip (tic a) in
  let toi_str := PyStr.strip (toi a) in
  let no_toi := String.eqb toi_str "0" in
  let m_tic := Re.fullmatch tic_pattern tic_str in
  let m_toi := if no_toi then None else Re.fullmatch tic_pattern toi_str in
  match m_tic with
  | None => _err ERR_IDS
  | Some mt =>
      let num := grp "1" mt in
      let pl := grp "2" mt in
      let prefix := "TIC" ++ num ++ "-" ++ pl in
      if no_toi then
        ret {| tic_num := num; planet_tic := pl;
               toi_lbl_display := ""; toi_lbl_upload := "";
               target_title := "TIC " ++ tic_str ++ " (no TOI identifier)";
               tgt_prefix := prefix |}
      else
        match m_toi with
        | None => _err ERR_IDS
        | Some mo =>
            if negb (String.eqb pl (grp "2" mo))
            then _err "ERROR: Planet indices of tic and toi must match."
            else
              ret {| tic_num := num; planet_tic := pl;
                     toi_lbl_display := "TOI " ++ toi_str;
                     toi_lbl_upload := "TOI" ++ toi_str;
                     target_title := "TIC " ++ tic_str ++ " (TOI " ++ toi_str ++ ")";
                     tgt_prefix := prefix |}
        end
  end.

Definition URL_LOGIN : string := "https://exofop.ipac.caltech.edu/tess/password_check.php".
Definition URL_TSERIES : string := "https://exofop.ipac.caltech.edu/tess/insert_tseries.php".
Definition URL_FILE : string := "https://exofop.ipac.caltech.edu/tess/insert_file.php".

(** [s.post(url, data=..., files=...)] followed by the test
    [r.status_code >= 400]. *)
Definition post (url : string) (data : list (string * string)) (file : option string)
  : M bool :=
  emit (Post url data file) ;;
  ret (400 <=? status_code W url data file).

Definition login : M unit :=
  failed <- post URL_LOGIN
              [("username", username a); ("password", password a);
               ("ref", "login_user"); ("ref_page", "/tess/")] None ;;
  when failed (_err (nl ++ "ERROR: Login failed.")) ;;
  print "Successfully logged in to ExoFOP.".

(* ------------------------------------------------------------------ *)
(** ** Listing, classification and consistency *)

Definition disallowed (f : string) : bool :=
  (PyStr.endswith "seeing-profile.gif" f || PyStr.contains "bjd-flux-err" f)%bool.

Definition list_files : M (list string) :=
  let files := PyStr.sorted_strings (listdir W (directory a)) in
  for_each files (fun f =>
    when (disallowed f) (_err ("ERROR: Disallowed file present: " ++ f))) ;;
  ret files.

(** What the script knows after the consistency checks. *)
Record Front : Type := {
  target : Target;
  recognized : list FileRecord;
  rejected : list (string * string);
  date : string;
  observatory : string;
  filter_list : list string;
  chosen_tbl_by_flt : list (string * string)
}.

Definition consistency (tg : Target) (recd : list FileRecord)
  : M (string * string * list string) :=
  when (match recd with [] => true | _ => false end)
       (_err "ERROR: No recognized files for given TIC/TOI.") ;;
  let dates := PyStr.dedup (map rec_ymd recd) in
  let observatories := PyStr.dedup (map rec_obs recd) in
  when (Nat.ltb 1 (List.length dates) || Nat.ltb 1 (List.length observatories))%bool
       (_err ("ERROR: Multiple dates/observatories found: dates="
              ++ PyStr.repr_list (PyStr.sorted_strings dates)
              ++ ", observatories="
              ++ PyStr.repr_list (PyStr.sorted_strings observatories) ++ ".")) ;;
  let date := List.hd "" dates in
  let observatory := List.hd "" observatories in
  let filter_list := PyStr.sorted_strings (PyStr.dedup (map rec_flt recd)) in
  print (target_title tg) ;;
  print ("Detected set -> Date: " ++ date ++ ", Observatory: " ++ observatory
         ++ ", Filter(s): " ++ PyStr.join ", " filter_list) ;;
  let global_notes := global_notes_of recd in
  when (negb (Nat.eqb (List.length global_notes) 1))
       (_err "ERROR: Exactly one notes.txt must be present.") ;;
  for_each global_notes (fun n =>
    when (negb (String.eqb (rec_ymd n) date) || negb (String.eqb (rec_obs n) observatory))%bool
         (_err "ERROR: notes.txt must match the date and observatory of the set.")) ;;
  ret (date, observatory, filter_list).

(* ------------------------------------------------------------------ *)
(** ** Listing of the recognized and rejected files *)

Definition max_len (l : list string) : nat :=
  fold_right (fun s m => Nat.max (String.length s) m) O l.

(** [files_of_type] with the chosen table moved to the front. *)
Definition chosen_first (ct : string) (files_of_type : list string) : list string :=
  if PyStr.mem ct files_of_type
  then ct :: filter (fun x => negb (String.eqb x ct)) files_of_type
  else files_of_type.

Definition ordered_listing (d : Front) (flt : string) : list (string * string) :=
  flat_map (fun typ =>
    let files_of_type :=
      PyStr.sorted_strings (found (recognized d) (date d) (observatory d) flt typ) in
    let files_of_type :=
      if (String.eqb typ MEAS && truthy (chosen_get (chosen_tbl_by_flt d) flt))%bool
      then chosen_first (or_empty (chosen_get (chosen_tbl_by_flt d) flt)) files_of_type
      else files_of_type in
    map (fun fn => (fn, typ)) files_of_type) order_types.

Definition show_files (d : Front) : M unit :=
  for_each (filter_list d) (fun flt =>
    let ordered := ordered_listing d flt in
    when (match ordered with [] => false | _ => true end)
      (let w := max_len (map fst ordered) in
       print (nl ++ "Recognized files (filter " ++ flt ++ "):") ;;
       for_each ordered (fun '(fn, desc) =>
         print ("  ✔ " ++ PyStr.ljust w fn ++ "  ->  " ++ desc)))) ;;
  when (match rejected d with [] => false | _ => true end)
    (let w := max_len (map fst (rejected d)) in
     print (nl ++ "Rejected files (not used):") ;;
     for_each (rejected d) (fun '(fn, why) =>
       print ("  - " ++ PyStr.ljust w fn ++ "  ->  " ++ why))).

(** Everything up to the completeness audit. *)
Definition front : M Front :=
  check_args ;;
  tg <- parse_target ;;
  login ;;
  files <- list_files ;;
  let cls := map (classify (tgt_prefix tg)) files in
  let recd := recognized_of cls in
  '(date, observatory, filter_list) <- consistency tg recd ;;
  chosen <- lift (select_tables recd filter_list) ;;
  let d := {| target := tg; recognized := recd; rejected := rejected_of cls;
              date := date; observatory := observatory;
              filter_list := filter_list; chosen_tbl_by_flt := chosen |} in
  show_files d ;;
  ret d.

(* ------------------------------------------------------------------ *)
(** ** Completeness audit and its confirmation *)

Definition found_in (d : Front) (flt : string) : string -> list string :=
  found (recognized d) (date d) (observatory d) flt.

(** [missing_by_flt[flt]] and [missing_opt_by_flt[flt]] *)
Definition missing_by_flt (d : Front) (flt : string) : list string :=
  missing required_keys_per_filter (found_in d flt).
Definition missing_opt_by_flt (d : Front) (flt : string) : list string :=
  missing optional_keys (found_in d flt).

Definition single_filter (d : Front) : bool := Nat.eqb (List.length (filter_list d)) 1.

(** [any(missing_by_flt[flt] for flt in filter_list)] *)
Definition any_missing (d : Front) : bool :=
  existsb (fun flt => match missing_by_flt d flt with [] => false | _ => true end)
          (filter_list d).

Definition PROMPT_PROCEED : string := "Proceed with recognized files anyway? [y/N]: ".
Definition MSG_ABORTED : string := "Aborted by user due to missing required TFOP files.".

(** The answer the confirmation accepts. *)
Definition affirmative (answer : string) : bool :=
  String.eqb (PyStr.lower (PyStr.strip answer)) "y".

(** The listing of the files that are optional and absent. *)
Definition report_optional (d : Front) : M unit :=
  when (negb (single_filter d))
    (print (nl ++ "Global files:") ;;
     print (if Nat.eqb (List.length (global_notes_of (recognized d))) 1
            then "  ✔ notes.txt found" else "  - notes.txt missing")) ;;
  for_each (filter_list d) (fun flt =>
    match missing_opt_by_flt d flt with
    | [] => print (nl ++ "Optional files not detected (filter " ++ flt ++ "): None")
    | opt =>
        print (nl ++ "Optional files not detected (filter " ++ flt ++ "):") ;;
        for_each opt (fun k => print ("  • " ++ k))
    end).

(** The listing of the required files that are absent. *)
Definition report_missing (d : Front) : M unit :=
  print (nl ++ "Missing required TFOP files:") ;;
  for_each (filter_list d) (fun flt =>
    when (match missing_by_flt d flt with [] => false | _ => true end)
      (print ("  Filter " ++ flt ++ ":") ;;
       for_each (missing_by_flt d flt) (fun k => print ("    • " ++ k)))).

Definition completeness (d : Front) : M unit :=
  report_optional d ;;
  when (any_missing d)
    (report_missing d ;;
     answer <- input PROMPT_PROCEED ;;
     when (negb (affirmative answer)) (_err MSG_ABORTED)).

(* ------------------------------------------------------------------ *)
(** ** Submission entries *)

(** The dict [entries], field by field in its insertion order. *)
Record Entry : Type := {
  e_planet : string;
  e_tel : string;
  e_telsize : string;
  e_camera : string;
  e_filter : string;
  e_pixscale : string;
  e_psf : string;
  e_photaprad : string;
  e_obsdate : string;
  e_obsdur : string;
  e_obsnum : string;
  e_obstype : string;
  e_transcov : string;
  e_deltamag : string;
  e_tag : string;
  e_groupname : string;
  e_notes : string;
  e_id : string
}.

Definition entry_data (e : Entry) : list (string * string) :=
  [ ("planet", e_planet e); ("tel", e_tel e); ("telsize", e_telsize e);
    ("camera", e_camera e); ("filter", e_filter e); ("pixscale", e_pixscale e);
    ("psf", e_psf e); ("photaprad", e_photaprad e); ("obsdate", e_obsdate e);
    ("obsdur", e_obsdur e); ("obsnum", e_obsnum e); ("obstype", e_obstype e);
    ("transcov", e_transcov e); ("deltamag", e_deltamag e); ("tag", e_tag e);
    ("groupname", e_groupname e); ("notes", e_notes e); ("id", e_id e) ].

(** [{'full':'Full',...}.get(coverage.strip().lower(),'Full')] *)
Definition cov : string :=
  let c := PyStr.lower (PyStr.strip (or_empty (coverage a))) in
  if String.eqb c "full" then "Full"
  else if String.eqb c "ingress" then "Ingress"
  else if String.eqb c "egress" then "Egress"
  else if String.eqb c "out of transit" then "Out of Transit"
  else "Full".

Definition tag (d : Front) : string :=
  date d ++ "_" ++ username a ++ "_tic" ++ tic_num (target d) ++ "_"
  ++ planet_tic (target d).

(** The single-filter test of [psf] and [deltamag]; the result is
    [deltamag_single]. *)
Definition single_filter_args : M string :=
  when (negb (truthy (psf a)))
       (_err "ERROR: Single-filter run: please supply --psf (e.g., '3.41').") ;;
  when (negb (truthy (deltamag a)))
       (_err "ERROR: Single-filter run: please supply --deltamag (enter '0' to leave blank).") ;;
  let dms := PyStr.strip (or_empty (deltamag a)) in
  ret (if String.eqb dms "0" then "" else dms).

(** Observation window of a table: [start], [end], minutes and rows. *)
Record Timing : Type := {
  t_start : float;
  t_end : float;
  t_minutes : Z;
  t_rows : nat
}.

(** [exp0, exp1] *)
Definition exposures (t : Table) : exn + float * float :=
  let both (c : Column) : exn + float * float :=
    match cell_float false c with
    | inl e => inl e
    | inr x0 =>
        match cell_float true c with
        | inl e => inl e
        | inr x1 => inr (x0, x1)
        end
    end in
  if PyStr.mem "EXPTIME" (colnames t) then
    match column "EXPTIME" t with Some c => both c | None => inl KeyError end
  else if PyStr.mem "EXPOSURE" (colnames t) then
    match column "EXPOSURE" t with Some c => both c | None => inl KeyError end
  else inr (0%float, 0%float).

(** Lines 223-230, for a table that has the column [JD_UTC]. *)
Definition timing (t : Table) : exn + Timing :=
  match exposures t with
  | inl e => inl e
  | inr (exp0, exp1) =>
      match column "JD_UTC" t with
      | None => inl KeyError
      | Some c =>
          match cell_float false c with
          | inl e => inl e
          | inr jd0 =>
              match cell_float true c with
              | inl e => inl e
              | inr jd1 =>
                  let start := (jd0 - 0.5 * exp0 / 86400)%float in
                  let end_ := (jd1 + 0.5 * exp1 / 86400)%float in
                  match PyFloat.round ((end_ - start) * 24 * 60)%float with
                  | inl e => inl e
                  | inr n =>
                      inr {| t_start := start; t_end := end_; t_minutes := n;
                             t_rows := table_len t |}
                  end
              end
          end
      end
  end.

(** The loop over [wcs_files]: the first file with finite, positive scales
    gives [pixscale]; a reader that raises is skipped. *)
Fixpoint first_valid_wcs (wcs_files : list string) : option (string * string) :=
  match wcs_files with
  | [] => None
  | wfn :: rest =>
      let p := PyStr.path_join (directory a) wfn in
      match wcs_pixel_scales W p with
      | None => first_valid_wcs rest
      | Some raw =>
          let scales := map (fun x => (x * 3600)%float) raw in
          if (forallb PyFloat.isfinite scales
              && forallb (fun x => (0 <? x)%float) scales)%bool
          then Some (float_repr W (float_value W (format_2g W (PyFloat.mean scales))), p)
          else first_valid_wcs rest
      end
  end.

Definition VAR_NOTE : string := "aperture radius was variable in time".

(** The guarded block that sets [photaprad] and [var_note]: whatever is
    raised inside leaves the values assigned so far. *)
Definition aperture (t : Table) : string * string :=
  match column "Source_Radius" t with
  | None => ("", "")
  | Some c =>
      match np_array_float c with
      | inl _ => ("", "")
      | inr sr =>
          let med := PyFloat.nanmedian sr in
          let photaprad := float_repr W (round1 W med) in
          match PyFloat.nanmax sr, PyFloat.nanmin sr with
          | inr hi, inr lo =>
              let vspan := (hi - lo)%float in
              (photaprad,
               if (negb (PyFloat.is_nan vspan) && (0 <? vspan)%float)%bool
               then VAR_NOTE else "")
          | _, _ => (photaprad, "")
          end
      end
  end.

Definition prompt_psf (flt : string) : string :=
  "Estimated PSF (arcsec) for filter " ++ flt ++ " (e.g., 3.41): ".
Definition prompt_deltamag (flt : string) : string :=
  "Faintest Neighbor delta Mag for filter " ++ flt ++ " (blank to leave empty): ".

(** [while True: psf_in=input(...).strip(); try: float(psf_in); ...] *)
Fixpoint ask_psf (flt : string) (ans : list string)
  : result string * list string * list event :=
  match ans with
  | [] => (Raise EOFError, [], [Input (prompt_psf flt)])
  | x :: ans' =>
      let psf_in := PyStr.strip x in
      if PyFloat.syntax_ok psf_in then (Ok psf_in, ans', [Input (prompt_psf flt)])
      else
        match ask_psf flt ans' with
        | (r, rest, tr) =>
            (r, rest,
             Input (prompt_psf flt) :: Print "Please enter a numeric value." :: tr)
        end
  end.

Fixpoint ask_deltamag (flt : string) (ans : list string)
  : result string * list string * list event :=
  match ans with
  | [] => (Raise EOFError, [], [Input (prompt_deltamag flt)])
  | x :: ans' =>
      let dm_in := PyStr.strip x in
      if String.eqb dm_in "" then (Ok "", ans', [Input (prompt_deltamag flt)])
      else if PyFloat.syntax_ok dm_in
      then (Ok dm_in, ans', [Input (prompt_deltamag flt)])
      else
        match ask_deltamag flt ans' with
        | (r, rest, tr) =>
            (r, rest,
             Input (prompt_deltamag flt)
               :: Print "Please enter a numeric value or leave blank." :: tr)
        end
  end.

(** [_arrow_block(rows, arrow="->", extra_pad=2)] *)
Definition _arrow_block (rows : list (string * string)) : M unit :=
  let w := max_len (map fst rows) in
  for_each rows (fun '(k, v) => print (PyStr.ljust w k ++ "  ->  " ++ v)).

Definition summary_header (flt : string) : string :=
  nl ++ "Observation Summary (filter " ++ flt ++ "):".
(** [chosen_tbl] of the build loop. *)
Definition chosen_tbl (d : Front) (flt : string) : string :=
  let meas_candidates := found_in d flt MEAS in
  match chosen_get (chosen_tbl_by_flt d) flt with
  | Some ct =>
      if PyStr.mem ct meas_candidates then ct
      else List.hd "" (PyStr.sorted_strings meas_candidates)
  | None => List.hd "" (PyStr.sorted_strings meas_candidates)
  end.

(** [psf_final, deltamag_final] *)
Definition psf_and_deltamag (d : Front) (deltamag_single flt : string)
  : M (string * string) :=
  if single_filter d then ret (PyStr.strip (or_empty (psf a)), deltamag_single)
  else
    psf_final <- ask_psf flt ;;
    deltamag_final <- ask_deltamag flt ;;
    ret (psf_final, deltamag_final).

(** [notes_final] *)
Definition notes_with (var_note : string) : string :=
  let notes_final := PyStr.strip (or_empty (notes a)) in
  if String.eqb var_note "" then notes_final
  else if String.eqb notes_final "" then var_note
  else notes_final ++ "; " ++ var_note.

(** One turn of the loop that builds [entries_by_flt]. *)
Definition build_filter (d : Front) (deltamag_single flt : string) : M Entry :=
  let fnd := found_in d flt in
  when (match fnd MEAS with [] => true | _ => false end)
       (_err ("ERROR: No measurement table found for filter " ++ flt ++ ".")) ;;
  let p := PyStr.path_join (directory a) (chosen_tbl d flt) in
  t <- match table_read W p with
       | Some t => ret t
       | None => raise ReaderError
       end ;;
  when (negb (PyStr.mem "JD_UTC" (colnames t)))
       (_err ("ERROR: JD_UTC not found in table (filter " ++ flt ++ ").")) ;;
  tm <- lift (timing t) ;;
  wcs <- match first_valid_wcs (fnd WCS) with
         | Some x => ret x
         | None =>
             _err ("ERROR: No valid WCS solution found in Plate-Solved Image for filter "
                   ++ flt ++ ".")
         end ;;
  let '(photaprad, var_note) := aperture t in
  '(psf_final, deltamag_final) <- psf_and_deltamag d deltamag_single flt ;;
  let entries :=
    {| e_planet := toi_lbl_upload (target d);
       e_tel := observatory d;
       e_telsize := or_empty (telsize a);
       e_camera := or_empty (camera a);
       e_filter := flt;
       e_pixscale := fst wcs;
       e_psf := psf_final;
       e_photaprad := photaprad;
       e_obsdate := PyStr.take 4 (date d) ++ "-" ++ PyStr.take 2 (PyStr.drop 4 (date d))
                    ++ "-" ++ PyStr.drop 6 (date d);
       e_obsdur := PyStr.str_of_int (t_minutes tm);
       e_obsnum := PyStr.str_of_int (Z.of_nat (t_rows tm));
       e_obstype := "Continuous";
       e_transcov := cov;
       e_deltamag := deltamag_final;
       e_tag := tag d;
       e_groupname := group a;
       e_notes := notes_with var_note;
       e_id := tic_num (target d) |} in
  radius_shown <-
    (if String.eqb photaprad "" then ret ""
     else x <- lift (float_of_text photaprad) ;;
          n <- lift (PyFloat.round x) ;;
          ret (PyStr.str_of_int n)) ;;
  print (summary_header flt) ;;
  _arrow_block
    [ ("Name", "TIC " ++ tic_num (target d) ++ "." ++ planet_tic (target d));
      ("TOI", toi_lbl_display (target d));
      ("User", username a);
      ("Telescope", observatory d ++ " (" ++ or_empty (telsize a) ++ " m)");
      ("Camera", or_empty (camera a));
      ("Filter", flt);
      ("Pixel scale (arcsec)", e_pixscale entries);
      ("Estimated PSF (arcsec)", psf_final);
      ("Photometric Aperture Radius (pixel)", radius_shown);
      ("Transit Coverage", cov);
      ("Faintest Neighbor delta Mag", e_deltamag entries);
      ("Observation date (UT)", e_obsdate entries);
      ("Observation duration (m)", e_obsdur entries);
      ("Number of Observations", e_obsnum entries);
      ("Observation Type", "Continuous");
      ("Notes", e_notes entries);
      ("Group", group a);
      ("Tag", tag d) ] ;;
  ret entries.

(** [entries_by_flt], as the list of its items in [filter_list] order. *)
Definition build_entries (d : Front) : M (list (string * Entry)) :=
  deltamag_single <- (if single_filter d then single_filter_args else ret "") ;;
  map_m (fun flt => e <- build_filter d deltamag_single flt ;; ret (flt, e))
        (filter_list d).

(* ------------------------------------------------------------------ *)
(** ** Submission *)

Definition MSG_DISABLED : string :=
  nl ++ "Uploads are disabled by settings (both --skip-summary and --skip-files were set). Nothing will be uploaded.".
Definition PROMPT_SUBMIT : string :=
  nl ++ "Press Enter to submit the time-series summaries and upload recognized files to ExoFOP, or type 'n' to cancel: ".
Definition MSG_CANCELLED : string := "User cancelled before uploads.".

(** [ordered] of the upload loop. *)
Definition upload_order (d : Front) (flt : string) : list (string * string) :=
  let fnd := found_in d flt in
  let meas_candidates := PyStr.sorted_strings (fnd MEAS) in
  let ct := chosen_get (chosen_tbl_by_flt d) flt in
  ((if (truthy ct && PyStr.mem (or_empty ct) meas_candidates)%bool
    then (or_empty ct, MEAS)
         :: map (fun fn => (fn, MEAS))
                (filter (fun x => negb (String.eqb x (or_empty ct))) meas_candidates)
    else map (fun fn => (fn, MEAS)) meas_candidates)
   ++ flat_map (fun typ => map (fun fn => (fn, typ)) (PyStr.sorted_strings (fnd typ)))
               (List.tl order_types))%list.

Definition submit_filter (d : Front) (fe : string * Entry) : M unit :=
  let '(flt, entries) := fe in
  when (negb (skip_summary a))
    (failed <- post URL_TSERIES (entry_data entries) None ;;
     when failed (_err (nl ++ "ERROR: Time Series Add failed (filter " ++ flt ++ ")."))) ;;
  when (negb (skip_files a))
    (for_each (upload_order d flt) (fun '(fn, desc) =>
       failed <- post URL_FILE
                   [ ("file_type", "Light_Curve"); ("planet", e_planet entries);
                     ("file_desc", desc); ("file_tag", e_tag entries);
                     ("groupname", e_groupname entries); ("propflag", "on");
                     ("tid", e_id entries) ]
                   (Some (PyStr.path_join (directory a) fn)) ;;
       when failed (_err (nl ++ "ERROR: File upload failed: " ++ fn)))).

Definition finish (d : Front) (entries_by_flt : list (string * Entry)) : M unit :=
  if (skip_summary a && skip_files a)%bool then print MSG_DISABLED
  else
    ans <- input PROMPT_SUBMIT ;;
    when (String.eqb (PyStr.lower (PyStr.strip ans)) "n") (_err MSG_CANCELLED) ;;
    for_each entries_by_flt (submit_filter d) ;;
    print "All requested uploads completed.".

(** The function [upload]. *)
Definition upload : M unit :=
  d <- front ;;
  completeness d ;;
  entries_by_flt <- build_entries d ;;
  finish d entries_by_flt.

End Upload.


(* ================================================================== *)
(** * Scenarios *)
(* ================================================================== *)

Module Scenario.

Local Open Scope float_scope.

(** Files of one observation: date 20230115, observatory ObsA, filter V,
    target prefix TIC12345678-01. *)
Definition name (tail : string) : string := "TIC12345678-01_20230115_ObsA_V_" ++ tail.

(** A measurement table, a plate-solved image and the notes. *)
Definition minimal_dir : list string :=
  [name "notes.txt"; name "measurements.tbl"; name "WCS.fits"].

(** Every required file of the filter, and the notes. *)
Definition full_dir : list string :=
  [ name "measurements.tbl"; name "measurements.plotcfg"; name "measurements.radec";
    name "compstar-lightcurves.png"; name "field.png"; name "field-zoom.png";
    name "WCS.fits"; name "seeing-profile.png"; name "notes.txt" ].

(** Three exposures of 60 s through a constant aperture of 5 pixels. *)
Definition table : Table :=
  [ ("JD_UTC", ColFloat [2459000.5; 0x1.2c2bc40a3d70ap+21; 0x1.2c2bc4147ae14p+21]);
    ("EXPTIME", ColInt [60%Z; 60%Z; 60%Z]);
    ("Source_Radius", ColFloat [5; 5; 5]) ].

(** The same table with an aperture column that holds a text. *)
Definition table_text_radius : Table :=
  [ ("JD_UTC", ColFloat [2459000.5; 0x1.2c2bc40a3d70ap+21; 0x1.2c2bc4147ae14p+21]);
    ("EXPTIME", ColInt [60%Z; 60%Z; 60%Z]);
    ("Source_Radius", ColStr ["abc"; "5.0"; "5.0"]) ].

(** The same table with an aperture column that holds no number. *)
Definition table_nan_radius : Table :=
  [ ("JD_UTC", ColFloat [2459000.5; 0x1.2c2bc40a3d70ap+21; 0x1.2c2bc4147ae14p+21]);
    ("EXPTIME", ColInt [60%Z; 60%Z; 60%Z]);
    ("Source_Radius", ColFloat [nan; nan; nan]) ].

(** The same table without the aperture column. *)
Definition table_no_radius : Table :=
  [ ("JD_UTC", ColFloat [2459000.5; 0x1.2c2bc40a3d70ap+21; 0x1.2c2bc4147ae14p+21]);
    ("EXPTIME", ColInt [60%Z; 60%Z; 60%Z]) ].

(** A world over the directory [/data]: the listed files, the given answer
    of the table reader, a plate scale of 0.36 arcsec per pixel, a server
    that accepts everything, and Python's float conversions tabulated on the
    values that occur. *)
Definition world (files : list string) (tbl : option Table) : World :=
  {| isdir := fun p => String.eqb p "/data";
     listdir := fun p => if String.eqb p "/data" then files else [];
     table_read := fun p =>
       if String.eqb p ("/data/" ++ name "measurements.tbl") then tbl else None;
     wcs_pixel_scales := fun p =>
       if String.eqb p ("/data/" ++ name "WCS.fits")
       then Some [0x1.a36e2eb1c432dp-14; 0x1.a36e2eb1c432dp-14] else None;
     status_code := fun _ _ _ => 200%Z;
     float_value := fun s =>
       if String.eqb s "5.0" then 5
       else if String.eqb s "0.36" then 0x1.70a3d70a3d70ap-2 else nan;
     float_repr := fun x =>
       if x =? 5 then "5.0"
       else if x =? 0x1.70a3d70a3d70ap-2 then "0.36" else "nan";
     round1 := fun x => x;
     format_2g := fun _ => "0.36";
     sort_first := fun _ => O |}.

Definition args (psf_arg : option string) (skip : bool) : Args :=
  {| username := "observer"; password := "secret";
     tic := "12345678.01"; toi := "1234.01";
     directory := "/data"; group := "tfopwg";
     coverage := Some "Full"; telsize := Some "0.4"; camera := Some "CCD";
     psf := psf_arg; deltamag := Some "0"; notes := None;
     skip_summary := skip; skip_files := skip |}.

(** What the run knows after the consistency checks, in the complete
    directory. *)
Definition full_front : Front :=
  {| target := {| tic_num := "12345678"; planet_tic := "01";
                  toi_lbl_display := "TOI 1234.01";
                  toi_lbl_upload := "TOI1234.01";
                  target_title := "TIC 12345678.01 (TOI 1234.01)";
                  tgt_prefix := "TIC12345678-01" |};
     recognized := recognized_of
                     (map (classify "TIC12345678-01") (PyStr.sorted_strings full_dir));
     rejected := [];
     date := "20230115";
     observatory := "ObsA";
     filter_list := ["V"];
     chosen_tbl_by_flt := [("V", name "measurements.tbl")] |}.

(** The candidates of the tie-break example: A and B with median 5.0 and a
    fixed aperture, pixel tokens 10 and 20; C with median 6.0 and a variable
    aperture. *)
Definition cand_A : Stat :=
  {| st_fn := "TIC1-01_20230115_ObsA_V_10px_measurements.tbl";
     st_med := 5; st_var := 0%Z; st_px := "10" |}.
Definition cand_B : Stat :=
  {| st_fn := "TIC1-01_20230115_ObsA_V_20px_measurements.tbl";
     st_med := 5; st_var := 0%Z; st_px := "20" |}.
Definition cand_C : Stat :=
  {| st_fn := "TIC1-01_20230115_ObsA_V_measurements.tbl";
     st_med := 6; st_var := 1%Z; st_px := "" |}.

(** A table of two rows and no exposure column, whose span in days is the
    float just above 6.5/1440. *)
Definition short_table : Table :=
  [ ("JD_UTC", ColFloat [0; 0x1.27d27d27d27d3p-8]) ].

End Scenario.

(* ================================================================== *)
(** * Statements of the specification that are compared with the code *)
(* ================================================================== *)

Module Stated.

(** The duration in minutes as the specification writes it: the span in
    days times 1440, rounded. *)
Definition minutes_1440 (start end_ : float) : exn + Z :=
  PyFloat.round ((end_ - start) * 1440)%float.

End Stated.

(* ================================================================== *)
(** * Observations on a run *)
(* ================================================================== *)

Module Run.

Definition result_of {A} (x : result A * list string * list event) : result A :=
  fst (fst x).
Definition rest_of {A} (x : result A * list string * list event) : list string :=
  snd (fst x).
Definition trace_of {A} (x : result A * list string * list event) : list event :=
  snd x.

(** Every event of every run of [m] satisfies [P]. *)
Definition emits {A} (P : event -> Prop) (m : M A) : Prop :=
  forall ans, Forall P (trace_of (m ans)).

(** The trace ends with the message and the bell of [_err]. *)
Definition ends_with_err (tr : list event) : Prop :=
  exists pre msg, tr = (pre ++ [Print msg; Bell])%list.

(** Whenever [m] exits, it is with status 1 and through [_err]. *)
Definition dies_by_err {A} (m : M A) : Prop :=
  forall ans,
    match result_of (m ans) with
    | Exit c => c = 1 /\ ends_with_err (trace_of (m ans))
    | _ => True
    end.

Definition is_print (e : event) : Prop :=
  match e with
  | Print _ => True
  | _ => False
  end.

(** [m] prints, and does nothing else. *)
Definition prints_only (m : M unit) : Prop :=
  forall ans, exists tr, m ans = (Ok tt, ans, tr) /\ Forall is_print tr.

Definition is_input (p : string) (e : event) : bool :=
  match e with
  | Input q => String.eqb q p
  | _ => false
  end.

(** How many times the prompt [p] was shown. *)
Definition count_input (p : string) (tr : list event) : nat :=
  List.length (filter (is_input p) tr).

(** An event other than the confirmation prompt of the audit. *)
Definition other_than_proceed (e : event) : Prop := is_input PROMPT_PROCEED e = false.

(** The line [_arrow_block] prints for one row. *)
Definition row_line (w : nat) (kv : string * string) : event :=
  Print (PyStr.ljust w (fst kv) ++ "  ->  " ++ snd kv).

(** The submit prompt and the two kinds of submission. *)
Definition submits (e : event) : bool :=
  match e with
  | Post url _ _ => (String.eqb url URL_TSERIES || String.eqb url URL_FILE)%bool
  | Input p => String.eqb p PROMPT_SUBMIT
  | _ => false
  end.

End Run.

(* ================================================================== *)
(** * Comparisons, and the order the ranking uses *)
(* ================================================================== *)

Module Ord.

(** A three-way comparison that behaves like a total preorder. *)
Record ok {A : Type} (cmp : A -> A -> comparison) : Prop := {
  ok_refl : forall x, cmp x x = Eq;
  ok_sym : forall x y, cmp y x = CompOpp (cmp x y);
  ok_trans : forall x y z, cmp x y = Lt -> cmp y z = Lt -> cmp x z = Lt;
  ok_eq_l : forall x y z, cmp x y = Eq -> cmp x z = cmp y z
}.

Definition lex {A B : Type} (ca : A -> A -> comparison) (cb : B -> B -> comparison)
    (p q : A * B) : comparison :=
  match ca (fst p) (fst q) with
  | Eq => cb (snd p) (snd q)
  | c => c
  end.

Definition lt_of {A : Type} (cmp : A -> A -> comparison) (x y : A) : bool :=
  match cmp x y with
  | Lt => true
  | _ => false
  end.

(** [x] is below every element of [l]. *)
Definition least {A : Type} (cmp : A -> A -> comparison) (x : A) (l : list A) : Prop :=
  forall y, In y l -> cmp y x <> Lt.

End Ord.

Module FloatOrd.

(** A key in [Z * Z * Z] whose lexicographic order is the order of the
    floats: class, then exponent, then mantissa. *)
Definition rank (f : spec_float) : Z * Z * Z :=
  match f with
  | S754_zero _ => (0, 0, 0)
  | S754_infinity s => (if s then -2 else 2, 0, 0)
  | S754_nan => (3, 0, 0)
  | S754_finite s m e => if s then (-1, - e, Zneg m) else (1, e, Zpos m)
  end.

Definition cmp3 : Z * Z * Z -> Z * Z * Z -> comparison :=
  Ord.lex (Ord.lex Z.compare Z.compare) Z.compare.

Definition frank (x : float) : Z * Z * Z := rank (Prim2SF x).

End FloatOrd.

Module Selection.

(** The median of a candidate is a number. *)
Definition numeric (z : Stat) : bool := negb (PyFloat.is_nan (st_med z)).

(** Ascending lexicographic order on the tuples of [sort_key]. *)
Definition lex_lt (k1 k2 : float * Z * Z * string) : Prop :=
  let '(m1, v1, p1, f1) := k1 in
  let '(m2, v2, p2, f2) := k2 in
  (m1 <? m2)%float = true
  \/ ((m1 =? m2)%float = true
      /\ (v1 < v2
          \/ (v1 = v2 /\ (p1 < p2 \/ (p1 = p2 /\ String.ltb f1 f2 = true))))).

Definition key_cmp : Z * Z * Z * Z * Z * string -> Z * Z * Z * Z * Z * string -> comparison :=
  Ord.lex (Ord.lex (Ord.lex FloatOrd.cmp3 Z.compare) Z.compare) String.compare.

Definition embed (z : Stat) : Z * Z * Z * Z * Z * string :=
  let '(m, v, p, f) := sort_key z in (FloatOrd.frank m, v, p, f).

Definition stat_cmp (x y : Stat) : comparison := key_cmp (embed x) (embed y).

End Selection.

(* ================================================================== *)
(** * What a pattern matches *)
(* ================================================================== *)

Module ReSem.

Import Re.

(** [sem r pos w rest g g']: at offset [pos] of the subject, [r] can consume
    [w] and leave [rest], turning the groups [g] into [g']. *)
Inductive sem : regex -> nat -> string -> string -> groups -> groups -> Prop :=
| sem_lit c pos rest g :
    sem (Lit c) pos (String c EmptyString) rest g g
| sem_class (p : ascii -> bool) c pos rest g :
    p c = true -> sem (Class p) pos (String c EmptyString) rest g g
| sem_empty pos rest g :
    sem Empty pos EmptyString rest g g
| sem_seq r1 r2 pos w1 w2 rest g g1 g2 :
    sem r1 pos w1 (w2 ++ rest) g g1 ->
    sem r2 (String.length w1 + pos) w2 rest g1 g2 ->
    sem (Seq r1 r2) pos (w1 ++ w2) rest g g2
| sem_opt_some r pos w rest g g' :
    sem r pos w rest g g' -> sem (Opt r) pos w rest g g'
| sem_opt_none r pos rest g :
    sem (Opt r) pos EmptyString rest g g
| sem_plus_one r pos w rest g g' :
    sem r pos w rest g g' -> w <> EmptyString -> sem (Plus r) pos w rest g g'
| sem_plus_more r pos w1 w2 rest g g1 g2 :
    sem r pos w1 (w2 ++ rest) g g1 -> w1 <> EmptyString ->
    sem (Plus r) (String.length w1 + pos) w2 rest g1 g2 ->
    sem (Plus r) pos (w1 ++ w2) rest g g2
| sem_group name r pos w rest g g' :
    sem r pos w rest g g' -> sem (Group name r) pos w rest g ((name, w) :: g')
| sem_bol rest g :
    sem Bol O EmptyString rest g g
| sem_eol pos rest g :
    rest = EmptyString \/ rest = String "010" EmptyString ->
    sem Eol pos EmptyString rest g g.

(** The loop of [run] on [Plus], with the matcher of the repeated pattern
    as a parameter. *)
Section PlusLoop.

Context {A : Type}.
Variable step :
  nat -> string -> groups -> (nat -> string -> groups -> option A) -> option A.
Variable k : nat -> string -> groups -> option A.

Fixpoint plus_loop (fuel : nat) (pos : nat) (s : string) (g : groups) : option A :=
  match fuel with
  | O => None
  | S fuel' =>
      step pos s g (fun pos' s' g' =>
        if Nat.leb pos' pos then None
        else match plus_loop fuel' pos' s' g' with
             | Some x => Some x
             | None => k pos' s' g'
             end)
  end.

End PlusLoop.

End ReSem.

(* ================================================================== *)
(** * Shapes of identifiers and filenames *)
(* ================================================================== *)

Module Shape.

Definition digits (s : string) : Prop := PyStr.all_chars PyStr.is_digit s = true.

(** Every character of [s] is a 7-bit character.  On such strings the
    digits of [\d] are [0] to [9] and the blanks of [str.strip] are the ones
    of [PyStr.is_space]; beyond them Python knows other digits and other
    blanks, which the statements on the shape of a text leave out. *)
Definition seven_bit (s : string) : Prop :=
  PyStr.all_chars (fun c => Nat.ltb (PyStr.code c) 128) s = true.

(** [num.pp]: a non-empty run of digits, a dot, two digits. *)
Definition dotted (s num pp : string) : Prop :=
  s = num ++ "." ++ pp
  /\ num <> "" /\ digits num
  /\ String.length pp = 2%nat /\ digits pp.

(** [_<px>px], present when the pixel-size group took part in the match. *)
Definition px_part (px : string) : string :=
  if String.eqb px "" then "" else "_" ++ px ++ "px".

(** The name a record stands for, up to its role. *)
Definition stem (tgt_prefix : string) (r : FileRecord) (tail : string) : string :=
  tgt_prefix ++ "_" ++ rec_ymd r ++ "_" ++ rec_obs r ++ "_" ++ rec_flt r
  ++ px_part (rec_px r) ++ "_" ++ tail.

End Shape.

(* ================================================================== *)
(** * Kinds of events *)
(* ================================================================== *)

Module Events.

(** Nothing is asked and nothing but the login is posted. *)
Definition before_listing (e : event) : Prop :=
  match e with
  | Print _ | Bell => True
  | Post url _ _ => url = URL_LOGIN
  | Input _ => False
  end.

(** The server accepted the request, if the event is one. *)
Definition accepted (W : World) (e : event) : Prop :=
  match e with
  | Post url data file => status_code W url data file < 400
  | _ => True
  end.

Definition is_post (e : event) : bool :=
  match e with
  | Post _ _ _ => true
  | _ => false
  end.

Definition posts_to (url : string) (e : event) : bool :=
  match e with
  | Post u _ _ => String.eqb u url
  | _ => false
  end.

Definition is_any_input (e : event) : bool :=
  match e with
  | Input _ => true
  | _ => false
  end.

(** A computation that neither raises nor touches the console: it returns
    or it exits with status 1. *)
Definition stops_or_goes {A} (m : M A) : Prop :=
  forall ans,
    (exists x tr, m ans = (Ok x, ans, tr)) \/ (exists tr, m ans = (Exit 1, ans, tr)).

End Events.

(* ================================================================== *)
(** * One observation set *)
(* ================================================================== *)

Module Night.

(** Every recognized file carries the date [dt] and the observatory [ob]. *)
Definition same_night (recd : list FileRecord) (dt ob : string) : Prop :=
  forall r, In r recd -> rec_ymd r = dt /\ rec_obs r = ob.

(** Two recognized files differ in date or in observatory. *)
Definition mixed (recd : list FileRecord) : Prop :=
  exists r r', In r recd /\ In r' recd
               /\ (rec_ymd r <> rec_ymd r' \/ rec_obs r <> rec_obs r').

(** The two lines printed once the set is known. *)
Definition detected (tg : Target) (dt ob : string) (fl : list string) : list event :=
  [ Print (target_title tg);
    Print ("Detected set -> Date: " ++ dt ++ ", Observatory: " ++ ob
           ++ ", Filter(s): " ++ PyStr.join ", " fl) ].

End Night.

(* ================================================================== *)
(** * What [front] leaves behind *)
(* ================================================================== *)

Module Settled.

(** The state [d] is the one the script reaches from the directory of [a]:
    the sorted listing was classified against the prefix of the target, the
    recognized files form one observation set with one notes file, and the
    canonical tables were selected among them. *)
Definition settled (W : World) (a : Args) (d : Front) : Prop :=
  let files := PyStr.sorted_strings (listdir W (directory a)) in
  let cls := map (classify (tgt_prefix (target d))) files in
  find disallowed files = None
  /\ recognized d = recognized_of cls
  /\ rejected d = rejected_of cls
  /\ recognized d <> []
  /\ Night.same_night (recognized d) (date d) (observatory d)
  /\ List.length (global_notes_of (recognized d)) = 1%nat
  /\ filter_list d = PyStr.sorted_strings (PyStr.dedup (map rec_flt (recognized d)))
  /\ select_tables W a (recognized d) (filter_list d) = inr (chosen_tbl_by_flt d).

(** The recognized files of one filter, as the pairs the upload loop walks. *)
Definition files_of (d : Front) (flt : string) : list (string * string) :=
  map (fun r => (rec_fn r, rec_desc r))
      (filter (fun r => String.eqb (rec_flt r) flt) (recognized d)).

End Settled.

(* ================================================================== *)
(** * Requests and their answers *)
(* ================================================================== *)

Module Requests.

(** Every request of the trace was accepted. *)
Definition clean (W : World) (tr : list event) : Prop := Forall (Events.accepted W) tr.

(** The trace ends with a refused request, the message and the bell; every
    request before it was accepted. *)
Definition stopped (W : World) (tr : list event) : Prop :=
  exists pre url data file msg,
    tr = (pre ++ [Post url data file; Print msg; Bell])%list
    /\ clean W pre
    /\ 400 <= status_code W url data file.

(** A refused request is the last thing [m] sends: the run then prints one
    message, rings and exits with status 1. *)
Definition failfast {A} (W : World) (m : M A) : Prop :=
  forall ans,
    match Run.result_of (m ans) with
    | Exit c => c = 1 /\ (clean W (Run.trace_of (m ans)) \/ stopped W (Run.trace_of (m ans)))
    | _ => clean W (Run.trace_of (m ans))
    end.

(** Nothing is submitted before the submit prompt, and the prompt is shown
    at most once. *)
Definition gated (tr : list event) : Prop :=
  exists quiet rest,
    tr = (quiet ++ rest)%list
    /\ Forall (fun e => Run.submits e = false) quiet
    /\ (rest = []
        \/ exists rest',
             rest = Input PROMPT_SUBMIT :: rest'
             /\ Forall (fun e => Run.is_input PROMPT_SUBMIT e = false) rest').

(** The form posted with one file. *)
Definition file_form (e : Entry) (desc : string) : list (string * string) :=
  [ ("file_type", "Light_Curve"); ("planet", e_planet e);
    ("file_desc", desc); ("file_tag", e_tag e);
    ("groupname", e_groupname e); ("propflag", "on");
    ("tid", e_id e) ].

(** The requests of one filter when the server accepts them all. *)
Definition requests (a : Args) (d : Front) (fe : string * Entry) : list event :=
  ((if skip_summary a then [] else [Post URL_TSERIES (entry_data (snd fe)) None])
   ++ (if skip_files a then []
       else map (fun fd => Post URL_FILE (file_form (snd fe) (snd fd))
                                (Some (PyStr.path_join (directory a) (fst fd))))
                (upload_order d (fst fe))))%list.

End Requests.

(* ================================================================== *)
(** * The start of a run *)
(* ================================================================== *)

Module Start.

Definition BANNER : string :=
  nl ++ "===== TFOP SG1 Utility for Uploading Observations to ExoFOP =====".

(** The form of the login request. *)
Definition login_form (a : Args) : list (string * string) :=
  [("username", username a); ("password", password a);
   ("ref", "login_user"); ("ref_page", "/tess/")].

(** The four arguments the script tests before anything else. *)
Definition args_given (W : World) (a : Args) : bool :=
  (isdir W (directory a) && truthy (telsize a) && truthy (camera a)
   && truthy (coverage a))%bool.

(** Files only, no summaries. *)
Definition files_only : Args :=
  {| username := "observer"; password := "secret";
     tic := "12345678.01"; toi := "1234.01";
     directory := "/data"; group := "tfopwg";
     coverage := Some "Full"; telsize := Some "0.4"; camera := Some "CCD";
     psf := Some "3.41"; deltamag := Some "0"; notes := None;
     skip_summary := true; skip_files := false |}.

(** An entry for the filter V of the scenarios. *)
Definition entry_V : Entry :=
  {| e_planet := "TOI1234.01"; e_tel := "ObsA"; e_telsize := "0.4";
     e_camera := "CCD"; e_filter := "V"; e_pixscale := "0.36"; e_psf := "3.41";
     e_photaprad := "5.0"; e_obsdate := "2023-01-15"; e_obsdur := "15";
     e_obsnum := "3"; e_obstype := "Continuous"; e_transcov := "Full";
     e_deltamag := ""; e_tag := "20230115_observer_tic12345678_01";
     e_groupname := "tfopwg"; e_notes := ""; e_id := "12345678" |}.

(** The arguments [a] with other values for [--psf] and [--deltamag]. *)
Definition with_psf (a : Args) (p q : option string) : Args :=
  {| username := username a; password := password a;
     tic := tic a; toi := toi a;
     directory := directory a; group := group a;
     coverage := coverage a; telsize := telsize a; camera := camera a;
     psf := p; deltamag := q; notes := notes a;
     skip_summary := skip_summary a; skip_files := skip_files a |}.

(** Files of the same observation through the filter R. *)
Definition name_R (tail : string) : string := "TIC12345678-01_20230115_ObsA_R_" ++ tail.

(** Every required file of each of the filters R and V, and the notes. *)
Definition two_filter_dir : list string :=
  [ name_R "measurements.tbl"; name_R "measurements.plotcfg"; name_R "measurements.radec";
    name_R "compstar-lightcurves.png"; name_R "field.png"; name_R "field-zoom.png";
    name_R "WCS.fits"; name_R "seeing-profile.png" ]
  ++ Scenario.full_dir.

(** The world of the scenarios over that directory: both tables are the
    table of the scenarios, both images have its plate scale. *)
Definition two_filter_world : World :=
  {| isdir := fun p => String.eqb p "/data";
     listdir := fun p => if String.eqb p "/data" then two_filter_dir else [];
     table_read := fun p =>
       if (String.eqb p ("/data/" ++ name_R "measurements.tbl")
           || String.eqb p ("/data/" ++ Scenario.name "measurements.tbl"))%bool
       then Some Scenario.table else None;
     wcs_pixel_scales := fun p =>
       if (String.eqb p ("/data/" ++ name_R "WCS.fits")
           || String.eqb p ("/data/" ++ Scenario.name "WCS.fits"))%bool
       then Some [0x1.a36e2eb1c432dp-14; 0x1.a36e2eb1c432dp-14]%float else None;
     status_code := fun _ _ _ => 200%Z;
     float_value := float_value (Scenario.world two_filter_dir None);
     float_repr := float_repr (Scenario.world two_filter_dir None);
     round1 := fun x => x;
     format_2g := fun _ => "0.36";
     sort_first := fun _ => O |}.

End Start.

(* ================================================================== *)
(** * What an entry is built from *)
(* ================================================================== *)

Module Built.

Definition scaled (raw : list float) : list float :=
  map (fun x => (x * 3600)%float) raw.

(** The scales of a plate solution are all finite and positive. *)
Definition valid (raw : list float) : bool :=
  (forallb PyFloat.isfinite (scaled raw)
   && forallb (fun x => (0 <? x)%float) (scaled raw))%bool.

(** The file can be read and its scales are valid. *)
Definition usable (W : World) (a : Args) (wfn : string) : bool :=
  match wcs_pixel_scales W (PyStr.path_join (directory a) wfn) with
  | Some raw => valid raw
  | None => false
  end.

Definition pixscale (W : World) (raw : list float) : string :=
  float_repr W (float_value W (format_2g W (PyFloat.mean (scaled raw)))).

(** The entry [e] of the filter [flt] was computed from the chosen table of
    the filter and from its first usable plate-solved image. *)
Definition sound (W : World) (a : Args) (d : Front) (flt : string) (e : Entry) : Prop :=
  (exists ct t tm,
      chosen_get (chosen_tbl_by_flt d) flt = Some ct
      /\ In ct (found_in d flt MEAS)
      /\ table_read W (PyStr.path_join (directory a) ct) = Some t
      /\ In "JD_UTC" (colnames t)
      /\ timing W t = inr tm
      /\ e_obsdur e = PyStr.str_of_int (t_minutes tm)
      /\ e_obsnum e = PyStr.str_of_int (Z.of_nat (table_len t))
      /\ e_photaprad e = fst (aperture W t))
  /\ (exists pre wfn post raw,
         found_in d flt WCS = (pre ++ wfn :: post)%list
         /\ Forall (fun w => usable W a w = false) pre
         /\ wcs_pixel_scales W (PyStr.path_join (directory a) wfn) = Some raw
         /\ valid raw = true
         /\ e_pixscale e = pixscale W raw)
  /\ (exists y m dd,
         date d = y ++ m ++ dd
         /\ String.length y = 4%nat /\ String.length m = 2%nat
         /\ String.length dd = 2%nat
         /\ Shape.digits (date d)
         /\ e_obsdate e = y ++ "-" ++ m ++ "-" ++ dd)
  /\ e_filter e = flt
  /\ e_tel e = observatory d
  /\ In (e_transcov e) ["Full"; "Ingress"; "Egress"; "Out of Transit"].

End Built.

(* ================================================================== *)
(** * The match the engine finds first *)
(* ================================================================== *)

Module Greedy.

Import Re.

(** The string [rest] does not go on with a character of the class [p]. *)
Definition stops (p : ascii -> bool) (rest : string) : Prop :=
  match rest with
  | EmptyString => True
  | String c _ => p c = false
  end.

(** Matching [w] is what the engine tries first for [r] in front of
    [rest]: when the continuation accepts that match, its answer is the
    answer of the matcher. *)
Definition first (r : regex) (pos : nat) (w rest : string) (g g1 : groups) : Prop :=
  forall A (k : nat -> string -> groups -> option A) x,
    k (String.length w + pos)%nat rest g1 = Some x ->
    run r pos (w ++ rest) g k = Some x.

(** The tokens of a name of the naming convention. *)
Definition well_formed (d pp ymd obs flt px : string) : Prop :=
  d <> "" /\ Shape.digits d
  /\ String.length pp = 2%nat /\ Shape.digits pp
  /\ String.length ymd = 8%nat /\ Shape.digits ymd
  /\ obs <> "" /\ PyStr.all_chars obs_char obs = true
  /\ flt <> "" /\ PyStr.all_chars flt_char flt = true
  /\ Shape.digits px.

(** The record of the name written from its tokens. *)
Definition named (d pp ymd obs flt px tail desc : string) : FileRecord :=
  {| rec_fn := "TIC" ++ d ++ "-" ++ pp ++ "_" ++ ymd ++ "_" ++ obs ++ "_" ++ flt
               ++ Shape.px_part px ++ "_" ++ tail;
     rec_desc := desc; rec_ymd := ymd; rec_obs := obs; rec_flt := flt;
     rec_px := px |}.

End Greedy.

(* ================================================================== *)
(** * What is posted and what is listed *)
(* ================================================================== *)

Module Reported.

(** The file [fn] of the directory is recognized as [r] for the target the
    identifiers of [a] parse to. *)
Definition recognized_as (W : World) (a : Args) (fn : string) (r : FileRecord) : Prop :=
  In fn (listdir W (directory a))
  /\ exists tg ans,
       parse_target a ans = (Ok tg, ans, [])
       /\ classify (tgt_prefix tg) fn = inl r.

(** A request that carries a file carries a recognized file of the
    directory, under the descriptor of its suffix. *)
Definition posts_recognized (W : World) (a : Args) (e : event) : Prop :=
  match e with
  | Post url data (Some p) =>
      url = URL_FILE
      /\ exists fn r,
           recognized_as W a fn r
           /\ p = PyStr.path_join (directory a) fn
           /\ In ("file_desc", rec_desc r) data
  | _ => True
  end.

(** The line of the listing for a recognized file. *)
Definition recognized_line (w : nat) (fn desc : string) : event :=
  Print ("  ✔ " ++ PyStr.ljust w fn ++ "  ->  " ++ desc).

(** The line of the listing for a rejected file. *)
Definition rejected_line (w : nat) (fn why : string) : event :=
  Print ("  - " ++ PyStr.ljust w fn ++ "  ->  " ++ why).

(** What the listing prints for one filter. *)
Definition recognized_block (d : Front) (flt : string) : list event :=
  match ordered_listing d flt with
  | [] => []
  | ordered =>
      Print (nl ++ "Recognized files (filter " ++ flt ++ "):")
      :: map (fun fd => recognized_line (max_len (map fst ordered)) (fst fd) (snd fd))
             ordered
  end.

(** What the listing prints for the rejected files. *)
Definition rejected_block (d : Front) : list event :=
  match rejected d with
  | [] => []
  | rej =>
      Print (nl ++ "Rejected files (not used):")
      :: map (fun fw => rejected_line (max_len (map fst rej)) (fst fw) (snd fw)) rej
  end.

End Reported.

(* ================================================================== *)
(** * Facts about comparisons and the head of a sorted list *)
(* ================================================================== *)

Module OrdFacts.

Import Ord.

Lemma ok_eq_r {A} (cmp : A -> A -> comparison) (H : ok cmp) x y z :
  cmp y z = Eq -> cmp x y = cmp x z.
Proof.
  intros E.
  rewrite (ok_sym _ H y x), (ok_sym _ H z x).
  now rewrite (ok_eq_l _ H y z x E).
Qed.

Lemma lex_ok {A B} (ca : A -> A -> comparison) (cb : B -> B -> comparison) :
  ok ca -> ok cb -> ok (lex ca cb).
Proof.
  intros Ha Hb. split; unfold lex.
  - intros [x y]; simpl. now rewrite (ok_refl _ Ha), (ok_refl _ Hb).
  - intros [x1 x2] [y1 y2]; simpl.
    rewrite (ok_sym _ Ha x1 y1), (ok_sym _ Hb x2 y2).
    now destruct (ca x1 y1).
  - intros [x1 x2] [y1 y2] [z1 z2]; simpl.
    destruct (ca x1 y1) eqn:E1; try discriminate.
    + rewrite (ok_eq_l _ Ha _ _ z1 E1).
      destruct (ca y1 z1) eqn:E2; try discriminate; auto.
      apply (ok_trans _ Hb).
    + intros _. destruct (ca y1 z1) eqn:E2; try discriminate.
      * now rewrite <- (ok_eq_r _ Ha x1 y1 z1 E2), E1.
      * now rewrite (ok_trans _ Ha _ _ _ E1 E2).
  - intros [x1 x2] [y1 y2] [z1 z2]; simpl.
    destruct (ca x1 y1) eqn:E1; try discriminate.
    intros E2. rewrite (ok_eq_l _ Ha _ _ z1 E1).
    destruct (ca y1 z1); auto. now apply (ok_eq_l _ Hb).
Qed.

Lemma Z_ok : ok Z.compare.
Proof.
  split.
  - apply Z.compare_refl.
  - intros x y. apply Z.compare_antisym.
  - intros x y z. rewrite !Z.compare_lt_iff. lia.
  - intros x y z E. apply Z.compare_eq in E. now subst.
Qed.

Lemma ascii_ok : ok Ascii.compare.
Proof.
  unfold Ascii.compare. split.
  - intros x. apply N.compare_refl.
  - intros x y. apply N.compare_antisym.
  - intros x y z. rewrite !N.compare_lt_iff. lia.
  - intros x y z E. apply N.compare_eq in E. now rewrite E.
Qed.

Lemma string_ok : ok String.compare.
Proof.
  split.
  - induction x as [|c x IH]; simpl; auto.
    now rewrite (ok_refl _ ascii_ok).
  - intros x y. apply String.compare_antisym.
  - induction x as [|c x IH]; intros [|d y] [|e z]; simpl; try discriminate; auto.
    destruct (Ascii.compare c d) eqn:E1; try discriminate.
    + rewrite (ok_eq_l _ ascii_ok _ _ e E1).
      destruct (Ascii.compare d e); try discriminate; auto. apply IH.
    + intros _. destruct (Ascii.compare d e) eqn:E2; try discriminate.
      * now rewrite <- (ok_eq_r _ ascii_ok c d e E2), E1.
      * now rewrite (ok_trans _ ascii_ok _ _ _ E1 E2).
  - induction x as [|c x IH]; intros [|d y] z; simpl; try discriminate; auto.
    destruct (Ascii.compare c d) eqn:E1; try discriminate.
    intros E2. destruct z as [|e z]; auto.
    rewrite (ok_eq_l _ ascii_ok _ _ e E1).
    destruct (Ascii.compare d e); auto.
Qed.

Lemma ok_pullback {A B} (f : A -> B) (cmp : B -> B -> comparison) :
  ok cmp -> ok (fun x y => cmp (f x) (f y)).
Proof.
  intros H. split; intros.
  - apply (ok_refl _ H).
  - apply (ok_sym _ H).
  - eapply (ok_trans _ H); eauto.
  - now apply (ok_eq_l _ H).
Qed.

Lemma insert_In {A} (lt : A -> A -> bool) x y l :
  In y (PyStr.insert lt x l) <-> y = x \/ In y l.
Proof.
  induction l as [|z l IH]; simpl.
  - intuition.
  - destruct (lt z x); simpl; rewrite ?IH; intuition.
Qed.

Lemma sort_In {A} (lt : A -> A -> bool) y l :
  In y (PyStr.sort lt l) <-> In y l.
Proof.
  induction l as [|x l IH]; simpl; [tauto|].
  rewrite insert_In, IH. intuition.
Qed.

Lemma sort_nonempty {A} (lt : A -> A -> bool) l : l <> [] -> PyStr.sort lt l <> [].
Proof.
  destruct l as [|x l]; [congruence|]. intros _ E.
  assert (In x (PyStr.sort lt (x :: l))) as Hx by (apply sort_In; now left).
  rewrite E in Hx. destruct Hx.
Qed.

(** Sorting depends on the comparison only through the elements at hand. *)
Lemma insert_ext {A} (lt1 lt2 : A -> A -> bool) x l :
  (forall y, In y l -> lt1 y x = lt2 y x) ->
  PyStr.insert lt1 x l = PyStr.insert lt2 x l.
Proof.
  induction l as [|y l IH]; simpl; auto.
  intros E. rewrite (E y (or_introl eq_refl)).
  destruct (lt2 y x); auto. f_equal. apply IH. intros; apply E; now right.
Qed.

Lemma sort_ext {A} (lt1 lt2 : A -> A -> bool) l :
  (forall x y, In x l -> In y l -> lt1 x y = lt2 x y) ->
  PyStr.sort lt1 l = PyStr.sort lt2 l.
Proof.
  induction l as [|x l IH]; simpl; auto.
  intros E. rewrite IH by (intros; apply E; now right).
  apply insert_ext. intros y Hy. apply sort_In in Hy.
  apply E; [now right|now left].
Qed.

Section Head.

Context {A : Type} (cmp : A -> A -> comparison) (H : ok cmp).

Lemma least_insert x m l :
  least cmp m (m :: l) ->
  least cmp (if lt_of cmp m x then m else x) (x :: m :: l).
Proof.
  unfold lt_of. intros Hm y Hy.
  destruct (cmp m x) eqn:Emx.
  - destruct Hy as [<-|Hy]; [now rewrite (ok_refl _ H)|].
    rewrite <- (ok_eq_r _ H y m x Emx). now apply Hm.
  - destruct Hy as [<-|Hy]; [|now apply Hm].
    rewrite (ok_sym _ H m x), Emx. discriminate.
  - destruct Hy as [<-|Hy]; [now rewrite (ok_refl _ H)|].
    intros Eyx. specialize (Hm y Hy).
    destruct (cmp m y) eqn:Emy.
    + rewrite (ok_eq_l _ H m y x Emy) in Emx. congruence.
    + rewrite (ok_trans _ H _ _ _ Emy Eyx) in Emx. discriminate.
    + rewrite (ok_sym _ H m y), Emy in Hm. now apply Hm.
Qed.

(** The head of the sorted list is an element below all the others. *)
Lemma sort_head l h t :
  PyStr.sort (lt_of cmp) l = h :: t -> In h l /\ least cmp h l.
Proof.
  revert h t. induction l as [|x l IH]; simpl; [discriminate|].
  intros h t E.
  destruct (PyStr.sort (lt_of cmp) l) as [|m s] eqn:Es.
  - simpl in E. injection E as <- <-.
    destruct l as [|x' l]; [|now apply sort_nonempty in Es].
    split; [now left|]. intros y [<-|[]]. now rewrite (ok_refl _ H).
  - destruct (IH m s eq_refl) as [Hin Hleast].
    assert (Hm : least cmp m (m :: l)).
    { intros y [<-|Hy]; [now rewrite (ok_refl _ H)|now apply Hleast]. }
    pose proof (least_insert x m l Hm) as Hx.
    simpl in E. destruct (lt_of cmp m x).
    + injection E as <- _. split; [now right|].
      intros y Hy. apply Hx. destruct Hy as [->|Hy]; [now left|now right; right].
    + injection E as <- _. split; [now left|].
      intros y Hy. apply Hx. destruct Hy as [->|Hy]; [now left|now right; right].
Qed.

Lemma least_unique x y l :
  In x l -> In y l -> least cmp x l -> least cmp y l -> cmp x y = Eq.
Proof.
  intros Hx Hy Lx Ly.
  specialize (Lx y Hy). specialize (Ly x Hx).
  rewrite (ok_sym _ H x y) in Lx.
  destruct (cmp x y); simpl in *; congruence.
Qed.

End Head.

End OrdFacts.

Module FloatOrdFacts.

Import FloatOrd.

Lemma cmp3_ok : Ord.ok cmp3.
Proof. repeat apply OrdFacts.lex_ok; apply OrdFacts.Z_ok. Qed.

Lemma SFcompare_rank f g :
  f <> S754_nan -> g <> S754_nan ->
  SFcompare f g = Some (cmp3 (rank f) (rank g)).
Proof.
  intros Hf Hg.
  destruct f as [s1|s1| |s1 m1 e1]; destruct g as [s2|s2| |s2 m2 e2];
    try congruence; try (destruct s1); try (destruct s2); try reflexivity.
  unfold cmp3, Ord.lex, rank, fst, snd, SFcompare.
  rewrite Z.compare_opp, (Z.compare_antisym e1 e2).
  change (-1 ?= -1) with Eq.
  destruct (e1 ?= e2); reflexivity.
Qed.

Lemma not_nan x : PyFloat.is_nan x = false -> Prim2SF x <> S754_nan.
Proof.
  unfold PyFloat.is_nan. rewrite FloatAxioms.eqb_spec. intros H E.
  rewrite E in H. discriminate.
Qed.

Lemma ltb_frank x y :
  PyFloat.is_nan x = false -> PyFloat.is_nan y = false ->
  PrimFloat.ltb x y = Ord.lt_of cmp3 (frank x) (frank y).
Proof.
  intros Hx Hy. rewrite ltb_spec. unfold SFltb, Ord.lt_of, frank.
  now rewrite (SFcompare_rank _ _ (not_nan x Hx) (not_nan y Hy)).
Qed.

Lemma eqb_frank x y :
  PyFloat.is_nan x = false -> PyFloat.is_nan y = false ->
  PrimFloat.eqb x y = match cmp3 (frank x) (frank y) with Eq => true | _ => false end.
Proof.
  intros Hx Hy. rewrite FloatAxioms.eqb_spec. unfold SFeqb, frank.
  now rewrite (SFcompare_rank _ _ (not_nan x Hx) (not_nan y Hy)).
Qed.

(** Negation keeps a number a number. *)
Lemma opp_is_nan x : PyFloat.is_nan x = false -> PyFloat.is_nan (- x)%float = false.
Proof.
  intros Hx. pose proof (not_nan x Hx) as Hn.
  unfold PyFloat.is_nan. rewrite FloatAxioms.eqb_spec, opp_spec. unfold SFeqb.
  rewrite SFcompare_rank.
  - now rewrite (Ord.ok_refl _ cmp3_ok).
  - destruct (Prim2SF x); simpl; congruence.
  - destruct (Prim2SF x); simpl; congruence.
Qed.

(** [==] excludes [<], on every pair of floats. *)
Lemma eqb_not_ltb x y : PrimFloat.eqb x y = true -> PrimFloat.ltb x y = false.
Proof.
  rewrite FloatAxioms.eqb_spec, ltb_spec. unfold SFeqb, SFltb.
  destruct (SFcompare (Prim2SF x) (Prim2SF y)) as [[]|]; congruence.
Qed.

End FloatOrdFacts.

Module SelectionFacts.

Import Selection.

Lemma key_cmp_ok : Ord.ok key_cmp.
Proof.
  repeat apply OrdFacts.lex_ok;
    first [apply FloatOrdFacts.cmp3_ok | apply OrdFacts.Z_ok | apply OrdFacts.string_ok].
Qed.

Lemma stat_cmp_ok : Ord.ok stat_cmp.
Proof. apply (OrdFacts.ok_pullback embed key_cmp key_cmp_ok). Qed.

Lemma key_lt_lex k1 k2 : key_lt k1 k2 = true <-> lex_lt k1 k2.
Proof.
  destruct k1 as [[[m1 v1] p1] f1], k2 as [[[m2 v2] p2] f2].
  unfold key_lt, lex_lt.
  destruct (m1 =? m2)%float eqn:Em; simpl.
  - rewrite (FloatOrdFacts.eqb_not_ltb _ _ Em).
    destruct (Z.eqb_spec v1 v2) as [->|Hv]; simpl.
    + destruct (Z.eqb_spec p1 p2) as [->|Hp]; simpl.
      * intuition; try lia; try discriminate.
      * rewrite Z.ltb_lt. intuition; try lia; try discriminate.
    + rewrite Z.ltb_lt. intuition; try lia; try discriminate.
  - intuition; try discriminate.
Qed.

Lemma stat_lt_cmp x y :
  numeric x = true -> numeric y = true ->
  stat_lt x y = Ord.lt_of stat_cmp x y.
Proof.
  unfold numeric. rewrite !negb_true_iff. intros Hx Hy.
  apply FloatOrdFacts.opp_is_nan in Hx, Hy.
  unfold stat_lt, stat_cmp, embed, sort_key, key_lt, key_cmp, Ord.lt_of, Ord.lex; simpl.
  rewrite (FloatOrdFacts.eqb_frank _ _ Hx Hy), (FloatOrdFacts.ltb_frank _ _ Hx Hy).
  unfold Ord.lt_of.
  destruct (FloatOrd.cmp3 _ _); simpl; auto.
  rewrite Z.eqb_compare. unfold Z.ltb.
  destruct (st_var x ?= st_var y); simpl; auto.
  rewrite Z.eqb_compare.
  match goal with |- context [(?p ?= ?q)] => destruct (p ?= q) end; simpl; auto.
Qed.

Lemma numeric_all l z : forallb numeric l = true -> In z l -> numeric z = true.
Proof. intros H. now apply forallb_forall. Qed.

Lemma choose_least W l :
  l <> [] -> forallb numeric l = true ->
  exists z, In z l /\ choose W l = Some (st_fn z) /\ Ord.least stat_cmp z l.
Proof.
  intros Hne Hnum. unfold choose.
  change (ordered l) with (forallb numeric l). rewrite Hnum.
  rewrite (OrdFacts.sort_ext stat_lt (Ord.lt_of stat_cmp) l)
    by (intros; apply stat_lt_cmp; eapply numeric_all; eauto).
  destruct (PyStr.sort (Ord.lt_of stat_cmp) l) as [|h t] eqn:E.
  - exfalso. now apply (OrdFacts.sort_nonempty (Ord.lt_of stat_cmp) l Hne).
  - destruct (OrdFacts.sort_head stat_cmp stat_cmp_ok l h t E) as [Hin Hl].
    exists h. auto.
Qed.

Lemma stat_cmp_eq_fn x y : stat_cmp x y = Eq -> st_fn x = st_fn y.
Proof.
  unfold stat_cmp, key_cmp, embed, sort_key, Ord.lex; simpl.
  repeat match goal with
         | |- context [match ?c with Eq => _ | Lt => _ | Gt => _ end] =>
             destruct c; try discriminate
         end.
  apply String.compare_eq_iff.
Qed.

(** The choice does not depend on the arrangement of the candidates. *)
Lemma choose_invariant W stats stats' :
  stats <> [] -> forallb numeric stats = true -> Permutation stats stats' ->
  choose W stats' = choose W stats.
Proof.
  intros Hne Hnum P.
  destruct (choose_least W stats Hne Hnum) as (z & Hz & Hc & Hl).
  assert (Hne' : stats' <> []).
  { intros ->. apply Permutation_sym, Permutation_nil in P. contradiction. }
  assert (Hnum' : forallb numeric stats' = true).
  { apply forallb_forall. intros y Hy.
    eapply numeric_all; eauto.
    eapply Permutation_in; [apply Permutation_sym, P|exact Hy]. }
  destruct (choose_least W stats' Hne' Hnum') as (z' & Hz' & Hc' & Hl').
  rewrite Hc, Hc'. f_equal. apply stat_cmp_eq_fn.
  apply (OrdFacts.least_unique _ stat_cmp_ok z' z stats); auto.
  - eapply Permutation_in; [apply Permutation_sym, P|exact Hz'].
  - intros y Hy. apply Hl'. eapply Permutation_in; eauto.
Qed.

End SelectionFacts.

(* ================================================================== *)
(** * Reasoning about runs *)
(* ================================================================== *)

Module RunFacts.

Import Run.

Lemma bind_ok {A B} (m : M A) (k : A -> M B) ans x ans' tr :
  m ans = (Ok x, ans', tr) ->
  bind m k ans =
    (result_of (k x ans'), rest_of (k x ans'), (tr ++ trace_of (k x ans'))%list).
Proof.
  unfold bind, result_of, rest_of, trace_of. intros ->.
  now destruct (k x ans') as [[r ans''] tr'].
Qed.

Lemma bind_exit {A B} (m : M A) (k : A -> M B) ans c ans' tr :
  m ans = (Exit c, ans', tr) -> bind m k ans = (Exit c, ans', tr).
Proof. unfold bind. now intros ->. Qed.

Lemma bind_raise {A B} (m : M A) (k : A -> M B) ans e ans' tr :
  m ans = (Raise e, ans', tr) -> bind m k ans = (Raise e, ans', tr).
Proof. unfold bind. now intros ->. Qed.

(** ** Events of a computation *)

Section Emits.

Variable P : event -> Prop.

Lemma emits_ret {A} (x : A) : emits P (ret x).
Proof. intros ans. constructor. Qed.

Lemma emits_exit {A} c : emits P (@exit A c).
Proof. intros ans. constructor. Qed.

Lemma emits_raise {A} e : emits P (@raise A e).
Proof. intros ans. constructor. Qed.

Lemma emits_lift {A} (x : exn + A) : emits P (lift x).
Proof. destruct x; [apply emits_raise|apply emits_ret]. Qed.

Lemma emits_emit e : P e -> emits P (emit e).
Proof. intros H ans. now repeat constructor. Qed.

Lemma emits_print s : P (Print s) -> emits P (print s).
Proof. apply emits_emit. Qed.

Lemma emits_input p : P (Input p) -> emits P (input p).
Proof. intros H [|x ans]; now repeat constructor. Qed.

Lemma emits_bind {A B} (m : M A) (k : A -> M B) :
  emits P m -> (forall x, emits P (k x)) -> emits P (bind m k).
Proof.
  intros Hm Hk ans. specialize (Hm ans). unfold bind, trace_of in *.
  destruct (m ans) as [[[x|c|e] ans'] tr]; simpl in *; auto.
  specialize (Hk x ans'). unfold trace_of in Hk.
  destruct (k x ans') as [[r ans''] tr']; simpl in *.
  apply Forall_app; auto.
Qed.

Lemma emits_when b (m : M unit) : emits P m -> emits P (when b m).
Proof. destruct b; simpl; auto using emits_ret. Qed.

Lemma emits_for_each {A} (l : list A) (body : A -> M unit) :
  (forall x, emits P (body x)) -> emits P (for_each l body).
Proof.
  intros H. induction l as [|x l IH]; simpl.
  - apply emits_ret.
  - apply emits_bind; auto.
Qed.

Lemma emits_map_m {A B} (f : A -> M B) (l : list A) :
  (forall x, emits P (f x)) -> emits P (map_m f l).
Proof.
  intros H. induction l as [|x l IH]; simpl.
  - apply emits_ret.
  - apply emits_bind; auto. intros y. apply emits_bind; auto.
    intros ys. apply emits_ret.
Qed.

Lemma emits_err {A} m : P (Print m) -> P Bell -> emits P (@_err A m).
Proof.
  intros H1 H2. unfold _err.
  apply emits_bind; [now apply emits_print|]. intros _.
  apply emits_bind; [now apply emits_emit|]. intros _. apply emits_exit.
Qed.

Lemma emits_post W url data file :
  P (Post url data file) -> emits P (post W url data file).
Proof.
  intros H. unfold post. apply emits_bind; [now apply emits_emit|].
  intros _. apply emits_ret.
Qed.

Lemma emits_ask_psf flt :
  P (Input (prompt_psf flt)) -> (forall s, P (Print s)) -> emits P (ask_psf flt).
Proof.
  intros H1 H2 ans. unfold trace_of.
  induction ans as [|x ans IH]; simpl; [now repeat constructor|].
  destruct (PyFloat.syntax_ok (PyStr.strip x)); simpl; [now repeat constructor|].
  destruct (ask_psf flt ans) as [[r rest] tr]; simpl in *.
  now repeat constructor.
Qed.

Lemma emits_ask_deltamag flt :
  P (Input (prompt_deltamag flt)) -> (forall s, P (Print s)) ->
  emits P (ask_deltamag flt).
Proof.
  intros H1 H2 ans. unfold trace_of.
  induction ans as [|x ans IH]; simpl; [now repeat constructor|].
  destruct (String.eqb (PyStr.strip x) ""); simpl; [now repeat constructor|].
  destruct (PyFloat.syntax_ok (PyStr.strip x)); simpl; [now repeat constructor|].
  destruct (ask_deltamag flt ans) as [[r rest] tr]; simpl in *.
  now repeat constructor.
Qed.

End Emits.

(** ** Exits *)

Lemma ends_with_err_app pre tr : ends_with_err tr -> ends_with_err (pre ++ tr).
Proof.
  intros (q & msg & ->). exists (pre ++ q)%list, msg. now rewrite app_assoc.
Qed.

Lemma dies_ret {A} (x : A) : dies_by_err (ret x).
Proof. intros ans. exact I. Qed.

Lemma dies_raise {A} e : dies_by_err (@raise A e).
Proof. intros ans. exact I. Qed.

Lemma dies_lift {A} (x : exn + A) : dies_by_err (lift x).
Proof. destruct x; [apply dies_raise|apply dies_ret]. Qed.

Lemma dies_emit e : dies_by_err (emit e).
Proof. intros ans. exact I. Qed.

Lemma dies_input p : dies_by_err (input p).
Proof. intros [|x ans]; exact I. Qed.

Lemma dies_err {A} m : dies_by_err (@_err A m).
Proof. intros ans. simpl. split; auto. now exists [], m. Qed.

Lemma dies_bind {A B} (m : M A) (k : A -> M B) :
  dies_by_err m -> (forall x, dies_by_err (k x)) -> dies_by_err (bind m k).
Proof.
  intros Hm Hk ans. specialize (Hm ans). unfold bind, result_of, trace_of in *.
  destruct (m ans) as [[[x|c|e] ans'] tr]; simpl in *; auto.
  specialize (Hk x ans'). unfold result_of, trace_of in Hk.
  destruct (k x ans') as [[[y|c|e] ans''] tr']; simpl in *; auto.
  destruct Hk as [-> Hk]. split; auto. now apply ends_with_err_app.
Qed.

Lemma dies_when b (m : M unit) : dies_by_err m -> dies_by_err (when b m).
Proof. destruct b; simpl; auto using dies_ret. Qed.

Lemma dies_for_each {A} (l : list A) (body : A -> M unit) :
  (forall x, dies_by_err (body x)) -> dies_by_err (for_each l body).
Proof.
  intros H. induction l as [|x l IH]; simpl.
  - apply dies_ret.
  - apply dies_bind; auto.
Qed.

Lemma dies_map_m {A B} (f : A -> M B) (l : list A) :
  (forall x, dies_by_err (f x)) -> dies_by_err (map_m f l).
Proof.
  intros H. induction l as [|x l IH]; simpl.
  - apply dies_ret.
  - apply dies_bind; auto. intros y. apply dies_bind; auto.
    intros ys. apply dies_ret.
Qed.

Lemma dies_post W url data file : dies_by_err (post W url data file).
Proof.
  unfold post. apply dies_bind; [apply dies_emit|]. intros _. apply dies_ret.
Qed.

Lemma ask_psf_no_exit flt ans c : result_of (ask_psf flt ans) <> Exit c.
Proof.
  unfold result_of. induction ans as [|x ans IH]; simpl; [discriminate|].
  destruct (PyFloat.syntax_ok (PyStr.strip x)); simpl; [discriminate|].
  now destruct (ask_psf flt ans) as [[r rest] tr].
Qed.

Lemma ask_deltamag_no_exit flt ans c : result_of (ask_deltamag flt ans) <> Exit c.
Proof.
  unfold result_of. induction ans as [|x ans IH]; simpl; [discriminate|].
  destruct (String.eqb (PyStr.strip x) ""); simpl; [discriminate|].
  destruct (PyFloat.syntax_ok (PyStr.strip x)); simpl; [discriminate|].
  now destruct (ask_deltamag flt ans) as [[r rest] tr].
Qed.

Lemma dies_ask_psf flt : dies_by_err (ask_psf flt).
Proof.
  intros ans. pose proof (ask_psf_no_exit flt ans) as H.
  destruct (result_of (ask_psf flt ans)); auto. now destruct (H code).
Qed.

Lemma dies_ask_deltamag flt : dies_by_err (ask_deltamag flt).
Proof.
  intros ans. pose proof (ask_deltamag_no_exit flt ans) as H.
  destruct (result_of (ask_deltamag flt ans)); auto. now destruct (H code).
Qed.

(** ** Computations that only print *)

Lemma prints_ret : prints_only (ret tt).
Proof. intros ans. exists []. split; auto. Qed.

Lemma prints_print s : prints_only (print s).
Proof. intros ans. exists [Print s]. split; auto. repeat constructor. Qed.

Lemma prints_bind (m : M unit) (k : unit -> M unit) :
  prints_only m -> (forall x, prints_only (k x)) -> prints_only (bind m k).
Proof.
  intros Hm Hk ans. destruct (Hm ans) as (tr & E & F).
  destruct (Hk tt ans) as (tr' & E' & F').
  exists (tr ++ tr')%list. split; [|now apply Forall_app].
  unfold bind. now rewrite E, E'.
Qed.

Lemma prints_when b m : prints_only m -> prints_only (when b m).
Proof. destruct b; simpl; auto using prints_ret. Qed.

Lemma prints_for_each {A} (l : list A) (body : A -> M unit) :
  (forall x, prints_only (body x)) -> prints_only (for_each l body).
Proof.
  intros H. induction l as [|x l IH]; simpl.
  - apply prints_ret.
  - apply prints_bind; auto.
Qed.

Lemma count_input_app p tr tr' :
  count_input p (tr ++ tr') = (count_input p tr + count_input p tr')%nat.
Proof. unfold count_input. now rewrite filter_app, length_app. Qed.

Lemma count_input_none p tr :
  Forall (fun e => is_input p e = false) tr -> count_input p tr = O.
Proof.
  unfold count_input. induction 1 as [|e tr He _ IH]; simpl; auto.
  now rewrite He.
Qed.

Lemma count_input_prints p tr : Forall is_print tr -> count_input p tr = O.
Proof.
  intros H. apply count_input_none. eapply Forall_impl; [|exact H].
  now intros [ | | |].
Qed.

End RunFacts.

(* ================================================================== *)
(** * Events and exits of the stages of [upload] *)
(* ================================================================== *)

Module StageFacts.

Import Run RunFacts.

Ltac emits_step :=
  match goal with
  | |- emits _ (bind _ _) => apply emits_bind; [|intros]
  | |- emits _ (when _ _) => apply emits_when
  | |- emits _ (for_each _ _) => apply emits_for_each; intros
  | |- emits _ (map_m _ _) => apply emits_map_m; intros
  | |- emits _ (ret _) => apply emits_ret
  | |- emits _ (print _) => apply emits_print
  | |- emits _ (_err _) => apply emits_err
  | |- emits _ (lift _) => apply emits_lift
  | |- emits _ (raise _) => apply emits_raise
  | |- emits _ (input _) => apply emits_input
  | |- emits _ (post _ _ _ _) => apply emits_post
  | |- emits _ (ask_psf _) => apply emits_ask_psf
  | |- emits _ (ask_deltamag _) => apply emits_ask_deltamag
  | |- emits _ (match ?x with _ => _ end) => destruct x
  end.

Ltac dies_step :=
  match goal with
  | |- dies_by_err (bind _ _) => apply dies_bind; [|intros]
  | |- dies_by_err (when _ _) => apply dies_when
  | |- dies_by_err (for_each _ _) => apply dies_for_each; intros
  | |- dies_by_err (map_m _ _) => apply dies_map_m; intros
  | |- dies_by_err (ret _) => apply dies_ret
  | |- dies_by_err (print _) => apply dies_emit
  | |- dies_by_err (_err _) => apply dies_err
  | |- dies_by_err (lift _) => apply dies_lift
  | |- dies_by_err (raise _) => apply dies_raise
  | |- dies_by_err (input _) => apply dies_input
  | |- dies_by_err (post _ _ _ _) => apply dies_post
  | |- dies_by_err (ask_psf _) => apply dies_ask_psf
  | |- dies_by_err (ask_deltamag _) => apply dies_ask_deltamag
  | |- dies_by_err (match ?x with _ => _ end) => destruct x
  end.

Ltac prints_step :=
  match goal with
  | |- prints_only (bind _ _) => apply prints_bind; [|intros]
  | |- prints_only (when _ _) => apply prints_when
  | |- prints_only (for_each _ _) => apply prints_for_each; intros
  | |- prints_only (ret _) => apply prints_ret
  | |- prints_only (print _) => apply prints_print
  | |- prints_only (match ?x with _ => _ end) => destruct x
  end.

Section Stages.

Variable W : World.
Variable a : Args.

Section Events.

Variable P : event -> Prop.
Hypothesis P_print : forall s, P (Print s).
Hypothesis P_bell : P Bell.

Lemma emits_front :
  (forall data file, P (Post URL_LOGIN data file)) -> emits P (front W a).
Proof.
  intros P_login.
  unfold front, check_args, parse_target, login, list_files, consistency, show_files.
  repeat emits_step; auto.
Qed.

Lemma emits_completeness d :
  P (Input PROMPT_PROCEED) -> emits P (completeness d).
Proof.
  intros P_in. unfold completeness, report_optional, report_missing.
  repeat emits_step; auto.
Qed.

Lemma emits_build_entries d :
  (forall flt, P (Input (prompt_psf flt))) ->
  (forall flt, P (Input (prompt_deltamag flt))) ->
  emits P (build_entries W a d).
Proof.
  intros P_psf P_dm.
  unfold build_entries, single_filter_args, build_filter, psf_and_deltamag, _arrow_block.
  repeat emits_step; auto.
Qed.

Lemma emits_finish d es :
  P (Input PROMPT_SUBMIT) ->
  (forall url data file, P (Post url data file)) ->
  emits P (finish W a d es).
Proof.
  intros P_in P_post. unfold finish, submit_filter.
  repeat emits_step; auto.
Qed.

End Events.

Lemma dies_front : dies_by_err (front W a).
Proof.
  unfold front, check_args, parse_target, login, list_files, consistency, show_files.
  repeat dies_step.
Qed.

Lemma dies_completeness d : dies_by_err (completeness d).
Proof.
  unfold completeness, report_optional, report_missing. repeat dies_step.
Qed.

Lemma dies_build_entries d : dies_by_err (build_entries W a d).
Proof.
  unfold build_entries, single_filter_args, build_filter, psf_and_deltamag, _arrow_block.
  repeat dies_step.
Qed.

Lemma dies_finish d es : dies_by_err (finish W a d es).
Proof. unfold finish, submit_filter. repeat dies_step. Qed.

Lemma dies_upload : dies_by_err (upload W a).
Proof.
  unfold upload.
  apply dies_bind; [apply dies_front|]. intros d.
  apply dies_bind; [apply dies_completeness|]. intros _.
  apply dies_bind; [apply dies_build_entries|]. intros es.
  apply dies_finish.
Qed.

Lemma prints_report_optional d : prints_only (report_optional d).
Proof. unfold report_optional. repeat prints_step. Qed.

Lemma prints_report_missing d : prints_only (report_missing d).
Proof. unfold report_missing. repeat prints_step. Qed.

End Stages.

End StageFacts.

(* ================================================================== *)
(** * Claims about the canonical measurement table *)
(* ================================================================== *)

Lemma mem_colnames name t :
  PyStr.mem name (colnames t) = match column name t with Some _ => true | None => false end.
Proof.
  induction t as [|[n c] t IH]; simpl; auto.
  rewrite String.eqb_sym. destruct (String.eqb n name); simpl; auto.
Qed.

Lemma eqb_zero_flags v :
  (v =? 0)%float = true ->
  PyFloat.is_nan v = false /\ (0 <? v)%float = false.
Proof.
  intros E. rewrite FloatAxioms.eqb_spec in E. unfold SFeqb in E.
  assert (Hv : Prim2SF v <> S754_nan).
  { intros Hn. rewrite Hn in E. discriminate. }
  assert (H0 : Prim2SF 0%float <> S754_nan) by (vm_compute; discriminate).
  rewrite (FloatOrdFacts.SFcompare_rank _ _ Hv H0) in E.
  split.
  - unfold PyFloat.is_nan. rewrite FloatAxioms.eqb_spec. unfold SFeqb.
    rewrite (FloatOrdFacts.SFcompare_rank _ _ Hv Hv).
    now rewrite (Ord.ok_refl _ FloatOrdFacts.cmp3_ok).
  - rewrite ltb_spec. unfold SFltb.
    rewrite (FloatOrdFacts.SFcompare_rank _ _ H0 Hv).
    rewrite (Ord.ok_sym _ FloatOrdFacts.cmp3_ok).
    destruct (FloatOrd.cmp3 (FloatOrd.rank (Prim2SF v)) (FloatOrd.rank (Prim2SF 0%float)));
      simpl; congruence.
Qed.

Module RankingFacts.

Lemma nan_float x : PyFloat.is_nan x = true -> Prim2SF x = S754_nan.
Proof.
  unfold PyFloat.is_nan. rewrite FloatAxioms.eqb_spec. unfold SFeqb. intros H.
  destruct (Prim2SF x) as [s|s| |s m e] eqn:E; [| |reflexivity|];
    rewrite FloatOrdFacts.SFcompare_rank in H by discriminate;
    now rewrite (Ord.ok_refl _ FloatOrdFacts.cmp3_ok) in H.
Qed.

Lemma nan_compare_l g : SFcompare S754_nan g = None.
Proof. now destruct g. Qed.

Lemma nan_compare_r f : SFcompare f S754_nan = None.
Proof. now destruct f. Qed.

(** A NaN is neither equal to, nor below, nor above any float. *)
Lemma nan_unordered x y :
  Prim2SF x = S754_nan ->
  (x =? y)%float = false /\ (x <? y)%float = false
  /\ (y =? x)%float = false /\ (y <? x)%float = false.
Proof.
  intros E. rewrite !FloatAxioms.eqb_spec, !ltb_spec. unfold SFeqb, SFltb.
  now rewrite E, nan_compare_l, nan_compare_r.
Qed.

(** The key of a summary whose median is a NaN is neither below nor above
    any key. *)
Lemma nan_key_unordered z x :
  PyFloat.is_nan (st_med z) = true -> stat_lt z x = false /\ stat_lt x z = false.
Proof.
  intros H. apply nan_float in H.
  assert (Ho : Prim2SF (- st_med z)%float = S754_nan)
    by (rewrite opp_spec, H; reflexivity).
  destruct (nan_unordered _ (- st_med x)%float Ho) as (E1 & E2 & E3 & E4).
  unfold stat_lt, sort_key, key_lt. now rewrite E1, E2, E3, E4.
Qed.

(** The conversion and the reductions of the ranking are not guarded. *)
Lemma conversion_escapes W a x t c e :
  table_read W (PyStr.path_join (directory a) (rec_fn x)) = Some t ->
  column "Source_Radius" t = Some c ->
  np_array_float W c = inl e ->
  candidate_stat W a x = inl e.
Proof.
  intros Ht Hc He. unfold candidate_stat. now rewrite Ht, mem_colnames, Hc, He.
Qed.

Lemma empty_column_escapes W a x t c :
  table_read W (PyStr.path_join (directory a) (rec_fn x)) = Some t ->
  column "Source_Radius" t = Some c ->
  np_array_float W c = inr [] ->
  candidate_stat W a x = inl ValueError.
Proof.
  intros Ht Hc He. unfold candidate_stat. now rewrite Ht, mem_colnames, Hc, He.
Qed.

End RankingFacts.

(** C1, on the code.  When every candidate has its summary and no median
    is a NaN, the chosen table is the filename of an element that no other
    element precedes in the ascending lexicographic order of the key
    [(-median, variability flag, -(pixel-size token as an integer, or 0),
    filename)], and the choice is the same for every arrangement of the same
    candidates.  The summary is the sentinel [-1e9] with flag 1 when the
    table is unreadable or has no [Source_Radius] column, and otherwise the
    median of the column with flag 1 for a positive span and 0 for a span
    equal to zero.  But the conversion of the column and its reductions are
    not guarded as the reader is: a column that cannot be converted, or that
    has no row, gives no summary, and the exception leaves [upload]; in the
    complete directory whose only measurement table has a text in the
    column, the run ends with a [ValueError] and not through [_err].  And a
    column that holds no number gives a NaN median, whose key is neither
    below nor above any other key, so that the order of the keys does not
    say which candidate comes first. *)
Theorem canonical_table_ranking :
  (forall W stats,
     stats <> [] -> forallb Selection.numeric stats = true ->
     (exists z, In z stats /\ choose W stats = Some (st_fn z) /\
        forall z', In z' stats -> ~ Selection.lex_lt (sort_key z') (sort_key z))
     /\ (forall stats', Permutation stats stats' -> choose W stats' = choose W stats))
  /\ (forall W a x,
        let p := PyStr.path_join (directory a) (rec_fn x) in
        let sentinel := {| st_fn := rec_fn x; st_med := SENTINEL; st_var := 1;
                           st_px := rec_px x |} in
        (table_read W p = None -> candidate_stat W a x = inr sentinel)
        /\ (forall t, table_read W p = Some t -> column "Source_Radius" t = None ->
              candidate_stat W a x = inr sentinel)
        /\ (forall t c sr hi lo,
              table_read W p = Some t -> column "Source_Radius" t = Some c ->
              np_array_float W c = inr sr ->
              PyFloat.nanmax sr = inr hi -> PyFloat.nanmin sr = inr lo ->
              exists z, candidate_stat W a x = inr z
                /\ st_fn z = rec_fn x /\ st_px z = rec_px x
                /\ st_med z = PyFloat.nanmedian sr
                /\ ((0 <? hi - lo)%float = true -> st_var z = 1)
                /\ ((hi - lo =? 0)%float = true -> st_var z = 0))
        /\ (forall t c e,
              table_read W p = Some t -> column "Source_Radius" t = Some c ->
              np_array_float W c = inl e ->
              candidate_stat W a x = inl e)
        /\ (forall t c,
              table_read W p = Some t -> column "Source_Radius" t = Some c ->
              np_array_float W c = inr [] ->
              candidate_stat W a x = inl ValueError))
  /\ (let W := Scenario.world Scenario.full_dir (Some Scenario.table_text_radius) in
      let a := Scenario.args (Some "3.41") false in
      candidates (recognized Scenario.full_front) "V"
      = [ {| rec_fn := Scenario.name "measurements.tbl"; rec_desc := MEAS;
             rec_ymd := "20230115"; rec_obs := "ObsA"; rec_flt := "V";
             rec_px := "" |} ]
      /\ np_array_float W (ColStr ["abc"; "5.0"; "5.0"]) = inl ValueError
      /\ forall ans,
           exists tr,
             front W a ans = (Raise ValueError, ans, tr)
             /\ upload W a ans = (Raise ValueError, ans, tr)
             /\ ~ Run.ends_with_err tr)
  /\ (forall z x,
        PyFloat.is_nan (st_med z) = true ->
        stat_lt z x = false /\ stat_lt x z = false)
  /\ (let W := Scenario.world Scenario.full_dir (Some Scenario.table_nan_radius) in
      let a := Scenario.args (Some "3.41") false in
      exists z,
        candidate_stat W a
          {| rec_fn := Scenario.name "measurements.tbl"; rec_desc := MEAS;
             rec_ymd := "20230115"; rec_obs := "ObsA"; rec_flt := "V";
             rec_px := "" |}
        = inr z
        /\ PyFloat.is_nan (st_med z) = true /\ st_var z = 1).
Proof.
  split; [|split; [|split; [|split]]].
  - intros W stats Hne Hnum.
    destruct (SelectionFacts.choose_least W stats Hne Hnum) as (z & Hz & Hc & Hl).
    split.
    + exists z. repeat split; auto.
      intros z' Hz' Hlt. apply SelectionFacts.key_lt_lex in Hlt.
      change (stat_lt z' z = true) in Hlt.
      rewrite SelectionFacts.stat_lt_cmp in Hlt
        by (eapply SelectionFacts.numeric_all; eauto).
      unfold Ord.lt_of in Hlt. specialize (Hl z' Hz').
      destruct (Selection.stat_cmp z' z); congruence.
    + intros stats' P. now apply SelectionFacts.choose_invariant.
  - intros W a x p sentinel. unfold candidate_stat. fold p.
    split; [|split; [|split; [|split]]].
    + intros ->. reflexivity.
    + intros t -> Hcol. rewrite mem_colnames, Hcol. reflexivity.
    + intros t c sr hi lo -> Hcol Hsr Hhi Hlo.
      rewrite mem_colnames, Hcol, Hsr, Hhi, Hlo.
      eexists. split; [reflexivity|]. simpl. repeat split; auto.
      * intros ->. now rewrite orb_true_r.
      * intros E. apply eqb_zero_flags in E as [-> ->]. reflexivity.
    + intros t c e Ht Hc He. exact (RankingFacts.conversion_escapes W a x t c e Ht Hc He).
    + intros t c Ht Hc He. exact (RankingFacts.empty_column_escapes W a x t c Ht Hc He).
  - intros W a. split; [vm_compute; reflexivity|].
    split; [vm_compute; reflexivity|].
    intros ans. eexists. split; [vm_compute; reflexivity|].
    split; [vm_compute; reflexivity|].
    intros (pre & msg & E).
    apply (f_equal (@rev event)) in E. rewrite rev_app_distr in E.
    simpl in E. discriminate.
  - intros z x. apply RankingFacts.nan_key_unordered.
  - intros W a. eexists. split; [vm_compute; reflexivity|].
    split; vm_compute; reflexivity.
Qed.

(* ================================================================== *)
(** * Claims about the completeness audit *)
(* ================================================================== *)

Module CompletenessFacts.

Import Run RunFacts.

Lemma found_nil recd date obs flt k :
  found recd date obs flt k = [] <->
  forall x, In x recd ->
    ~ (rec_flt x = flt /\ rec_ymd x = date /\ rec_obs x = obs /\ rec_desc x = k).
Proof.
  unfold found. induction recd as [|x recd IH]; simpl.
  - intuition.
  - destruct ((rec_flt x =? flt)%string && (rec_ymd x =? date)%string
              && (rec_obs x =? obs)%string && (rec_desc x =? k)%string)%bool eqn:Hb.
    + simpl. split; [discriminate|]. intros H. exfalso. apply (H x); auto.
      rewrite !andb_true_iff, !String.eqb_eq in Hb. tauto.
    + rewrite IH. split.
      * intros H y [<-|Hy]; [|now apply H].
        intros (e1 & e2 & e3 & e4).
        rewrite <- e1, <- e2, <- e3, <- e4, !String.eqb_refl in Hb. discriminate.
      * intros H y Hy. apply H. now right.
Qed.

Lemma In_missing keys fnd k :
  In k (missing keys fnd) <-> In k keys /\ fnd k = [].
Proof.
  unfold missing. rewrite filter_In.
  destruct (fnd k); intuition discriminate.
Qed.

Lemma any_missing_true d :
  (exists flt, In flt (filter_list d) /\ missing_by_flt d flt <> []) <->
  any_missing d = true.
Proof.
  unfold any_missing. rewrite existsb_exists.
  split; intros (flt & Hin & H); exists flt; split; auto;
    destruct (missing_by_flt d flt); congruence.
Qed.

(** What the audit does with the console, once its listings are printed. *)
Lemma completeness_run d ans :
  exists trp, Forall is_print trp /\
    completeness d ans =
      if any_missing d then
        match ans with
        | [] => (Raise EOFError, [], trp ++ [Input PROMPT_PROCEED])
        | x :: rest =>
            if affirmative x then (Ok tt, rest, trp ++ [Input PROMPT_PROCEED])
            else (Exit 1, rest, trp ++ [Input PROMPT_PROCEED; Print MSG_ABORTED; Bell])
        end%list
      else (Ok tt, ans, trp).
Proof.
  unfold completeness.
  destruct (StageFacts.prints_report_optional d ans) as (tr1 & E1 & F1).
  destruct (any_missing d) eqn:Hm.
  - destruct (StageFacts.prints_report_missing d ans) as (tr2 & E2 & F2).
    exists (tr1 ++ tr2)%list. split; [now apply Forall_app|].
    unfold bind at 1. rewrite E1. simpl when.
    unfold bind at 1. rewrite E2.
    destruct ans as [|x rest]; [|destruct (affirmative x) eqn:Ha];
      unfold bind, input, when, _err, print, _bell, emit, exit; simpl;
      rewrite ?Ha; simpl; now rewrite <- app_assoc.
  - exists tr1. split; auto. unfold bind. rewrite E1. simpl.
    now rewrite app_nil_r.
Qed.

End CompletenessFacts.

Module ProceedPrompt.

Import Run RunFacts.

(** The confirmation prompt is no other prompt of the script. *)
Lemma other_print s : other_than_proceed (Print s).
Proof. reflexivity. Qed.

Lemma other_bell : other_than_proceed Bell.
Proof. reflexivity. Qed.

Lemma other_post url data file : other_than_proceed (Post url data file).
Proof. reflexivity. Qed.

Lemma other_psf flt : other_than_proceed (Input (prompt_psf flt)).
Proof. reflexivity. Qed.

Lemma other_deltamag flt : other_than_proceed (Input (prompt_deltamag flt)).
Proof. reflexivity. Qed.

Lemma other_submit : other_than_proceed (Input PROMPT_SUBMIT).
Proof. reflexivity. Qed.

Lemma count_other tr : Forall other_than_proceed tr -> count_input PROMPT_PROCEED tr = O.
Proof. apply count_input_none. Qed.

Lemma after_audit_quiet W a d :
  emits other_than_proceed (es <- build_entries W a d ;; finish W a d es).
Proof.
  apply emits_bind.
  - apply StageFacts.emits_build_entries;
      auto using other_print, other_bell, other_psf, other_deltamag.
  - intros es. apply StageFacts.emits_finish;
      auto using other_print, other_bell, other_submit, other_post.
Qed.

End ProceedPrompt.

(** C4.  [missing_by_flt] holds exactly the required labels that no
    recognized file of the filter's group carries, and [missing_opt_by_flt]
    exactly such optional labels; for required labels X, Y, Z of which only
    X is found the missing ones are Y and Z; and a run that reaches the audit
    with some filter missing a required label shows the confirmation prompt
    exactly once and, on any answer that is not [y] (after trimming and
    lower-casing), ends through [_err] with exit status 1. *)
Theorem completeness_audit (W : World) (a : Args) (d : Front) :
  (forall flt k,
     In k (missing_by_flt d flt) <->
     In k required_keys_per_filter /\
     forall x, In x (recognized d) ->
       ~ (rec_flt x = flt /\ rec_ymd x = date d /\ rec_obs x = observatory d
          /\ rec_desc x = k))
  /\ (forall flt k,
        In k (missing_opt_by_flt d flt) <->
        In k optional_keys /\
        forall x, In x (recognized d) ->
          ~ (rec_flt x = flt /\ rec_ymd x = date d /\ rec_obs x = observatory d
             /\ rec_desc x = k))
  /\ (forall (X Y Z : string) (fnd : string -> list string),
        fnd X <> [] -> fnd Y = [] -> fnd Z = [] -> missing [X; Y; Z] fnd = [Y; Z])
  /\ (forall ans ans1 tr1,
        front W a ans = (Ok d, ans1, tr1) ->
        (exists flt, In flt (filter_list d) /\ missing_by_flt d flt <> []) ->
        Run.count_input PROMPT_PROCEED (Run.trace_of (upload W a ans)) = 1%nat
        /\ (forall x rest, ans1 = x :: rest -> affirmative x = false ->
              Run.result_of (upload W a ans) = Exit 1
              /\ exists pre,
                   Run.trace_of (upload W a ans)
                   = (pre ++ [Input PROMPT_PROCEED; Print MSG_ABORTED; Bell])%list)).
Proof.
  split; [|split; [|split]].
  - intros flt k. unfold missing_by_flt, found_in.
    now rewrite CompletenessFacts.In_missing, CompletenessFacts.found_nil.
  - intros flt k. unfold missing_opt_by_flt, found_in.
    now rewrite CompletenessFacts.In_missing, CompletenessFacts.found_nil.
  - intros X Y Z fnd HX HY HZ. unfold missing. simpl.
    rewrite HY, HZ. now destruct (fnd X).
  - intros ans ans1 tr1 Hfront Hmiss.
    apply CompletenessFacts.any_missing_true in Hmiss.
    assert (Htr1 : Run.count_input PROMPT_PROCEED tr1 = O).
    { apply ProceedPrompt.count_other.
      pose proof (StageFacts.emits_front W a Run.other_than_proceed
                    ProceedPrompt.other_print ProceedPrompt.other_bell
                    (ProceedPrompt.other_post URL_LOGIN) ans) as H.
      now rewrite Hfront in H. }
    unfold upload. rewrite (RunFacts.bind_ok _ _ _ _ _ _ Hfront).
    destruct (CompletenessFacts.completeness_run d ans1) as (trp & Fp & Ec).
    rewrite Hmiss in Ec.
    pose proof (RunFacts.count_input_prints PROMPT_PROCEED trp Fp) as Hp.
    destruct ans1 as [|x rest].
    + rewrite (RunFacts.bind_raise _ _ _ _ _ _ Ec). unfold Run.trace_of; simpl.
      split; [|discriminate].
      now rewrite !RunFacts.count_input_app, Htr1, Hp.
    + destruct (affirmative x) eqn:Ha.
      * rewrite (RunFacts.bind_ok _ _ _ _ _ _ Ec). unfold Run.trace_of at 1; simpl.
        split; [|intros ? ? [= <- <-]; congruence].
        rewrite !RunFacts.count_input_app, Htr1, Hp.
        rewrite (ProceedPrompt.count_other _ (ProceedPrompt.after_audit_quiet W a d rest)).
        reflexivity.
      * rewrite (RunFacts.bind_exit _ _ _ _ _ _ Ec).
        unfold Run.trace_of, Run.result_of; simpl.
        split; [now rewrite !RunFacts.count_input_app, Htr1, Hp|].
        intros _ _ _ _. split; auto.
        exists (tr1 ++ trp)%list. now rewrite app_assoc.
Qed.

(* ================================================================== *)
(** * Claims about the classification of filenames *)
(* ================================================================== *)

Module ClassifyFacts.

(** A literal consumes exactly itself. *)
Lemma run_lit_prefix {A} name rest pos g (k : nat -> string -> Re.groups -> option A) :
  Re.run (Re.lit name) pos (name ++ rest) g k
  = k (String.length name + pos)%nat rest g.
Proof.
  revert pos. induction name as [|c name IH]; intros pos; simpl; auto.
  rewrite Ascii.eqb_refl, IH. f_equal. lia.
Qed.

Lemma run_lit_other {A} name s pos g (k : nat -> string -> Re.groups -> option A) :
  (forall rest, s <> name ++ rest) -> Re.run (Re.lit name) pos s g k = None.
Proof.
  revert s pos. induction name as [|c name IH]; intros s pos H; simpl.
  - now destruct (H s).
  - destruct s as [|c' s]; auto.
    destruct (Ascii.eqb_spec c c') as [<-|Hc]; auto.
    apply IH. intros rest ->. now apply (H rest).
Qed.

Lemma prefix_or_not name s :
  (exists rest, s = name ++ rest) \/ (forall rest, s <> name ++ rest).
Proof.
  revert s. induction name as [|c name IH]; intros s; simpl.
  - left. now exists s.
  - destruct s as [|c' s]; [right; discriminate|].
    destruct (Ascii.eqb_spec c c') as [<-|Hc].
    + destruct (IH s) as [(rest & ->)|H]; [left; now exists rest|].
      right. intros rest [= E]. now apply (H rest).
    + right. intros rest [= E _]. congruence.
Qed.

Lemma append_nil_r name : name ++ "" = name.
Proof. induction name; simpl; congruence. Qed.

Lemma append_same name r : name ++ r = name -> r = "".
Proof.
  induction name as [|c name IH]; simpl; auto.
  intros [= E]. auto.
Qed.

(** [re.fullmatch] of an anchored literal is equality with the literal. *)
Lemma fullmatch_exactly name tail :
  Re.fullmatch (exactly name) tail <> None <-> tail = name.
Proof.
  unfold Re.fullmatch, exactly. simpl.
  destruct (prefix_or_not name tail) as [(rest & ->)|H].
  - rewrite run_lit_prefix.
    destruct rest as [|c rest]; simpl.
    + split; [intros _|discriminate]. apply append_nil_r.
    + split.
      * destruct rest; simpl; [destruct (Ascii.eqb c "010")|]; congruence.
      * intros E. apply append_same in E. discriminate.
  - rewrite run_lit_other by exact H.
    split; [congruence|]. intros ->. destruct (H ""). symmetry. apply append_nil_r.
Qed.

Lemma first_desc_some specs tail d :
  first_desc specs tail = Some d ->
  exists pre pat post,
    specs = (pre ++ (pat, d) :: post)%list
    /\ Re.fullmatch pat tail <> None
    /\ Forall (fun pd => Re.fullmatch (fst pd) tail = None) pre.
Proof.
  induction specs as [|[pat d'] specs IH]; simpl; [discriminate|].
  destruct (Re.fullmatch pat tail) eqn:E.
  - intros [= <-]. exists [], pat, specs. repeat split; auto. congruence.
  - intros H. destruct (IH H) as (pre & pat' & post & -> & Hm & Hpre).
    exists ((pat, d') :: pre)%list, pat', post. repeat split; auto.
Qed.

Lemma first_desc_none specs tail :
  first_desc specs tail = None ->
  Forall (fun pd => Re.fullmatch (fst pd) tail = None) specs.
Proof.
  induction specs as [|[pat d'] specs IH]; simpl; [constructor|].
  destruct (Re.fullmatch pat tail) eqn:E; [discriminate|].
  intros H. constructor; auto.
Qed.

End ClassifyFacts.

(** C2.  [classify] sends every filename, for every expected prefix, to
    exactly one of a record or a rejection of that same filename; a rejection
    carries one of the three reasons, each for its own cause; and the
    descriptor of a record is the label of the first pattern of
    [allowed_specs], in table order, that fully matches the tail the grammar
    captured, which is then the literal name of that pattern. *)
Theorem classification_is_total (tgt_prefix fn : string) :
  ((exists r, classify tgt_prefix fn = inl r)
   \/ (exists why, classify tgt_prefix fn = inr (fn, why)))
  /\ ~ ((exists r, classify tgt_prefix fn = inl r)
        /\ (exists x, classify tgt_prefix fn = inr x))
  /\ (forall x why, classify tgt_prefix fn = inr (x, why) ->
        x = fn
        /\ ((why = REASON_PATTERN /\ Re.match_ base fn = None)
            \/ (why = REASON_PREFIX
                /\ exists m, Re.match_ base fn = Some m
                     /\ grp "tgt" m ++ "-" ++ grp "pp" m <> tgt_prefix)
            \/ (why = REASON_TOKEN
                /\ exists m, Re.match_ base fn = Some m
                     /\ grp "tgt" m ++ "-" ++ grp "pp" m = tgt_prefix
                     /\ Forall (fun pd => Re.fullmatch (fst pd) (grp "tail" m) = None)
                               allowed_specs)))
  /\ (forall r, classify tgt_prefix fn = inl r ->
        rec_fn r = fn
        /\ exists m pre pat post,
             Re.match_ base fn = Some m
             /\ grp "tgt" m ++ "-" ++ grp "pp" m = tgt_prefix
             /\ allowed_specs = (pre ++ (pat, rec_desc r) :: post)%list
             /\ Re.fullmatch pat (grp "tail" m) <> None
             /\ Forall (fun pd => Re.fullmatch (fst pd) (grp "tail" m) = None) pre
             /\ exists name, pat = exactly name /\ grp "tail" m = name).
Proof.
  unfold classify.
  destruct (Re.match_ base fn) as [m|] eqn:Em.
  2:{ split; [right; now exists REASON_PATTERN|].
      split; [intros [[r H] _]; discriminate|].
      split; [|intros r; discriminate].
      intros x why [= <- <-]. split; auto. }
  remember (first_desc allowed_specs (grp "tail" m)) as fd eqn:Ed.
  symmetry in Ed.
  destruct (String.eqb_spec (grp "tgt" m ++ "-" ++ grp "pp" m) tgt_prefix) as [Ep|Ep];
    simpl.
  2:{ split; [right; now exists REASON_PREFIX|].
      split; [intros [[r H] _]; discriminate|].
      split; [|intros r; discriminate].
      intros x why [= <- <-]. split; auto. right; left. split; auto. now exists m. }
  destruct fd as [d|]; simpl.
  - destruct (String.eqb_spec d "") as [->|Hd]; simpl.
    + exfalso. apply ClassifyFacts.first_desc_some in Ed
        as (pre & pat & post & E & _).
      assert (In "" (map snd allowed_specs)) as Hin.
      { rewrite E, map_app, in_app_iff. right. now left. }
      simpl in Hin. repeat (destruct Hin as [Hin|Hin]; [discriminate|]).
      destruct Hin.
    + split; [left; eexists; reflexivity|].
      split; [intros [_ [x H]]; discriminate|].
      split; [intros x why; discriminate|].
      intros r [= <-]. simpl. split; auto.
      apply ClassifyFacts.first_desc_some in Ed
        as (pre & pat & post & E & Hm & Hpre).
      exists m, pre, pat, post. repeat split; auto.
      assert (In pat (map fst allowed_specs)) as Hin.
      { rewrite E, map_app, in_app_iff. right. now left. }
      simpl in Hin.
      repeat (destruct Hin as [<-|Hin];
              [eexists; split; [reflexivity|];
               now apply ClassifyFacts.fullmatch_exactly in Hm|]).
      destruct Hin.
  - split; [right; now exists REASON_TOKEN|].
    split; [intros [[r H] _]; discriminate|].
    split; [|intros r; discriminate].
    intros x why [= <- <-]. split; auto. right; right. split; auto.
    exists m. repeat split; auto. now apply ClassifyFacts.first_desc_none.
Qed.

(* ================================================================== *)
(** * Claims about the observation window *)
(* ================================================================== *)

(** C3, as stated, fails: for the two-row table [Scenario.short_table]
    (no exposure column, first Julian date 0) the script reports 6 minutes,
    while the span times 1440 rounds to 7, in binary64 and in exact
    arithmetic alike (the span [m * 2^e] days exceeds 6.5/1440). *)
Lemma duration_is_not_span_times_1440 :
  exists tm m e,
    (forall W, timing W Scenario.short_table = inr tm)
    /\ t_minutes tm = 6
    /\ Stated.minutes_1440 (t_start tm) (t_end tm) = inr 7
    /\ Prim2SF (t_end tm - t_start tm)%float = S754_finite false m e
    /\ 13 * 2 ^ (- e) < 2 * (1440 * Zpos m).
Proof.
  eexists. exists 5204159569405907%positive, (-60).
  split; [intros W; vm_compute; reflexivity|].
  repeat split; vm_compute; reflexivity.
Qed.

(** C3, amended.  For a table with a [JD_UTC] column whose first and last
    values are [jd0] and [jd1], and first and last exposures [e0] and [e1]
    (read from [EXPTIME] when the table has it, else from [EXPOSURE], else
    0), [start = jd0 - 0.5*e0/86400], [end = jd1 + 0.5*e1/86400], the
    duration in minutes is [round(((end - start) * 24) * 60)] in binary64
    arithmetic, ties to even, and the sample count is the row count; for
    [jd0 = 2459000.500], [jd1 = 2459000.510], [e0 = e1 = 60] the duration is
    15 minutes. *)
Theorem observation_window (W : World) (t : Table) (c : Column)
    (jd0 jd1 e0 e1 : float) (n : Z) :
  column "JD_UTC" t = Some c ->
  cell_float W false c = inr jd0 ->
  cell_float W true c = inr jd1 ->
  exposures W t = inr (e0, e1) ->
  PyFloat.round (((jd1 + 0.5 * e1 / 86400) - (jd0 - 0.5 * e0 / 86400)) * 24 * 60)%float
    = inr n ->
  timing W t = inr {| t_start := (jd0 - 0.5 * e0 / 86400)%float;
                      t_end := (jd1 + 0.5 * e1 / 86400)%float;
                      t_minutes := n;
                      t_rows := table_len t |}
  /\ (forall ce x0 x1,
        cell_float W false ce = inr x0 -> cell_float W true ce = inr x1 ->
        (column "EXPTIME" t = Some ce -> e0 = x0 /\ e1 = x1)
        /\ (column "EXPTIME" t = None -> column "EXPOSURE" t = Some ce ->
            e0 = x0 /\ e1 = x1))
  /\ (column "EXPTIME" t = None -> column "EXPOSURE" t = None ->
      e0 = 0%float /\ e1 = 0%float)
  /\ (forall W', exists tm,
        timing W' Scenario.table = inr tm /\ t_minutes tm = 15 /\ t_rows tm = 3%nat).
Proof.
  intros Hc Hjd0 Hjd1 Hexp Hn.
  split; [|split; [|split]].
  - unfold timing. now rewrite Hexp, Hc, Hjd0, Hjd1, Hn.
  - intros ce x0 x1 H0 H1. unfold exposures in Hexp.
    rewrite !mem_colnames in Hexp. split.
    + intros E. rewrite E, H0, H1 in Hexp. now injection Hexp as <- <-.
    + intros E E'. rewrite E, E', H0, H1 in Hexp. now injection Hexp as <- <-.
  - intros E E'. unfold exposures in Hexp.
    rewrite !mem_colnames, E, E' in Hexp. now injection Hexp as <- <-.
  - intros W'. eexists. split; [vm_compute; reflexivity|]. split; reflexivity.
Qed.

(** The amended C3 on the table of the example. *)
Lemma observation_window_witness :
  timing (Scenario.world Scenario.full_dir (Some Scenario.table)) Scenario.table
  = inr {| t_start := (2459000.5 - 0.5 * 60 / 86400)%float;
           t_end := (0x1.2c2bc4147ae14p+21 + 0.5 * 60 / 86400)%float;
           t_minutes := 15;
           t_rows := table_len Scenario.table |}.
Proof.
  apply (observation_window
           (Scenario.world Scenario.full_dir (Some Scenario.table)) Scenario.table
           (ColFloat [2459000.5; 0x1.2c2bc40a3d70ap+21; 0x1.2c2bc4147ae14p+21]%float)
           2459000.5%float 0x1.2c2bc4147ae14p+21%float 60%float 60%float 15);
    reflexivity.
Defined.

(* ================================================================== *)
(** * The scenario of a table, a plate-solved image and the notes *)
(* ================================================================== *)

(** C5, as stated, fails: in the directory of the scenario the run reaches
    the audit with six required descriptors missing for filter V, not
    zero. *)
Lemma minimal_directory_misses_required_files :
  exists d tr,
    front (Scenario.world Scenario.minimal_dir (Some Scenario.table))
          (Scenario.args (Some "3.41") false) []
    = (Ok d, [], tr)
    /\ filter_list d = ["V"]
    /\ missing_by_flt d "V"
       = [ "AstroImageJ Plot Configuration File";
           "AstroImageJ Photometry Aperture File";
           "Compstar Light Curve Plots";
           "Field Image with Apertures";
           "Zoomed-in FOV";
           "Seeing Profile" ]
    /\ any_missing d = true.
Proof.
  eexists. eexists. split; [vm_compute; reflexivity|].
  repeat split; vm_compute; reflexivity.
Qed.

(** C5, amended.  In that directory (one valid table, one valid plate-solved
    image and the notes, all of 20230115, ObsA, filter V, prefix
    TIC12345678-01) the run reaches the audit with exactly six required
    descriptors missing for filter V and asks for confirmation; on an
    affirmative answer it builds exactly one entry, for filter V, and on any
    other answer it ends with exit status 1. *)
Theorem minimal_directory_scenario :
  let W := Scenario.world Scenario.minimal_dir (Some Scenario.table) in
  let a := Scenario.args (Some "3.41") false in
  exists d tr,
    (forall ans, front W a ans = (Ok d, ans, tr))
    /\ filter_list d = ["V"]
    /\ missing_by_flt d "V"
       = [ "AstroImageJ Plot Configuration File";
           "AstroImageJ Photometry Aperture File";
           "Compstar Light Curve Plots";
           "Field Image with Apertures";
           "Zoomed-in FOV";
           "Seeing Profile" ]
    /\ (forall x rest, affirmative x = true ->
          exists e tr2,
            (completeness d ;; build_entries W a d) (x :: rest)
            = (Ok [("V", e)], rest, tr2)
            /\ e_filter e = "V" /\ e_obsdur e = "15" /\ e_obsnum e = "3")
    /\ (forall x rest, affirmative x = false ->
          Run.result_of (upload W a (x :: rest)) = Exit 1).
Proof.
  intros W a. eexists. eexists.
  split; [intros ans; vm_compute; reflexivity|].
  split; [vm_compute; reflexivity|].
  split; [vm_compute; reflexivity|].
  match goal with |- context [completeness ?d0] => set (d := d0) end.
  assert (Hm : any_missing d = true) by (vm_compute; reflexivity).
  split.
  - intros x rest Hx.
    destruct (CompletenessFacts.completeness_run d (x :: rest)) as (trp & _ & Ec).
    rewrite Hm, Hx in Ec.
    rewrite (RunFacts.bind_ok _ _ _ _ _ _ Ec).
    assert (Hb : exists e tr3,
               build_entries W a d rest = (Ok [("V", e)], rest, tr3)
               /\ e_filter e = "V" /\ e_obsdur e = "15" /\ e_obsnum e = "3").
    { eexists. eexists. split; [vm_compute; reflexivity|].
      repeat split; vm_compute; reflexivity. }
    destruct Hb as (e & tr3 & -> & He).
    exists e. eexists. split; [reflexivity|exact He].
  - intros x rest Hx. unfold upload.
    assert (Hf : front W a (x :: rest) = (Ok d, x :: rest, _))
      by (vm_compute; reflexivity).
    rewrite (RunFacts.bind_ok _ _ _ _ _ _ Hf).
    destruct (CompletenessFacts.completeness_run d (x :: rest)) as (trp & _ & Ec).
    rewrite Hm, Hx in Ec.
    now rewrite (RunFacts.bind_exit _ _ _ _ _ _ Ec).
Qed.

(* ================================================================== *)
(** * Claims about the end of a run *)
(* ================================================================== *)

Module FinishFacts.

Import Run RunFacts.

Lemma bind_inv {A B} (m : M A) (k : A -> M B) ans (y : B) ans' tr :
  bind m k ans = (Ok y, ans', tr) ->
  exists x ans1 tr1 tr2,
    m ans = (Ok x, ans1, tr1) /\ k x ans1 = (Ok y, ans', tr2)
    /\ tr = (tr1 ++ tr2)%list.
Proof.
  unfold bind. destruct (m ans) as [[[x|c|e] ans1] tr1]; try discriminate.
  destruct (k x ans1) as [[r ans2] tr2] eqn:Ek. intros [= -> -> <-].
  now exists x, ans1, tr1, tr2.
Qed.




(** Events that are neither the submit prompt nor a submission. *)
Lemma quiet_front W a : emits (fun e => submits e = false) (front W a).
Proof. apply StageFacts.emits_front; reflexivity. Qed.

Lemma quiet_completeness d : emits (fun e => submits e = false) (completeness d).
Proof. apply StageFacts.emits_completeness; reflexivity. Qed.

Lemma quiet_build_entries W a d :
  emits (fun e => submits e = false) (build_entries W a d).
Proof. apply StageFacts.emits_build_entries; reflexivity. Qed.


Lemma finish_cancelled W a d es x rest :
  (skip_summary a && skip_files a)%bool = false ->
  PyStr.lower (PyStr.strip x) = "n" ->
  finish W a d es (x :: rest)
  = (Exit 1, rest, [Input PROMPT_SUBMIT; Print MSG_CANCELLED; Bell]).
Proof.
  unfold finish. intros -> E.
  unfold bind, input, when. rewrite E. reflexivity.
Qed.

End FinishFacts.



(** C7, as stated, fails: the user who types [n] at the submit prompt of a
    complete directory, and the user who declines the confirmation of an
    incomplete one, both end the process with exit status 1. *)
Lemma cancelling_exits_with_status_one :
  let a := Scenario.args (Some "3.41") false in
  (exists rest tr,
     upload (Scenario.world Scenario.full_dir (Some Scenario.table)) a ["n"]
     = (Exit 1, rest, tr)
     /\ exit_code (@Exit unit 1) = 1
     /\ In (Input PROMPT_SUBMIT) tr
     /\ In (Print MSG_CANCELLED) tr /\ In Bell tr)
  /\ (exists rest tr,
        upload (Scenario.world Scenario.minimal_dir (Some Scenario.table)) a ["no"]
        = (Exit 1, rest, tr)
        /\ In (Input PROMPT_PROCEED) tr
        /\ In (Print MSG_ABORTED) tr /\ In Bell tr).
Proof.
  intros a. split.
  - eexists. eexists. split; [vm_compute; reflexivity|].
    split; [reflexivity|]. simpl. intuition.
  - eexists. eexists. split; [vm_compute; reflexivity|]. simpl. intuition.
Qed.

(** C7, amended.  Whenever a run exits, it is with status 1 and right after
    the message and the bell of [_err]; this includes both refusals of the
    user, the answer [n] at the submit prompt and any answer but [y] at the
    confirmation of missing files.  Exit status 0 is that of a run that
    returns normally, and of no other. *)
Theorem exit_status (W : World) (a : Args) (ans : list string) :
  (forall c, Run.result_of (upload W a ans) = Exit c ->
     c = 1 /\ Run.ends_with_err (Run.trace_of (upload W a ans)))
  /\ (exit_code (Run.result_of (upload W a ans)) = 0
      <-> Run.result_of (upload W a ans) = Ok tt)
  /\ (forall d es x rest,
        (skip_summary a && skip_files a)%bool = false ->
        PyStr.lower (PyStr.strip x) = "n" ->
        finish W a d es (x :: rest)
        = (Exit 1, rest, [Input PROMPT_SUBMIT; Print MSG_CANCELLED; Bell]))
  /\ (forall d x rest,
        any_missing d = true -> affirmative x = false ->
        exists trp,
          completeness d (x :: rest)
          = (Exit 1, rest,
             (trp ++ [Input PROMPT_PROCEED; Print MSG_ABORTED; Bell])%list)).
Proof.
  pose proof (StageFacts.dies_upload W a ans) as H.
  split; [|split; [|split]].
  - intros c E. now rewrite E in H.
  - destruct (Run.result_of (upload W a ans)) as [[]|c|e]; simpl in *.
    + tauto.
    + destruct H as [-> _]. split; discriminate.
    + split; discriminate.
  - intros d es x rest. apply FinishFacts.finish_cancelled.
  - intros d x rest Hm Hx.
    destruct (CompletenessFacts.completeness_run d (x :: rest)) as (trp & _ & E).
    rewrite Hm, Hx in E. now exists trp.
Qed.

(* ================================================================== *)
(** * Claims about the building of an entry *)
(* ================================================================== *)

Module BuildFacts.

Import Run RunFacts.

Lemma bind_ok_intro {A B} (m : M A) (k : A -> M B) ans x ans1 tr1 y ans2 tr2 :
  m ans = (Ok x, ans1, tr1) ->
  k x ans1 = (Ok y, ans2, tr2) ->
  bind m k ans = (Ok y, ans2, (tr1 ++ tr2)%list).
Proof. unfold bind. now intros -> ->. Qed.

Lemma for_each_prints {A} (f : A -> event) (body : A -> M unit) l ans :
  (forall x ans0, body x ans0 = (Ok tt, ans0, [f x])) ->
  for_each l body ans = (Ok tt, ans, map f l).
Proof.
  intros H. induction l as [|x l IH]; simpl; auto.
  unfold bind. now rewrite H, IH.
Qed.

Lemma arrow_block_run rows ans :
  _arrow_block rows ans
  = (Ok tt, ans, map (row_line (max_len (map fst rows))) rows).
Proof.
  unfold _arrow_block. apply for_each_prints. now intros [k v] ans0.
Qed.

(** The guarded block yields nothing when the column is absent or cannot
    be converted. *)
Lemma aperture_swallows W t :
  (column "Source_Radius" t = None
   \/ exists c e, column "Source_Radius" t = Some c /\ np_array_float W c = inl e) ->
  aperture W t = ("", "").
Proof.
  unfold aperture. intros [->|(c & e & -> & ->)]; reflexivity.
Qed.

End BuildFacts.

(** The complete directory of the scenarios does give [Scenario.full_front],
    whatever the reader says of the table. *)
Lemma full_front_is_front tbl psf_arg skip ans :
  tbl = Some Scenario.table \/ tbl = Some Scenario.table_no_radius \/ tbl = None ->
  exists tr,
    front (Scenario.world Scenario.full_dir tbl) (Scenario.args psf_arg skip) ans
    = (Ok Scenario.full_front, ans, tr).
Proof.
  intros [->|[->| ->]]; eexists; vm_compute; reflexivity.
Qed.

(** C10, on the code.  When the chosen table has no [Source_Radius] column
    the guarded block leaves the aperture radius empty and adds no advisory,
    and the entry is built and submitted all the same: so it is for every
    state, given that the other steps of the turn succeed, and so it is in
    the run on the complete directory.  The block would do the same for a
    column that cannot be converted; but no run gets there with such a
    column, since the ranking has converted it before, outside any guard:
    on the complete directory whose table has a text in the column the run
    ends with a [ValueError] before any entry is built.  And a column that
    holds no number is not swallowed either: the block gives the radius
    [nan], and the rounding of it for the summary raises a [ValueError]
    that leaves [upload]. *)
Theorem radius_failures_at_building :
  (forall W a d dms flt t tm wcs pd ans ans' trp,
     found_in d flt MEAS <> [] ->
     table_read W (PyStr.path_join (directory a) (chosen_tbl d flt)) = Some t ->
     PyStr.mem "JD_UTC" (colnames t) = true ->
     timing W t = inr tm ->
     first_valid_wcs W a (found_in d flt WCS) = Some wcs ->
     psf_and_deltamag a d dms flt ans = (Ok pd, ans', trp) ->
     column "Source_Radius" t = None ->
     aperture W t = ("", "")
     /\ exists e tr,
          build_filter W a d dms flt ans = (Ok e, ans', tr)
          /\ e_photaprad e = ""
          /\ e_notes e = PyStr.strip (or_empty (notes a))
          /\ e_filter e = flt
          /\ In (Print (summary_header flt)) tr)
  /\ (let W := Scenario.world Scenario.full_dir (Some Scenario.table_no_radius) in
      let a := Scenario.args (Some "3.41") false in
      exists tr data,
        upload W a [""] = (Ok tt, [], tr)
        /\ In (Post URL_TSERIES data None) tr
        /\ In ("photaprad", "") data /\ In ("notes", "") data)
  /\ (forall W t c e,
        column "Source_Radius" t = Some c -> np_array_float W c = inl e ->
        aperture W t = ("", ""))
  /\ (let W := Scenario.world Scenario.full_dir (Some Scenario.table_text_radius) in
      let a := Scenario.args (Some "3.41") false in
      aperture W Scenario.table_text_radius = ("", "")
      /\ forall ans,
           exists tr,
             front W a ans = (Raise ValueError, ans, tr)
             /\ upload W a ans = (Raise ValueError, ans, tr)
             /\ ~ In (Print (summary_header "V")) tr
             /\ ~ Run.ends_with_err tr)
  /\ (let W := Scenario.world Scenario.full_dir (Some Scenario.table_nan_radius) in
      let a := Scenario.args (Some "3.41") false in
      aperture W Scenario.table_nan_radius = ("nan", "")
      /\ forall ans,
           exists tr0 tr,
             front W a ans = (Ok Scenario.full_front, ans, tr0)
             /\ build_filter W a Scenario.full_front "" "V" ans
                = (Raise ValueError, ans, [])
             /\ upload W a ans = (Raise ValueError, ans, tr)
             /\ ~ In (Print (summary_header "V")) tr
             /\ ~ Run.ends_with_err tr).
Proof.
  split; [|split; [|split; [|split]]].
  - intros W a d dms flt t tm wcs pd ans ans' trp Hmeas Hread Hjd Htm Hwcs Hpsf Hcol.
    pose proof (BuildFacts.aperture_swallows W t (or_introl Hcol)) as Hap.
    split; [exact Hap|].
    destruct pd as [psf_final deltamag_final].
    eexists. eexists. split.
    + unfold build_filter.
      eapply BuildFacts.bind_ok_intro.
      { destruct (found_in d flt MEAS); [congruence|reflexivity]. }
      eapply BuildFacts.bind_ok_intro; [rewrite Hread; reflexivity|].
      eapply BuildFacts.bind_ok_intro; [rewrite Hjd; reflexivity|].
      eapply BuildFacts.bind_ok_intro; [rewrite Htm; reflexivity|].
      eapply BuildFacts.bind_ok_intro; [rewrite Hwcs; reflexivity|].
      rewrite Hap.
      eapply BuildFacts.bind_ok_intro; [exact Hpsf|]. cbv beta iota.
      eapply BuildFacts.bind_ok_intro; [reflexivity|].
      eapply BuildFacts.bind_ok_intro; [reflexivity|].
      eapply BuildFacts.bind_ok_intro; [apply BuildFacts.arrow_block_run|].
      reflexivity.
    + simpl. split; [reflexivity|]. split; [reflexivity|]. split; [reflexivity|].
      rewrite !in_app_iff. simpl. tauto.
  - intros W a. eexists. eexists. split; [vm_compute; reflexivity|].
    split; [|split]; repeat (first [left; reflexivity | right]).
  - intros W t c e Hc He.
    apply BuildFacts.aperture_swallows. right. exists c, e. auto.
  - intros W a. split; [vm_compute; reflexivity|].
    intros ans. eexists. split; [vm_compute; reflexivity|].
    split; [vm_compute; reflexivity|]. split.
    + intros H. vm_compute in H.
      repeat (destruct H as [H|H]; [discriminate|]). exact H.
    + intros (pre & msg & E).
      apply (f_equal (@rev event)) in E. rewrite rev_app_distr in E.
      simpl in E. discriminate.
  - intros W a. split; [vm_compute; reflexivity|].
    intros ans. eexists. eexists. split; [vm_compute; reflexivity|].
    split; [vm_compute; reflexivity|].
    split; [vm_compute; reflexivity|]. split.
    + intros H. vm_compute in H.
      repeat (destruct H as [H|H]; [discriminate|]). exact H.
    + intros (pre & msg & E).
      apply (f_equal (@rev event)) in E. rewrite rev_app_distr in E.
      simpl in E. discriminate.
Qed.


(* ================================================================== *)
(** * Failures of the readers *)
(* ================================================================== *)

(** C6, on the code.  At the ranking the failure of the table reader is
    caught and becomes the sentinel, and in the loop over the plate-solved
    images a reader that raises is skipped; but the second read of the
    chosen table, in the building of the entry, is not guarded: when the
    reader fails there the exception leaves [upload].  In the complete
    directory with an unreadable measurement table, the only candidate, the
    run ends with that exception and not through [_err]. *)
Theorem unreadable_table_escapes :
  (forall W a x,
     table_read W (PyStr.path_join (directory a) (rec_fn x)) = None ->
     candidate_stat W a x
     = inr {| st_fn := rec_fn x; st_med := SENTINEL; st_var := 1; st_px := rec_px x |})
  /\ (forall W a wfn rest,
        wcs_pixel_scales W (PyStr.path_join (directory a) wfn) = None ->
        first_valid_wcs W a (wfn :: rest) = first_valid_wcs W a rest)
  /\ (forall W a d dms flt ans,
        found_in d flt MEAS <> [] ->
        table_read W (PyStr.path_join (directory a) (chosen_tbl d flt)) = None ->
        build_filter W a d dms flt ans = (Raise ReaderError, ans, []))
  /\ (let W := Scenario.world Scenario.full_dir None in
      let a := Scenario.args (Some "3.41") false in
      candidates (recognized Scenario.full_front) "V"
      = [ {| rec_fn := Scenario.name "measurements.tbl"; rec_desc := MEAS;
             rec_ymd := "20230115"; rec_obs := "ObsA"; rec_flt := "V";
             rec_px := "" |} ]
      /\ any_missing Scenario.full_front = false
      /\ forall ans,
           exists tr,
             upload W a ans = (Raise ReaderError, ans, tr)
             /\ ~ Run.ends_with_err tr).
Proof.
  split; [|split; [|split]].
  - intros W a x H. unfold candidate_stat. now rewrite H.
  - intros W a wfn rest H. simpl. now rewrite H.
  - intros W a d dms flt ans Hmeas Hread. unfold build_filter.
    unfold bind at 1. destruct (found_in d flt MEAS); [congruence|]. simpl.
    unfold bind at 1. now rewrite Hread.
  - intros W a. split; [vm_compute; reflexivity|].
    split; [vm_compute; reflexivity|].
    intros ans. eexists. split; [vm_compute; reflexivity|].
    intros (pre & msg & E).
    apply (f_equal (@rev event)) in E. rewrite rev_app_distr in E.
    simpl in E. discriminate.
Qed.

(* ================================================================== *)
(** * Point-spread width and delta magnitude *)
(* ================================================================== *)

Module PromptFacts.

Lemma ask_psf_valid flt ans v ans' tr :
  ask_psf flt ans = (Ok v, ans', tr) -> PyFloat.syntax_ok v = true.
Proof.
  revert v ans' tr. induction ans as [|x ans IH]; simpl; [discriminate|].
  intros v ans' tr.
  destruct (PyFloat.syntax_ok (PyStr.strip x)) eqn:E.
  - now intros [= <- _ _].
  - destruct (ask_psf flt ans) as [[r rest] tr0]. intros [= -> <- _]. eauto.
Qed.

Lemma ask_deltamag_valid flt ans v ans' tr :
  ask_deltamag flt ans = (Ok v, ans', tr) -> v = "" \/ PyFloat.syntax_ok v = true.
Proof.
  revert v ans' tr. induction ans as [|x ans IH]; simpl; [discriminate|].
  intros v ans' tr.
  destruct (String.eqb (PyStr.strip x) "").
  - intros [= <- _ _]. now left.
  - destruct (PyFloat.syntax_ok (PyStr.strip x)) eqn:E.
    + intros [= <- _ _]. now right.
    + destruct (ask_deltamag flt ans) as [[r rest] tr0]. intros [= -> <- _]. eauto.
Qed.

(** Each answer that is not a number costs one more prompt. *)
Lemma ask_psf_again flt x ans :
  PyFloat.syntax_ok (PyStr.strip x) = false ->
  Run.result_of (ask_psf flt (x :: ans)) = Run.result_of (ask_psf flt ans)
  /\ Run.count_input (prompt_psf flt) (Run.trace_of (ask_psf flt (x :: ans)))
     = S (Run.count_input (prompt_psf flt) (Run.trace_of (ask_psf flt ans))).
Proof.
  intros E. simpl. rewrite E.
  destruct (ask_psf flt ans) as [[r rest] tr]. split; [reflexivity|].
  unfold Run.trace_of, Run.count_input. simpl. now rewrite String.eqb_refl.
Qed.

End PromptFacts.

(** C8, on the code.  In a single-filter run the two values must be given
    ([None] and the empty string are fatal) and a delta magnitude of [0] is
    left blank, but neither value is tested to be a number: the stripped
    text goes into the entry as it is, so that [--psf abc] is accepted.  In
    a multi-filter run the prompts return only a text of float syntax (or,
    for the delta magnitude, the empty text), and an answer that is not one
    repeats the prompt. *)
Theorem single_filter_values_are_not_validated :
  (forall a d dms flt ans,
     single_filter d = true ->
     psf_and_deltamag a d dms flt ans
     = (Ok (PyStr.strip (or_empty (psf a)), dms), ans, []))
  /\ (forall a ans,
        truthy (psf a) = true -> truthy (deltamag a) = true ->
        single_filter_args a ans
        = (Ok (if String.eqb (PyStr.strip (or_empty (deltamag a))) "0" then ""
               else PyStr.strip (or_empty (deltamag a))), ans, []))
  /\ (forall a ans,
        truthy (psf a) = false \/ truthy (deltamag a) = false ->
        Run.result_of (single_filter_args a ans) = Exit 1)
  /\ (let W := Scenario.world Scenario.full_dir (Some Scenario.table) in
      let a := Scenario.args (Some "abc") false in
      PyFloat.syntax_ok "abc" = false
      /\ single_filter Scenario.full_front = true
      /\ (exists e tr,
            build_entries W a Scenario.full_front [] = (Ok [("V", e)], [], tr)
            /\ e_psf e = "abc")
      /\ (exists tr data,
            upload W a [""] = (Ok tt, [], tr)
            /\ In (Post URL_TSERIES data None) tr
            /\ In ("psf", "abc") data))
  /\ (forall flt ans v ans' tr,
        ask_psf flt ans = (Ok v, ans', tr) -> PyFloat.syntax_ok v = true)
  /\ (forall flt ans v ans' tr,
        ask_deltamag flt ans = (Ok v, ans', tr) ->
        v = "" \/ PyFloat.syntax_ok v = true)
  /\ (forall flt x ans,
        PyFloat.syntax_ok (PyStr.strip x) = false ->
        Run.result_of (ask_psf flt (x :: ans)) = Run.result_of (ask_psf flt ans)
        /\ Run.count_input (prompt_psf flt) (Run.trace_of (ask_psf flt (x :: ans)))
           = S (Run.count_input (prompt_psf flt) (Run.trace_of (ask_psf flt ans)))).
Proof.
  split; [|split; [|split; [|split; [|split; [|split]]]]].
  - intros a d dms flt ans H. unfold psf_and_deltamag. now rewrite H.
  - intros a ans H1 H2. unfold single_filter_args, bind. now rewrite H1, H2.
  - intros a ans [H|H]; unfold single_filter_args, bind.
    + now rewrite H.
    + rewrite H. destruct (truthy (psf a)); reflexivity.
  - intros W a. split; [reflexivity|]. split; [reflexivity|]. split.
    + eexists. eexists. split; [vm_compute; reflexivity|reflexivity].
    + eexists. eexists. split; [vm_compute; reflexivity|].
      split; repeat (first [left; reflexivity | right]).
  - apply PromptFacts.ask_psf_valid.
  - apply PromptFacts.ask_deltamag_valid.
  - apply PromptFacts.ask_psf_again.
Qed.

(* ================================================================== *)
(** * The claims on the scenarios *)
(* ================================================================== *)

(** The tie-break example: C, of the largest median, is chosen whatever
    the arrangement of A, B and C. *)
Example largest_median_wins :
  choose (Scenario.world Scenario.full_dir None)
         [Scenario.cand_A; Scenario.cand_B; Scenario.cand_C]
  = Some (st_fn Scenario.cand_C)
  /\ forall stats',
       Permutation [Scenario.cand_A; Scenario.cand_B; Scenario.cand_C] stats' ->
       choose (Scenario.world Scenario.full_dir None) stats'
       = Some (st_fn Scenario.cand_C).
Proof.
  split; [reflexivity|]. intros stats' P.
  rewrite (SelectionFacts.choose_invariant _
             [Scenario.cand_A; Scenario.cand_B; Scenario.cand_C] stats');
    [reflexivity|discriminate|reflexivity|exact P].
Qed.

(** With equal medians and flags the larger pixel-size token wins. *)
Example larger_pixel_token_wins :
  choose (Scenario.world Scenario.full_dir None) [Scenario.cand_A; Scenario.cand_B]
  = Some (st_fn Scenario.cand_B).
Proof. reflexivity. Qed.

(** C4 on the scenario of the three files: the confirmation is asked once,
    and the answer [no] is fatal. *)
Lemma completeness_audit_witness :
  let W := Scenario.world Scenario.minimal_dir (Some Scenario.table) in
  let a := Scenario.args (Some "3.41") false in
  Run.count_input PROMPT_PROCEED (Run.trace_of (upload W a ["no"])) = 1%nat
  /\ Run.result_of (upload W a ["no"]) = Exit 1.
Proof.
  intros W a.
  assert (F : { d : Front & { tr | front W a ["no"] = (Ok d, ["no"], tr) } }).
  { eexists. eexists. vm_compute. reflexivity. }
  destruct F as (d & tr & F).
  assert (Hm : exists flt, In flt (filter_list d) /\ missing_by_flt d flt <> []).
  { exists "V". revert F. vm_compute. intros [= <- _]. split; [now left|discriminate]. }
  destruct (proj2 (proj2 (proj2 (completeness_audit W a d))) ["no"] ["no"] tr F Hm)
    as (Hc & Hx).
  split; [exact Hc|].
  exact (proj1 (Hx "no" [] eq_refl eq_refl)).
Defined.

(* ================================================================== *)
(** * The matcher and what a pattern matches *)
(* ================================================================== *)

Module ReFacts.

Import Re ReSem.

Lemma length_app a b : String.length (a ++ b) = (String.length a + String.length b)%nat.
Proof. induction a; simpl; auto. Qed.

Lemma app_assoc a b c : (a ++ b) ++ c = a ++ (b ++ c).
Proof. induction a; simpl; congruence. Qed.

Lemma substring_prefix w rest : String.substring 0 (String.length w) (w ++ rest) = w.
Proof.
  induction w as [|c w IH]; simpl.
  - now destruct rest.
  - now rewrite IH.
Qed.

Lemma run_plus {A} r pos s g (k : nat -> string -> groups -> option A) :
  run (Plus r) pos s g k
  = plus_loop (fun pos s g k' => run r pos s g k') k (S (String.length s)) pos s g.
Proof. reflexivity. Qed.

(** Whatever [run] returns comes from its continuation, called after a
    match of the pattern. *)
Lemma run_sound r :
  forall A pos s g (k : nat -> string -> groups -> option A) x,
    run r pos s g k = Some x ->
    exists w rest g',
      s = w ++ rest /\ sem r pos w rest g g'
      /\ k (String.length w + pos)%nat rest g' = Some x.
Proof.
  induction r as [c|p| |r1 IH1 r2 IH2|r IH|r IH|name r IH| | ];
    intros A pos s g k x H.
  - simpl in H. destruct s as [|c' s]; [discriminate|].
    destruct (Ascii.eqb_spec c c') as [<-|]; [|discriminate].
    exists (String c ""), s, g. repeat split; auto. constructor.
  - simpl in H. destruct s as [|c' s]; [discriminate|].
    destruct (p c') eqn:Ep; [|discriminate].
    exists (String c' ""), s, g. repeat split; auto. now constructor.
  - exists "", s, g. repeat split; auto. constructor.
  - simpl in H. apply IH1 in H as (w1 & rest1 & g1 & -> & S1 & H).
    apply IH2 in H as (w2 & rest & g2 & -> & S2 & H).
    exists (w1 ++ w2), rest, g2. rewrite app_assoc. repeat split; auto.
    + econstructor; eauto.
    + now rewrite length_app, (Nat.add_comm (String.length w1)), <- Nat.add_assoc.
  - simpl in H. destruct (run r pos s g k) eqn:E.
    + injection H as ->. apply IH in E as (w & rest & g' & -> & S1 & E).
      exists w, rest, g'. repeat split; auto. now constructor.
    + exists "", s, g. repeat split; auto. apply sem_opt_none.
  - rewrite run_plus in H.
    remember (S (String.length s)) as fuel eqn:Ef. clear Ef.
    revert pos s g x H.
    induction fuel as [|fuel IHf]; intros pos s g x H; [discriminate|].
    simpl in H. apply IH in H as (w1 & rest1 & g1 & -> & S1 & H).
    destruct (Nat.leb_spec (String.length w1 + pos) pos) as [Hle|Hlt]; [discriminate|].
    assert (Hw1 : w1 <> "") by (intros ->; simpl in Hlt; lia).
    destruct (plus_loop _ k fuel _ rest1 g1) eqn:E.
    + injection H as ->. apply IHf in E as (w2 & rest & g2 & -> & S2 & E).
      exists (w1 ++ w2), rest, g2. rewrite app_assoc. repeat split; auto.
      * eapply sem_plus_more; eauto.
      * now rewrite length_app, (Nat.add_comm (String.length w1)), <- Nat.add_assoc.
    + exists w1, rest1, g1. repeat split; auto. now constructor.
  - simpl in H. apply IH in H as (w & rest & g' & -> & S1 & H).
    rewrite Nat.add_sub, substring_prefix in H.
    exists w, rest, ((name, w) :: g'). repeat split; auto. now constructor.
  - simpl in H. destruct pos; [|discriminate].
    exists "", s, g. repeat split; auto. constructor.
  - simpl in H. exists "", s, g.
    destruct s as [|c [|c' s]]; try discriminate.
    + repeat split; auto. constructor. now left.
    + destruct (Ascii.eqb_spec c "010") as [->|]; [|discriminate].
      repeat split; auto. constructor. now right.
Qed.

(** The matcher finds a match whenever there is one the continuation
    accepts. *)
Lemma run_complete r :
  forall pos w rest g g',
    sem r pos w rest g g' ->
    forall A (k : nat -> string -> groups -> option A) x,
      k (String.length w + pos)%nat rest g' = Some x ->
      exists x', run r pos (w ++ rest) g k = Some x'.
Proof.
  induction r as [c|p| |r1 IH1 r2 IH2|r IH|r IH|name r IH| | ];
    intros pos w rest g g' S A k x H.
  - inversion S; subst. simpl. rewrite Ascii.eqb_refl. eauto.
  - inversion S; subst. simpl.
    match goal with E : p _ = true |- _ => rewrite E end. eauto.
  - inversion S; subst. simpl in *. eauto.
  - inversion S; subst. rewrite app_assoc. simpl.
    rewrite length_app, (Nat.add_comm (String.length w1)), <- Nat.add_assoc in H.
    match goal with
    | S2 : sem r2 _ _ _ _ _ |- _ => destruct (IH2 _ _ _ _ _ S2 A k x H) as (x2 & E2)
    end.
    match goal with
    | S1 : sem r1 _ _ _ _ _ |- _ =>
        apply (IH1 _ _ _ _ _ S1 A (fun pos' s' g' => run r2 pos' s' g' k) x2)
    end.
    exact E2.
  - simpl. destruct (run r pos (w ++ rest) g k) eqn:E; [eauto|].
    inversion S; subst.
    + match goal with
      | S1 : sem r _ _ _ _ _ |- _ => destruct (IH _ _ _ _ _ S1 A k x H) as (x' & E')
      end.
      congruence.
    + simpl in *. eauto.
  - rewrite run_plus.
    assert (L : forall fuel, (String.length (w ++ rest) < fuel)%nat ->
                exists x', plus_loop (fun pos s g k' => run r pos s g k') k
                                     fuel pos (w ++ rest) g = Some x').
    { clear - IH S H. remember (Plus r) as pr eqn:Epr.
      induction S; try discriminate; injection Epr as ->; intros fuel Hf.
      - destruct fuel as [|fuel]; [lia|]. simpl.
        match goal with
        | |- exists x', run r _ _ _ ?c = _ =>
            assert (C : exists y, c (String.length w + pos)%nat rest g' = Some y)
        end.
        { cbv beta.
          destruct (Nat.leb_spec (String.length w + pos) pos) as [Hle|Hlt].
          - destruct w; [congruence|simpl in Hle; lia].
          - destruct (plus_loop _ k fuel _ rest g'); eauto. }
        destruct C as (y & C). exact (IH _ _ _ _ _ S _ _ y C).
      - destruct fuel as [|fuel]; [lia|]. simpl. rewrite app_assoc.
        rewrite length_app, (Nat.add_comm (String.length w1)), <- Nat.add_assoc in H.
        destruct (IHS2 eq_refl H fuel) as (x2 & E2).
        { rewrite app_assoc, length_app in Hf.
          destruct w1; [congruence|simpl in Hf; lia]. }
        match goal with
        | |- exists x', run r _ _ _ ?c = _ =>
            assert (C : exists y,
                       c (String.length w1 + pos)%nat (w2 ++ rest) g1 = Some y)
        end.
        { cbv beta.
          destruct (Nat.leb_spec (String.length w1 + pos) pos) as [Hle|Hlt].
          - destruct w1; [congruence|simpl in Hle; lia].
          - rewrite E2. eauto. }
        destruct C as (y & C). exact (IH _ _ _ _ _ S1 _ _ y C). }
    apply L. lia.
  - inversion S; subst. simpl.
    match goal with
    | S1 : sem r _ _ _ _ _ |- _ =>
        apply (IH _ _ _ _ _ S1 A
                 (fun pos' s' g' =>
                    k pos' s' ((name, String.substring 0 (pos' - pos) (w ++ rest)) :: g'))
                 x)
    end.
    now rewrite Nat.add_sub, substring_prefix.
  - inversion S; subst. simpl in *. eauto.
  - inversion S; subst. simpl in *.
    match goal with E : _ \/ _ |- _ => destruct E as [->| ->] end; simpl; eauto.
Qed.

Lemma sem_plus_class p pos w rest g g' :
  sem (Plus (Class p)) pos w rest g g' ->
  w <> "" /\ PyStr.all_chars p w = true /\ g' = g.
Proof.
  remember (Plus (Class p)) as pr eqn:E. intros S.
  induction S; try discriminate; injection E as ->.
  - inversion S; subst. simpl.
    match goal with E : p _ = true |- _ => rewrite E end. repeat split; auto.
  - inversion S1; subst. destruct (IHS2 eq_refl) as (_ & Hall & ->). simpl.
    match goal with E : p _ = true |- _ => rewrite E end. repeat split; auto.
    discriminate.
Qed.

Lemma plus_class_sem p w pos rest g :
  w <> "" -> PyStr.all_chars p w = true -> sem (Plus (Class p)) pos w rest g g.
Proof.
  revert pos. induction w as [|c w IH]; intros pos Hne Hall; [congruence|].
  simpl in Hall. apply andb_true_iff in Hall as [Hc Hall].
  destruct w as [|c' w].
  - apply sem_plus_one; [now constructor|discriminate].
  - change (String c (String c' w)) with (String c "" ++ String c' w).
    eapply sem_plus_more.
    + now constructor.
    + discriminate.
    + apply IH; [discriminate|exact Hall].
Qed.

Lemma sem_times_class n p pos w rest g g' :
  sem (times n (Class p)) pos w rest g g' ->
  String.length w = n /\ PyStr.all_chars p w = true /\ g' = g.
Proof.
  revert pos w g. induction n as [|n IH]; intros pos w g S; simpl in S.
  - inversion S; subst. auto.
  - inversion S; subst.
    match goal with S1 : sem (Class p) _ _ _ _ _ |- _ => inversion S1; subst end.
    match goal with S2 : sem (times n _) _ _ _ _ _ |- _ =>
      apply IH in S2 as (Hl & Hall & ->) end.
    simpl. rewrite Hl, Hall.
    match goal with E : p _ = true |- _ => rewrite E end. auto.
Qed.

Lemma times_class_sem n p w pos rest g :
  String.length w = n -> PyStr.all_chars p w = true ->
  sem (times n (Class p)) pos w rest g g.
Proof.
  revert pos w. induction n as [|n IH]; intros pos w Hl Hall.
  - destruct w; [constructor|discriminate].
  - destruct w as [|c w]; [discriminate|]. simpl in *.
    apply andb_true_iff in Hall as [Hc Hall].
    change (String c w) with (String c "" ++ w).
    econstructor; [now constructor|]. apply IH; auto.
Qed.

Lemma sem_lit l pos w rest g g' :
  sem (lit l) pos w rest g g' -> w = l /\ g' = g.
Proof.
  revert pos w. induction l as [|c l IH]; intros pos w S; simpl in S.
  - inversion S; subst. auto.
  - inversion S; subst.
    match goal with S1 : sem (Lit c) _ _ _ _ _ |- _ => inversion S1; subst end.
    match goal with S2 : sem (lit l) _ _ _ _ _ |- _ => apply IH in S2 as (-> & ->) end.
    auto.
Qed.

Lemma lit_sem l pos rest g : sem (lit l) pos l rest g g.
Proof.
  revert pos. induction l as [|c l IH]; intros pos; simpl; [constructor|].
  change (String c l) with (String c "" ++ l).
  econstructor; [constructor|apply IH].
Qed.

End ReFacts.

(* ================================================================== *)
(** * Target identifiers *)
(* ================================================================== *)

Module TargetFacts.

Import Re ReSem ReFacts.

Lemma append_empty s : s ++ "" = s.
Proof. induction s; simpl; congruence. Qed.

Lemma fullmatch_sound r s g :
  fullmatch r s = Some g -> sem r 0 s "" [] g.
Proof.
  unfold fullmatch. intros H.
  apply run_sound in H as (w & rest & g' & -> & S & H).
  destruct rest; [|discriminate]. injection H as <-.
  now rewrite append_empty.
Qed.

Lemma fullmatch_complete r s g :
  sem r 0 s "" [] g -> exists g', fullmatch r s = Some g'.
Proof.
  intros S. unfold fullmatch.
  destruct (run_complete r 0 s "" [] g S _
              (fun _ s' g0 => match s' with EmptyString => Some g0 | _ => None end)
              g eq_refl) as (x' & E).
  rewrite append_empty in E. eauto.
Qed.

Lemma dotted_unique s num pp num' pp' :
  Shape.dotted s num pp -> Shape.dotted s num' pp' -> num = num' /\ pp = pp'.
Proof.
  intros (-> & _ & Hd & _) (E & _ & Hd' & _).
  unfold Shape.digits in *.
  revert num' Hd' E. induction num as [|c num IH]; intros [|c' num'] Hd' E;
    simpl in *.
  - injection E as ->. auto.
  - injection E as <- _. discriminate.
  - injection E as -> _. discriminate.
  - injection E as <- E.
    apply andb_true_iff in Hd as [_ Hd]. apply andb_true_iff in Hd' as [_ Hd'].
    destruct (IH Hd num' Hd' E) as [-> ->]. auto.
Qed.

Lemma tic_match_sound s g :
  fullmatch tic_pattern s = Some g ->
  exists num pp, Shape.dotted s num pp /\ grp "1" g = num /\ grp "2" g = pp.
Proof.
  intros H. apply fullmatch_sound in H. unfold tic_pattern, seq in H.
  inversion H as [| | |? ? ? w1 wr ? ? g1 ? S1 Sr| | | | | | | ]; subst; clear H.
  inversion S1 as [| | | | | | | |? ? ? ? ? ? ? Sd| | ]; subst; clear S1.
  apply sem_plus_class in Sd as (Hne & Hd & ->).
  inversion Sr as [| | |? ? ? wdot wr2 ? ? g2 ? Sdot Sr2| | | | | | | ]; subst; clear Sr.
  inversion Sdot; subst; clear Sdot.
  inversion Sr2 as [| | |? ? ? w2 we ? ? g3 ? S2 Se| | | | | | | ]; subst; clear Sr2.
  inversion Se; subst; clear Se.
  inversion S2 as [| | | | | | | |? ? ? ? ? ? ? St| | ]; subst; clear S2.
  apply (sem_times_class 2 PyStr.is_digit) in St as (Hl & Hp & ->).
  exists w1, w2. rewrite append_empty. repeat split; auto.
Qed.

Lemma tic_match_complete s num pp :
  Shape.dotted s num pp -> exists g, fullmatch tic_pattern s = Some g.
Proof.
  intros (-> & Hne & Hd & Hl & Hp).
  eapply fullmatch_complete. unfold tic_pattern, seq.
  rewrite <- (append_empty pp) at 1.
  econstructor.
  - constructor. now apply plus_class_sem.
  - change ("." ++ pp ++ "") with (String "." "" ++ (pp ++ "")).
    econstructor; [constructor|].
    econstructor; [|constructor].
    constructor. now apply times_class_sem.
Qed.

Lemma tic_no_match s :
  (forall num pp, ~ Shape.dotted s num pp) -> fullmatch tic_pattern s = None.
Proof.
  intros H. destruct (fullmatch tic_pattern s) as [g|] eqn:E; auto.
  apply tic_match_sound in E as (num & pp & D & _). now destruct (H num pp).
Qed.

End TargetFacts.

(** X1.  On identifiers of 7-bit characters, [parse_target] succeeds
    exactly when the trimmed [tic] is a non-empty run of the digits [0] to
    [9], a dot and two such digits, and the trimmed [toi] is either [0] or
    of the same form with the same two digits; the target prefix is then
    [TIC<digits>-<two digits>], and nothing is printed or read.  In every
    other case the run ends through [_err] before anything else is done. *)
Theorem target_is_parsed (a : Args) (ans : list string) :
  Shape.seven_bit (tic a) -> Shape.seven_bit (toi a) ->
  (forall tg ans' tr,
     parse_target a ans = (Ok tg, ans', tr) ->
     ans' = ans /\ tr = []
     /\ exists num pp,
          Shape.dotted (PyStr.strip (tic a)) num pp
          /\ tic_num tg = num /\ planet_tic tg = pp
          /\ tgt_prefix tg = "TIC" ++ num ++ "-" ++ pp
          /\ ((PyStr.strip (toi a) = "0" /\ toi_lbl_upload tg = "")
              \/ (PyStr.strip (toi a) <> "0"
                  /\ (exists tnum, Shape.dotted (PyStr.strip (toi a)) tnum pp)
                  /\ toi_lbl_upload tg = "TOI" ++ PyStr.strip (toi a))))
  /\ (forall num pp,
        Shape.dotted (PyStr.strip (tic a)) num pp ->
        (PyStr.strip (toi a) = "0"
         \/ exists tnum, Shape.dotted (PyStr.strip (toi a)) tnum pp) ->
        exists tg, parse_target a ans = (Ok tg, ans, []))
  /\ ((exists tg, parse_target a ans = (Ok tg, ans, []))
      \/ (exists msg, parse_target a ans = (Exit 1, ans, [Print msg; Bell]))).
Proof.
  intros _ _. unfold parse_target.
  destruct (Re.fullmatch tic_pattern (PyStr.strip (tic a))) as [mt|] eqn:Et.
  2:{ split; [discriminate|]. split; [|right; eexists; reflexivity].
      intros num pp D _. apply TargetFacts.tic_match_complete in D as (g & D).
      congruence. }
  destruct (TargetFacts.tic_match_sound _ _ Et) as (num & pp & D & E1 & E2).
  rewrite E1, E2.
  destruct (String.eqb_spec (PyStr.strip (toi a)) "0") as [E0|E0].
  { split; [|split; [|left; eexists; reflexivity]].
    - intros tg ans' tr [= <- <- <-]. simpl. split; auto. split; auto.
      exists num, pp. split; [exact D|]. repeat split; auto.
    - intros; eexists; reflexivity. }
  destruct (Re.fullmatch tic_pattern (PyStr.strip (toi a))) as [mo|] eqn:Eo.
  2:{ split; [discriminate|]. split; [|right; eexists; reflexivity].
      intros num' pp' D' [H|(tnum & H)]; [contradiction|].
      apply TargetFacts.tic_match_complete in H as (g & H). congruence. }
  destruct (TargetFacts.tic_match_sound _ _ Eo) as (tnum & tpp & Do & _ & E4).
  rewrite E4.
  destruct (String.eqb_spec pp tpp) as [<-|Hpp]; simpl.
  - split; [|split; [|left; eexists; reflexivity]].
    + intros tg ans' tr [= <- <- <-]. simpl. split; auto. split; auto.
      exists num, pp. split; [exact D|]. repeat split; auto.
      right. split; auto. split; auto. now exists tnum.
    + intros; eexists; reflexivity.
  - split; [discriminate|]. split; [|right; eexists; reflexivity].
    intros num' pp' D' [H|(tnum' & H)]; [contradiction|].
    destruct (TargetFacts.dotted_unique _ _ _ _ _ D D') as [_ <-].
    destruct (TargetFacts.dotted_unique _ _ _ _ _ Do H) as [_ <-].
    contradiction.
Qed.

(** X1 on the identifiers of the scenarios, and on a [toi] of another
    planet. *)
Lemma target_is_parsed_witness :
  (exists tg,
     parse_target (Scenario.args (Some "3.41") false) [] = (Ok tg, [], [])
     /\ tgt_prefix tg = "TIC12345678-01")
  /\ Shape.seven_bit " 12345678.01 ".
Proof.
  split; [|reflexivity].
  destruct (target_is_parsed (Scenario.args (Some "3.41") false) []
              eq_refl eq_refl) as (H1 & H2 & _).
  destruct (H2 "12345678" "01") as (tg & E).
  - unfold Shape.dotted, Shape.digits. repeat split; try discriminate; reflexivity.
  - right. exists "1234". unfold Shape.dotted, Shape.digits.
    repeat split; try discriminate; reflexivity.
  - exists tg. split; [exact E|].
    destruct (H1 tg [] [] E) as (_ & _ & num & pp & D & _ & _ & Ep & _).
    rewrite Ep.
    destruct (TargetFacts.dotted_unique _ _ _ "12345678" "01" D) as [-> ->];
      [|reflexivity].
    unfold Shape.dotted, Shape.digits. repeat split; try discriminate; reflexivity.
Defined.

(* ================================================================== *)
(** * The grammar of filenames *)
(* ================================================================== *)

Module GrammarFacts.

Import Re ReSem ReFacts.

Lemma seq_inv r1 r2 pos w rest g g2 :
  sem (Seq r1 r2) pos w rest g g2 ->
  exists w1 w2 g1,
    w = w1 ++ w2 /\ sem r1 pos w1 (w2 ++ rest) g g1
    /\ sem r2 (String.length w1 + pos) w2 rest g1 g2.
Proof. intros S. inversion S; subst. eauto 7. Qed.

Lemma group_inv name r pos w rest g g' :
  sem (Group name r) pos w rest g g' ->
  exists g1, g' = (name, w) :: g1 /\ sem r pos w rest g g1.
Proof. intros S. inversion S; subst. eauto. Qed.

Lemma lit1_inv c pos w rest g g' :
  sem (Lit c) pos w rest g g' -> w = String c "" /\ g' = g.
Proof. intros S. inversion S; subst. auto. Qed.

Lemma empty_inv pos w rest g g' : sem Empty pos w rest g g' -> w = "" /\ g' = g.
Proof. intros S. inversion S; subst. auto. Qed.

Lemma bol_inv pos w rest g g' : sem Bol pos w rest g g' -> w = "" /\ g' = g.
Proof. intros S. inversion S; subst. auto. Qed.

Lemma eol_inv pos w rest g g' :
  sem Eol pos w rest g g' ->
  w = "" /\ g' = g /\ (rest = "" \/ rest = String "010" "").
Proof. intros S. inversion S; subst. auto. Qed.

Lemma opt_inv r pos w rest g g' :
  sem (Opt r) pos w rest g g' -> sem r pos w rest g g' \/ (w = "" /\ g' = g).
Proof. intros S. inversion S; subst; auto. Qed.

Lemma match_sound r s g :
  match_ r s = Some g -> exists w rest, s = w ++ rest /\ sem r 0 w rest [] g.
Proof.
  unfold match_. intros H.
  apply run_sound in H as (w & rest & g' & -> & S & [= <-]). eauto.
Qed.

(** What a match of [base] looks like. *)
Lemma base_sound fn m :
  match_ base fn = Some m ->
  exists d pp ymd obs flt px tail,
    (fn = "TIC" ++ d ++ "-" ++ pp ++ "_" ++ ymd ++ "_" ++ obs ++ "_" ++ flt
          ++ Shape.px_part px ++ "_" ++ tail
     \/ fn = "TIC" ++ d ++ "-" ++ pp ++ "_" ++ ymd ++ "_" ++ obs ++ "_" ++ flt
             ++ Shape.px_part px ++ "_" ++ tail ++ String "010" "")
    /\ grp "tgt" m = "TIC" ++ d /\ grp "pp" m = pp /\ grp "ymd" m = ymd
    /\ grp "obs" m = obs /\ grp "flt" m = flt /\ grp "px" m = px
    /\ grp "tail" m = tail
    /\ d <> "" /\ Shape.digits d
    /\ String.length pp = 2%nat /\ Shape.digits pp
    /\ String.length ymd = 8%nat /\ Shape.digits ymd
    /\ obs <> "" /\ PyStr.all_chars obs_char obs = true
    /\ flt <> "" /\ PyStr.all_chars flt_char flt = true
    /\ Shape.digits px
    /\ tail <> "".
Proof.
  intros H. apply match_sound in H as (w & rest & -> & S).
  unfold base, seq in S.
  apply seq_inv in S as (w0 & q1 & g0 & -> & S0 & S).
  apply bol_inv in S0 as (-> & ->).
  apply seq_inv in S as (wtgt & q2 & g1 & -> & S1 & S).
  apply group_inv in S1 as (g1' & -> & S1).
  apply seq_inv in S1 as (wtic & wd & gt & -> & St & Sd).
  apply sem_lit in St as (-> & ->).
  apply sem_plus_class in Sd as (Hd1 & Hd2 & ->).
  apply seq_inv in S as (w1 & q3 & g2 & -> & S2 & S).
  apply lit1_inv in S2 as (-> & ->).
  apply seq_inv in S as (wpp & q4 & g3 & -> & S3 & S).
  apply group_inv in S3 as (g3' & -> & S3).
  apply (sem_times_class 2 PyStr.is_digit) in S3 as (Hp1 & Hp2 & ->).
  apply seq_inv in S as (w2 & q5 & g4 & -> & S4 & S).
  apply lit1_inv in S4 as (-> & ->).
  apply seq_inv in S as (wymd & q6 & g5 & -> & S5 & S).
  apply group_inv in S5 as (g5' & -> & S5).
  apply (sem_times_class 8 PyStr.is_digit) in S5 as (Hy1 & Hy2 & ->).
  apply seq_inv in S as (w3 & q7 & g6 & -> & S6 & S).
  apply lit1_inv in S6 as (-> & ->).
  apply seq_inv in S as (wobs & q8 & g7 & -> & S7 & S).
  apply group_inv in S7 as (g7' & -> & S7).
  apply sem_plus_class in S7 as (Ho1 & Ho2 & ->).
  apply seq_inv in S as (w4 & q9 & g8 & -> & S8 & S).
  apply lit1_inv in S8 as (-> & ->).
  apply seq_inv in S as (wflt & q10 & g9 & -> & S9 & S).
  apply group_inv in S9 as (g9' & -> & S9).
  apply sem_plus_class in S9 as (Hf1 & Hf2 & ->).
  apply seq_inv in S as (wopt & q11 & g10 & -> & S10 & S).
  apply seq_inv in S as (w5 & q12 & g11 & -> & S11 & S).
  apply lit1_inv in S11 as (-> & ->).
  apply seq_inv in S as (wtail & q13 & g12 & -> & S12 & S).
  apply group_inv in S12 as (g12' & -> & S12).
  apply sem_plus_class in S12 as (Ht1 & Ht2 & ->).
  apply seq_inv in S as (w6 & q14 & g13 & -> & S13 & S).
  apply eol_inv in S13 as (-> & -> & Hrest).
  apply empty_inv in S as (-> & ->).
  apply opt_inv in S10 as [S10|(-> & ->)].
  - apply seq_inv in S10 as (wu & q15 & g14 & -> & S14 & S10).
    apply lit1_inv in S14 as (-> & ->).
    apply seq_inv in S10 as (wpx & q16 & g15 & -> & S15 & S10).
    apply group_inv in S15 as (g15' & -> & S15).
    apply sem_plus_class in S15 as (Hx1 & Hx2 & ->).
    apply seq_inv in S10 as (wl & q17 & g16 & -> & S16 & S10).
    apply (sem_lit "px") in S16 as (-> & ->).
    apply empty_inv in S10 as (-> & ->).
    exists wd, wpp, wymd, wobs, wflt, wpx, wtail.
    split.
    + assert (Epx : Shape.px_part wpx = "_" ++ wpx ++ "px").
      { unfold Shape.px_part. destruct wpx; [congruence|reflexivity]. }
      rewrite Epx.
      simpl in Hrest. destruct Hrest as [->| ->]; [left|right];
        repeat first [rewrite app_assoc | rewrite TargetFacts.append_empty
                     | progress simpl]; reflexivity.
    + unfold grp. simpl. repeat split; auto.
  - exists wd, wpp, wymd, wobs, wflt, "", wtail.
    split.
    + simpl in Hrest. destruct Hrest as [->| ->]; [left|right];
        repeat first [rewrite app_assoc | rewrite TargetFacts.append_empty
                     | progress simpl]; reflexivity.
    + unfold grp. simpl. repeat split; auto.
Qed.

End GrammarFacts.

(** X2.  The name of every recognized file of 7-bit characters is made of
    the fields of its record: the target prefix ([TIC], digits, a hyphen,
    two digits), an eight-digit date, an observatory of letters, digits and
    hyphens, a filter of letters, digits, hyphens and plus signs, an
    optional [_<digits>px] whose digits are the pixel field (empty when the
    token is absent), and the literal name of the role its descriptor
    stands for in [allowed_specs], joined by underscores, with at most one
    newline after it. *)
Theorem recognized_name_decomposes (tgt_prefix fn : string) (r : FileRecord) :
  Shape.seven_bit fn ->
  classify tgt_prefix fn = inl r ->
  rec_fn r = fn
  /\ exists d pp tail,
       tgt_prefix = "TIC" ++ d ++ "-" ++ pp
       /\ d <> "" /\ Shape.digits d
       /\ String.length pp = 2%nat /\ Shape.digits pp
       /\ In (exactly tail, rec_desc r) allowed_specs
       /\ (fn = Shape.stem tgt_prefix r tail
           \/ fn = Shape.stem tgt_prefix r tail ++ String "010" "")
       /\ String.length (rec_ymd r) = 8%nat /\ Shape.digits (rec_ymd r)
       /\ rec_obs r <> "" /\ PyStr.all_chars obs_char (rec_obs r) = true
       /\ rec_flt r <> "" /\ PyStr.all_chars flt_char (rec_flt r) = true
       /\ Shape.digits (rec_px r).
Proof.
  intros _. unfold classify.
  destruct (Re.match_ base fn) as [m|] eqn:Em; [|discriminate].
  destruct (GrammarFacts.base_sound fn m Em)
    as (d & pp & ymd & obs & flt & px & tail & Hfn & Etgt & Epp & Eymd & Eobs & Eflt
        & Epx & Etail & Hd1 & Hd2 & Hp1 & Hp2 & Hy1 & Hy2 & Ho1 & Ho2 & Hf1 & Hf2
        & Hx & Ht).
  rewrite Etgt, Epp, Eymd, Eobs, Eflt, Epx, Etail.
  destruct (String.eqb_spec (("TIC" ++ d) ++ "-" ++ pp) tgt_prefix) as [Ep|Ep];
    [|discriminate].
  remember (first_desc allowed_specs tail) as fd eqn:Ed. symmetry in Ed.
  destruct fd as [desc|]; [|discriminate]. simpl.
  destruct (String.eqb desc ""); [discriminate|]. simpl.
  intros [= <-]. simpl. split; auto.
  exists d, pp, tail.
  apply ClassifyFacts.first_desc_some in Ed as (pre & pat & post & E & Hm & _).
  assert (Hin : In (pat, desc) allowed_specs).
  { rewrite E, in_app_iff. right. now left. }
  assert (Hspec : In (exactly tail, desc) allowed_specs).
  { clear E. simpl in Hin.
    repeat (destruct Hin as [Hin|Hin];
            [injection Hin as <- <-;
             apply ClassifyFacts.fullmatch_exactly in Hm; rewrite Hm;
             simpl; tauto|]).
    destruct Hin. }
  split; [now rewrite <- Ep|].
  repeat (split; [assumption|]).
  split; [|repeat split; assumption].
  unfold Shape.stem. simpl. rewrite <- Ep.
  destruct Hfn as [-> | ->]; [left|right];
    repeat first [rewrite ReFacts.app_assoc | progress simpl]; reflexivity.
Qed.

(** X2 on a measurement table with a pixel-size token. *)
Lemma recognized_name_decomposes_witness :
  exists d pp tail,
    "TIC12345678-01" = "TIC" ++ d ++ "-" ++ pp
    /\ In (exactly tail, MEAS) allowed_specs
    /\ String.length "20230115" = 8%nat.
Proof.
  destruct (recognized_name_decomposes "TIC12345678-01"
              "TIC12345678-01_20230115_ObsA_V_10px_measurements.tbl"
              {| rec_fn := "TIC12345678-01_20230115_ObsA_V_10px_measurements.tbl";
                 rec_desc := MEAS; rec_ymd := "20230115"; rec_obs := "ObsA";
                 rec_flt := "V"; rec_px := "10" |} eq_refl eq_refl)
    as (_ & d & pp & tail & H1 & _ & _ & _ & _ & H2 & _ & H3 & _).
  exists d, pp, tail. auto.
Defined.

(* ================================================================== *)
(** * The listing of the directory *)
(* ================================================================== *)

Module ListingFacts.

Import Run RunFacts Events.

Lemma bind_stops {A B} (m : M A) (k : A -> M B) ans :
  (exists x tr, m ans = (Ok x, ans, tr)) \/ (exists tr, m ans = (Exit 1, ans, tr)) ->
  (forall x, exists tr, k x ans = (Exit 1, ans, tr)) ->
  exists tr, bind m k ans = (Exit 1, ans, tr).
Proof.
  intros [(x & tr & E)|(tr & E)] Hk; unfold bind; rewrite E.
  - destruct (Hk x) as (tr' & ->). eauto.
  - eauto.
Qed.

Lemma check_args_cases W a : stops_or_goes (check_args W a).
Proof.
  intros ans. unfold check_args, bind, when, print, emit, _err, _bell, exit, ret.
  destruct (isdir W (directory a)), (truthy (telsize a)), (truthy (camera a)),
    (truthy (coverage a)); simpl; eauto.
Qed.

Lemma parse_target_cases a : stops_or_goes (parse_target a).
Proof.
  intros ans. unfold parse_target. cbv zeta.
  destruct (Re.fullmatch tic_pattern (PyStr.strip (tic a))) as [mt|];
    [|right; eexists; reflexivity].
  destruct (String.eqb (PyStr.strip (toi a)) "0");
    [left; do 2 eexists; reflexivity|].
  destruct (Re.fullmatch tic_pattern (PyStr.strip (toi a))) as [mo|];
    [|right; eexists; reflexivity].
  destruct (negb _); [right|left; eexists]; eexists; reflexivity.
Qed.

Lemma login_cases W a : stops_or_goes (login W a).
Proof.
  intros ans. unfold login, post, bind, when, print, emit, _err, _bell, exit, ret.
  destruct (400 <=? _); simpl; eauto.
Qed.

(** The loop that refuses a directory stops at the first file it refuses. *)
Lemma refuse_loop {A} (p : A -> bool) (msg : A -> string) l ans :
  for_each l (fun f => when (p f) (_err (msg f))) ans
  = match find p l with
    | Some f => (Exit 1, ans, [Print (msg f); Bell])
    | None => (Ok tt, ans, [])
    end.
Proof.
  induction l as [|f l IH]; simpl; [reflexivity|].
  unfold bind at 1. destruct (p f); simpl; [reflexivity|].
  rewrite IH. now destruct (find p l).
Qed.

Lemma list_files_run W a ans :
  list_files W a ans
  = match find disallowed (PyStr.sorted_strings (listdir W (directory a))) with
    | Some f => (Exit 1, ans, [Print ("ERROR: Disallowed file present: " ++ f); Bell])
    | None => (Ok (PyStr.sorted_strings (listdir W (directory a))), ans, [])
    end.
Proof.
  unfold list_files, bind. rewrite refuse_loop.
  now destruct (find disallowed _).
Qed.

Lemma find_some_in (p : string -> bool) l f :
  In f l -> p f = true -> exists f0, find p l = Some f0.
Proof.
  intros Hin Hp. destruct (find p l) eqn:E; eauto.
  now rewrite (find_none _ _ E f Hin) in Hp.
Qed.

End ListingFacts.

(** X3.  When the directory holds a file whose name ends with
    [seeing-profile.gif] or contains [bjd-flux-err], the run exits with
    status 1 whatever else the directory holds: no file is classified, the
    console is not read, and nothing but the login is posted.  The file the
    message names is the first such file in sorted order. *)
Theorem disallowed_file_aborts (W : World) (a : Args) (ans : list string) :
  (exists f, In f (listdir W (directory a)) /\ disallowed f = true) ->
  (exists tr,
     upload W a ans = (Exit 1, ans, tr) /\ Forall Events.before_listing tr)
  /\ exists f0,
       find disallowed (PyStr.sorted_strings (listdir W (directory a))) = Some f0
       /\ In f0 (listdir W (directory a)) /\ disallowed f0 = true
       /\ list_files W a ans
          = (Exit 1, ans, [Print ("ERROR: Disallowed file present: " ++ f0); Bell]).
Proof.
  intros (f & Hin & Hf).
  assert (Hs : In f (PyStr.sorted_strings (listdir W (directory a))))
    by exact (proj2 (OrdFacts.sort_In _ _ _) Hin).
  destruct (ListingFacts.find_some_in disallowed _ f Hs Hf) as (f0 & E0).
  pose proof (ListingFacts.list_files_run W a ans) as El. rewrite E0 in El.
  split.
  - assert (F : exists tr, front W a ans = (Exit 1, ans, tr)).
    { unfold front.
      apply ListingFacts.bind_stops; [apply ListingFacts.check_args_cases|]. intros _.
      apply ListingFacts.bind_stops; [apply ListingFacts.parse_target_cases|]. intros tg.
      apply ListingFacts.bind_stops; [apply ListingFacts.login_cases|]. intros _.
      unfold bind at 1. rewrite El. eauto. }
    destruct F as (tr & F). exists tr. split.
    + unfold upload. now rewrite (RunFacts.bind_exit _ _ _ _ _ _ F).
    + pose proof (StageFacts.emits_front W a Events.before_listing
                    (fun _ => I) I (fun _ _ => eq_refl) ans) as H.
      now rewrite F in H.
  - exists f0. destruct (find_some _ _ E0) as [H1 H2].
    split; [exact E0|]. split; [|split; [exact H2|exact El]].
    exact (proj1 (OrdFacts.sort_In _ _ _) H1).
Qed.

(** X3 on a directory that holds a seeing profile as a GIF. *)
Lemma disallowed_file_aborts_witness :
  exists tr,
    upload (Scenario.world (Scenario.name "seeing-profile.gif" :: Scenario.full_dir)
                           (Some Scenario.table))
           (Scenario.args (Some "3.41") false) []
    = (Exit 1, [], tr)
    /\ Forall Events.before_listing tr.
Proof.
  apply (disallowed_file_aborts
           (Scenario.world (Scenario.name "seeing-profile.gif" :: Scenario.full_dir)
                           (Some Scenario.table))
           (Scenario.args (Some "3.41") false) []).
  exists (Scenario.name "seeing-profile.gif"). split; [now left|reflexivity].
Defined.

(* ================================================================== *)
(** * The consistency checks *)
(* ================================================================== *)

Module NightFacts.

Import Night.

Lemma dedup_In x l : In x (PyStr.dedup l) <-> In x l.
Proof.
  induction l as [|y l IH]; simpl; [tauto|].
  rewrite filter_In, IH, Bool.negb_true_iff, String.eqb_neq.
  destruct (string_dec y x); intuition.
Qed.

Lemma dedup_nil l : PyStr.dedup l = [] -> l = [].
Proof. destruct l; simpl; [reflexivity|discriminate]. Qed.

Lemma dedup_one x l : PyStr.dedup l = [x] -> forall y, In y l -> y = x.
Proof.
  intros E y Hy. apply (proj2 (dedup_In _ _)) in Hy. rewrite E in Hy.
  destruct Hy as [->|[]]. reflexivity.
Qed.

Lemma dedup_two x y t l :
  PyStr.dedup l = x :: y :: t -> In x l /\ In y l /\ x <> y.
Proof.
  intros E.
  assert (Hx : In x (PyStr.dedup l)) by (rewrite E; now left).
  assert (Hy : In y (PyStr.dedup l)) by (rewrite E; right; now left).
  split; [exact (proj1 (dedup_In _ _) Hx)|].
  split; [exact (proj1 (dedup_In _ _) Hy)|].
  destruct l as [|z l]; [discriminate|]. simpl in E. injection E as -> E.
  assert (H : In y (filter (fun y0 => negb (x =? y0)%string) (PyStr.dedup l)))
    by (rewrite E; now left).
  apply filter_In in H as [_ H].
  apply Bool.negb_true_iff, String.eqb_neq in H. exact H.
Qed.

Lemma find_all_false {A} (p : A -> bool) l :
  (forall x, In x l -> p x = false) -> find p l = None.
Proof.
  induction l as [|x l IH]; simpl; intros H; [reflexivity|].
  rewrite (H x (or_introl eq_refl)). apply IH. intros y Hy. apply H. now right.
Qed.

Lemma nonempty_test {A} (l : list A) :
  l <> [] -> match l with [] => true | _ :: _ => false end = false.
Proof. destruct l; [congruence|reflexivity]. Qed.

Lemma when_false m : when false m = ret tt.
Proof. reflexivity. Qed.

Lemma mixed_dates recd d1 d2 t :
  PyStr.dedup (map rec_ymd recd) = d1 :: d2 :: t -> mixed recd.
Proof.
  intros E. apply dedup_two in E as (H1 & H2 & Hne).
  apply in_map_iff in H1 as (r & <- & Hr). apply in_map_iff in H2 as (r' & <- & Hr').
  exists r, r'. auto.
Qed.

Lemma mixed_observatories recd d1 d2 t :
  PyStr.dedup (map rec_obs recd) = d1 :: d2 :: t -> mixed recd.
Proof.
  intros E. apply dedup_two in E as (H1 & H2 & Hne).
  apply in_map_iff in H1 as (r & <- & Hr). apply in_map_iff in H2 as (r' & <- & Hr').
  exists r, r'. auto.
Qed.

Lemma notes_match recd dt ob :
  same_night recd dt ob ->
  find (fun n => (negb (rec_ymd n =? dt)%string || negb (rec_obs n =? ob)%string)%bool)
       (global_notes_of recd) = None.
Proof.
  intros H. apply find_all_false. intros n Hn.
  apply filter_In in Hn as [Hn _]. destruct (H n Hn) as [-> ->].
  now rewrite !String.eqb_refl.
Qed.

End NightFacts.

Module ConsistencyFacts.

Import Night.

Lemma short_dedup l :
  Nat.ltb 1 (List.length (PyStr.dedup l)) = false ->
  forall x, In x l -> x = List.hd "" (PyStr.dedup l).
Proof.
  intros H x Hx. destruct (PyStr.dedup l) as [|y [|z t]] eqn:E.
  - apply NightFacts.dedup_nil in E. subst l. destruct Hx.
  - exact (NightFacts.dedup_one _ _ E x Hx).
  - discriminate.
Qed.

(** What the consistency checks have established when they return. *)
Lemma consistency_ok tg recd ans dt ob fl ans' tr :
  consistency tg recd ans = (Ok (dt, ob, fl), ans', tr) ->
  recd <> [] /\ same_night recd dt ob
  /\ List.length (global_notes_of recd) = 1%nat
  /\ fl = PyStr.sorted_strings (PyStr.dedup (map rec_flt recd))
  /\ ans' = ans.
Proof.
  unfold consistency. intros H.
  apply FinishFacts.bind_inv in H as (? & ans1 & ? & ? & H1 & H & _).
  assert (Hne : recd <> []) by (intros ->; discriminate).
  rewrite (NightFacts.nonempty_test _ Hne) in H1. injection H1 as _ <- _.
  apply FinishFacts.bind_inv in H as (? & ans2 & ? & ? & H2 & H & _).
  destruct (Nat.ltb 1 (List.length (PyStr.dedup (map rec_ymd recd)))) eqn:Ed;
    [discriminate|].
  destruct (Nat.ltb 1 (List.length (PyStr.dedup (map rec_obs recd)))) eqn:Eo;
    [discriminate|].
  injection H2 as _ <- _.
  apply FinishFacts.bind_inv in H as (? & ans3 & ? & ? & H3 & H & _).
  injection H3 as _ <- _.
  apply FinishFacts.bind_inv in H as (? & ans4 & ? & ? & H4 & H & _).
  injection H4 as _ <- _.
  apply FinishFacts.bind_inv in H as (? & ans5 & ? & ? & H5 & H & _).
  destruct (Nat.eqb (List.length (global_notes_of recd)) 1) eqn:En; [|discriminate].
  injection H5 as _ <- _.
  apply FinishFacts.bind_inv in H as (? & ans6 & ? & ? & H6 & H & _).
  rewrite ListingFacts.refuse_loop with
    (p := fun n => (negb (rec_ymd n =? List.hd "" (PyStr.dedup (map rec_ymd recd)))%string
                    || negb (rec_obs n =? List.hd "" (PyStr.dedup (map rec_obs recd)))%string)%bool)
    (msg := fun _ => "ERROR: notes.txt must match the date and observatory of the set.")
    in H6.
  destruct (find _ (global_notes_of recd)); [discriminate|].
  injection H6 as _ <- _. injection H as <- <- <- <- _.
  split; [exact Hne|]. split; [|split; [now apply Nat.eqb_eq|auto]].
  intros r Hr. split.
  - apply (short_dedup _ Ed). now apply in_map.
  - apply (short_dedup _ Eo). now apply in_map.
Qed.

End ConsistencyFacts.

(** X4.  The consistency checks have four outcomes and no other.  With no
    recognized file, or with two recognized files that differ in date or in
    observatory, one message is printed and the run exits with status 1.
    Otherwise all recognized files share one date and one observatory, the
    title and the detected set are printed, and the run exits with status 1
    unless exactly one notes file was recognized.  The check that the notes
    file matches the date and the observatory of the set never fails: no
    outcome prints its message. *)
Theorem consistency_outcomes (tg : Target) (recd : list FileRecord) (ans : list string) :
  (recd = []
   /\ consistency tg recd ans
      = (Exit 1, ans, [Print "ERROR: No recognized files for given TIC/TOI."; Bell]))
  \/ (Night.mixed recd
      /\ consistency tg recd ans
         = (Exit 1, ans,
            [Print ("ERROR: Multiple dates/observatories found: dates="
                    ++ PyStr.repr_list
                         (PyStr.sorted_strings (PyStr.dedup (map rec_ymd recd)))
                    ++ ", observatories="
                    ++ PyStr.repr_list
                         (PyStr.sorted_strings (PyStr.dedup (map rec_obs recd)))
                    ++ ".");
             Bell]))
  \/ (exists dt ob,
        recd <> [] /\ Night.same_night recd dt ob
        /\ ((List.length (global_notes_of recd) <> 1%nat
             /\ consistency tg recd ans
                = (Exit 1, ans,
                   (Night.detected tg dt ob
                      (PyStr.sorted_strings (PyStr.dedup (map rec_flt recd)))
                    ++ [Print "ERROR: Exactly one notes.txt must be present."; Bell])%list))
            \/ (List.length (global_notes_of recd) = 1%nat
                /\ consistency tg recd ans
                   = (Ok (dt, ob, PyStr.sorted_strings (PyStr.dedup (map rec_flt recd))),
                      ans,
                      Night.detected tg dt ob
                        (PyStr.sorted_strings (PyStr.dedup (map rec_flt recd))))))).
Proof.
  destruct recd as [|r0 recd0] eqn:Er; [left; split; reflexivity|].
  rewrite <- Er. assert (Hne : recd <> []) by (rewrite Er; discriminate).
  right.
  destruct (PyStr.dedup (map rec_ymd recd)) as [|d1 [|d2 dl]] eqn:Ed.
  - apply NightFacts.dedup_nil in Ed. rewrite Er in Ed. discriminate.
  - destruct (PyStr.dedup (map rec_obs recd)) as [|o1 [|o2 ol]] eqn:Eo.
    + apply NightFacts.dedup_nil in Eo. rewrite Er in Eo. discriminate.
    + right. exists d1, o1.
      assert (Hs : Night.same_night recd d1 o1).
      { intros r Hr. split.
        - apply (NightFacts.dedup_one _ _ Ed). now apply in_map.
        - apply (NightFacts.dedup_one _ _ Eo). now apply in_map. }
      split; [exact Hne|]. split; [exact Hs|].
      pose proof (NightFacts.notes_match recd d1 o1 Hs) as Hn.
      unfold consistency. rewrite Ed, Eo, (NightFacts.nonempty_test _ Hne).
      cbn [List.hd List.length Nat.ltb Nat.leb orb].
      rewrite !NightFacts.when_false.
      destruct (Nat.eqb (List.length (global_notes_of recd)) 1) eqn:E1; cbn [negb].
      * right. split; [now apply Nat.eqb_eq|].
        rewrite NightFacts.when_false.
        unfold bind, print, emit, ret.
        rewrite ListingFacts.refuse_loop with
          (p := fun n => (negb (rec_ymd n =? d1)%string
                          || negb (rec_obs n =? o1)%string)%bool)
          (msg := fun _ => "ERROR: notes.txt must match the date and observatory of the set.").
        rewrite Hn. reflexivity.
      * left. split; [now apply Nat.eqb_neq|]. reflexivity.
    + left. split; [exact (NightFacts.mixed_observatories _ _ _ _ Eo)|].
      unfold consistency.
      rewrite (NightFacts.nonempty_test _ Hne), Ed, Eo. reflexivity.
  - left. split; [exact (NightFacts.mixed_dates _ _ _ _ Ed)|].
    unfold consistency.
    rewrite (NightFacts.nonempty_test _ Hne), Ed. reflexivity.
Qed.

(* ================================================================== *)
(** * The order of the files *)
(* ================================================================== *)


(* ================================================================== *)
(** * The state after the front stages *)
(* ================================================================== *)

Module FrontFacts.

Import Run RunFacts Events Settled.

Lemma stops_same {A} (m : M A) ans x ans' tr :
  stops_or_goes m -> m ans = (Ok x, ans', tr) -> ans' = ans.
Proof.
  intros H E. destruct (H ans) as [(y & tr' & E')|(tr' & E')];
    rewrite E' in E; congruence.
Qed.

Lemma prints_show_files d : prints_only (show_files d).
Proof.
  unfold show_files. repeat StageFacts.prints_step.
Qed.

Lemma front_inv W a ans d ans' tr :
  front W a ans = (Ok d, ans', tr) -> settled W a d /\ ans' = ans.
Proof.
  unfold front. intros H.
  apply FinishFacts.bind_inv in H as (x1 & ans1 & tr1 & tr1' & H1 & H & _).
  apply (stops_same _ _ _ _ _ (ListingFacts.check_args_cases W a)) in H1 as ->.
  apply FinishFacts.bind_inv in H as (tg & ans2 & tr2 & tr2' & H2 & H & _).
  apply (stops_same _ _ _ _ _ (ListingFacts.parse_target_cases a)) in H2 as ->.
  apply FinishFacts.bind_inv in H as (x3 & ans3 & tr3 & tr3' & H3 & H & _).
  apply (stops_same _ _ _ _ _ (ListingFacts.login_cases W a)) in H3 as ->.
  apply FinishFacts.bind_inv in H as (files & ans4 & tr4 & tr4' & H4 & H & _).
  rewrite ListingFacts.list_files_run in H4.
  destruct (find disallowed (PyStr.sorted_strings (listdir W (directory a))))
    eqn:Ef; [discriminate|]. injection H4 as <- <- _.
  apply FinishFacts.bind_inv in H as ([[dt ob] fl] & ans5 & tr5 & tr5' & H5 & H & _).
  apply FinishFacts.bind_inv in H as (chosen & ans6 & tr6 & tr6' & H6 & H & _).
  apply FinishFacts.bind_inv in H as (x7 & ans7 & tr7 & tr7' & H7 & H & _).
  injection H as <- <- _.
  destruct (prints_show_files
              {| target := tg;
                 recognized := recognized_of (map (classify (tgt_prefix tg))
                                 (PyStr.sorted_strings (listdir W (directory a))));
                 rejected := rejected_of (map (classify (tgt_prefix tg))
                                 (PyStr.sorted_strings (listdir W (directory a))));
                 date := dt; observatory := ob; filter_list := fl;
                 chosen_tbl_by_flt := chosen |} ans6) as (tr8 & E8 & _).
  rewrite E8 in H7. injection H7 as _ <- _.
  assert (E6 : select_tables W a
                 (recognized_of (map (classify (tgt_prefix tg))
                    (PyStr.sorted_strings (listdir W (directory a))))) fl
               = inr chosen /\ ans6 = ans5).
  { destruct (select_tables W a _ fl); simpl in H6; [discriminate|].
    injection H6 as <- <- _. auto. }
  destruct E6 as [E6 ->].
  apply ConsistencyFacts.consistency_ok in H5 as (Hne & Hs & Hn & -> & ->).
  split; [|reflexivity]. unfold settled.
  cbn [target recognized rejected date observatory filter_list chosen_tbl_by_flt].
  repeat (split; [first [reflexivity|assumption]|]). exact E6.
Qed.

Lemma mem_In x l : PyStr.mem x l = true <-> In x l.
Proof.
  induction l as [|y l IH]; simpl; [split; [discriminate|tauto]|].
  rewrite Bool.orb_true_iff, IH, String.eqb_eq. intuition.
Qed.

(** A recognized file keeps its name, its name is not empty, and its
    descriptor is one the listing and the upload loop walk. *)
Lemma classify_inl p fn r :
  classify p fn = inl r ->
  rec_fn r = fn /\ fn <> "" /\ In (rec_desc r) order_types.
Proof.
  unfold classify.
  destruct (Re.match_ base fn) as [m|] eqn:Em; [|discriminate].
  destruct (negb _); [discriminate|].
  remember (first_desc allowed_specs (grp "tail" m)) as fd eqn:Ed. symmetry in Ed.
  destruct fd as [desc|]; [|discriminate]. simpl.
  destruct (negb _); [|discriminate].
  intros [= <-]. simpl. split; [reflexivity|]. split.
  - intros ->. vm_compute in Em. discriminate.
  - apply ClassifyFacts.first_desc_some in Ed as (pre & pat & post & E & _ & _).
    assert (Hin : In (pat, desc) allowed_specs)
      by (rewrite E, in_app_iff; right; now left).
    clear E. simpl in Hin.
    repeat (destruct Hin as [Hin|Hin]; [injection Hin as _ <-; simpl; tauto|]).
    destruct Hin.
Qed.

(** The date token of a recognized file is eight digits. *)
Lemma classify_ymd p fn r :
  classify p fn = inl r ->
  String.length (rec_ymd r) = 8%nat /\ Shape.digits (rec_ymd r).
Proof.
  unfold classify.
  destruct (Re.match_ base fn) as [m|] eqn:Em; [|discriminate].
  destruct (GrammarFacts.base_sound fn m Em)
    as (d & pp & ymd & obs & flt & px & tail & _ & _ & _ & Eymd & _ & _ & _ & _
        & _ & _ & _ & _ & Hy1 & Hy2 & _).
  destruct (negb _); [discriminate|].
  destruct (truthy _); [|discriminate].
  intros [= <-]. simpl. rewrite Eymd. auto.
Qed.

Lemma recognized_of_In p files r :
  In r (recognized_of (map (classify p) files)) ->
  exists fn, In fn files /\ classify p fn = inl r.
Proof.
  induction files as [|fn files IH]; simpl; [tauto|].
  destruct (classify p fn) as [r'|x] eqn:E; simpl.
  - intros [<-|H]; [exists fn; auto|].
    destruct (IH H) as (fn' & H1 & H2). exists fn'. auto.
  - intros H. destruct (IH H) as (fn' & H1 & H2). exists fn'. auto.
Qed.

Lemma settled_record W a d r :
  settled W a d -> In r (recognized d) ->
  rec_fn r <> "" /\ In (rec_desc r) order_types
  /\ rec_ymd r = date d /\ rec_obs r = observatory d.
Proof.
  intros (_ & Hr & _ & _ & Hs & _) Hin.
  split; [|split; [|exact (Hs r Hin)]];
    rewrite Hr in Hin; apply recognized_of_In in Hin as (fn & _ & Hc);
    apply classify_inl in Hc as (E1 & E2 & E3); [now rewrite E1|exact E3].
Qed.

Lemma settled_date W a d :
  settled W a d -> String.length (date d) = 8%nat /\ Shape.digits (date d).
Proof.
  intros S. pose proof S as (_ & Hr & _ & Hne & Hs & _).
  destruct (recognized d) as [|r l] eqn:E; [congruence|].
  assert (Hin : In r (r :: l)) by now left.
  destruct (Hs r (or_introl eq_refl)) as [<- _].
  rewrite Hr in Hin. apply recognized_of_In in Hin as (fn & _ & Hc).
  exact (classify_ymd _ _ _ Hc).
Qed.

End FrontFacts.

(* ================================================================== *)
(** * The canonical table among the files of its filter *)
(* ================================================================== *)

Module SelectFacts.

Import Settled.

Lemma candidate_stat_fn W a x s : candidate_stat W a x = inr s -> st_fn s = rec_fn x.
Proof.
  unfold candidate_stat.
  destruct (table_read W _) as [t|]; [|intros [= <-]; reflexivity].
  destruct (PyStr.mem _ _); [|intros [= <-]; reflexivity].
  destruct (column _ t) as [c|]; [|discriminate].
  destruct (np_array_float W c) as [e|sr]; [discriminate|].
  destruct (PyFloat.nanmax sr) as [e|hi], (PyFloat.nanmin sr) as [e'|lo];
    try discriminate.
  intros [= <-]. reflexivity.
Qed.

Lemma candidate_stats_fn W a cands stats :
  candidate_stats W a cands = inr stats -> map st_fn stats = map rec_fn cands.
Proof.
  revert stats. induction cands as [|x cands IH]; simpl; intros stats.
  - intros [= <-]. reflexivity.
  - destruct (candidate_stat W a x) as [e|s] eqn:Es; [discriminate|].
    destruct (candidate_stats W a cands) as [e|ss]; [discriminate|].
    intros [= <-]. simpl. now rewrite (candidate_stat_fn _ _ _ _ Es), (IH ss).
Qed.

Lemma choose_some W stats fn : choose W stats = Some fn -> In fn (map st_fn stats).
Proof.
  unfold choose. destruct (ordered stats).
  - destruct (PyStr.sort stat_lt stats) as [|z l] eqn:E; [discriminate|].
    intros [= <-]. apply in_map. apply (OrdFacts.sort_In stat_lt). rewrite E. now left.
  - destruct stats as [|z0 l] eqn:E; [discriminate|]. rewrite <- E.
    intros [= <-]. apply in_map. apply nth_In.
    apply Nat.mod_upper_bound. rewrite E. discriminate.
Qed.

Lemma choose_none W stats : choose W stats = None -> stats = [].
Proof.
  unfold choose. destruct stats as [|s stats]; [reflexivity|].
  destruct (ordered (s :: stats)); [|discriminate].
  destruct (PyStr.sort stat_lt (s :: stats)) eqn:E; [|discriminate].
  now destruct (OrdFacts.sort_nonempty stat_lt (s :: stats)).
Qed.

(** What the dict of the chosen tables holds for a filter. *)
Lemma select_get W a recd fl chosen flt :
  select_tables W a recd fl = inr chosen ->
  match chosen_get chosen flt with
  | Some ct => In ct (map rec_fn (candidates recd flt))
  | None => ~ In flt fl \/ candidates recd flt = []
  end.
Proof.
  revert chosen. induction fl as [|f fl IH]; simpl; intros chosen.
  - intros [= <-]. simpl. left. tauto.
  - destruct (candidate_stats W a (candidates recd f)) as [e|stats] eqn:Es;
      [discriminate|].
    destruct (select_tables W a recd fl) as [e|chosen']; [discriminate|].
    specialize (IH chosen' eq_refl).
    apply candidate_stats_fn in Es.
    destruct (choose W stats) as [fn|] eqn:Ec; intros [= <-].
    + simpl. destruct (String.eqb_spec f flt) as [->|Hne].
      * rewrite <- Es. now apply (choose_some W).
      * destruct (chosen_get chosen' flt); [exact IH|].
        destruct IH as [IH|IH]; [left|right; exact IH]. intros [E|E]; auto.
    + apply (choose_none W) in Ec. subst stats.
      destruct (chosen_get chosen' flt); [exact IH|].
      destruct (String.eqb_spec f flt) as [->|Hne].
      * right. symmetry in Es. now apply map_eq_nil in Es.
      * destruct IH as [IH|IH]; [left|right; exact IH]. intros [E|E]; auto.
Qed.

Lemma candidates_found recd dt ob flt :
  Night.same_night recd dt ob ->
  map rec_fn (candidates recd flt) = found recd dt ob flt MEAS.
Proof.
  intros H. unfold candidates, found. f_equal. apply filter_ext_in.
  intros r Hr. destruct (H r Hr) as [-> ->]. rewrite !String.eqb_refl.
  now rewrite !Bool.andb_true_r.
Qed.

Lemma no_filter_no_candidate recd flt :
  ~ In flt (PyStr.sorted_strings (PyStr.dedup (map rec_flt recd))) ->
  candidates recd flt = [].
Proof.
  intros H. unfold candidates.
  destruct (filter _ recd) as [|r l] eqn:E; [reflexivity|].
  assert (Hr : In r (filter (fun x => ((rec_flt x =? flt)%string
                                       && (rec_desc x =? MEAS)%string)%bool) recd))
    by (rewrite E; now left).
  apply filter_In in Hr as [Hr Hb]. apply Bool.andb_true_iff in Hb as [Hb _].
  apply String.eqb_eq in Hb. destruct H.
  apply OrdFacts.sort_In, NightFacts.dedup_In. rewrite <- Hb. now apply in_map.
Qed.

Lemma found_In recd dt ob flt typ fn :
  In fn (found recd dt ob flt typ) ->
  exists r, In r recd /\ rec_fn r = fn /\ rec_desc r = typ /\ rec_flt r = flt.
Proof.
  unfold found. intros H. apply in_map_iff in H as (r & E & H).
  apply filter_In in H as [H Hb].
  repeat (apply Bool.andb_true_iff in Hb as [Hb ?]).
  exists r. repeat split; auto; now apply String.eqb_eq.
Qed.

(** The chosen table of a filter is one of its measurement tables. *)
Lemma settled_chosen W a d flt :
  settled W a d ->
  match chosen_get (chosen_tbl_by_flt d) flt with
  | Some ct =>
      In ct (found_in d flt MEAS)
      /\ chosen_tbl d flt = ct
      /\ exists rest, upload_order d flt = (ct, MEAS) :: rest
  | None => found_in d flt MEAS = []
  end.
Proof.
  intros S.
  pose proof S as (_ & _ & _ & _ & Hs & _ & Hfl & Hsel).
  pose proof (select_get _ _ _ _ _ flt Hsel) as G.
  unfold found_in. rewrite <- (candidates_found _ _ _ flt Hs).
  destruct (chosen_get (chosen_tbl_by_flt d) flt) as [ct|] eqn:Ec.
  - split; [exact G|].
    assert (Hm : PyStr.mem ct (map rec_fn (candidates (recognized d) flt)) = true)
      by (now apply FrontFacts.mem_In).
    split.
    + unfold chosen_tbl, found_in. rewrite Ec.
      rewrite <- (candidates_found _ _ _ flt Hs). now rewrite Hm.
    + unfold upload_order, found_in. rewrite Ec.
      rewrite <- (candidates_found _ _ _ flt Hs).
      assert (Hne : (ct =? "")%string = false).
      { apply String.eqb_neq. intros ->.
        apply in_map_iff in G as (r & E & Hr). apply filter_In in Hr as [Hr _].
        now destruct (FrontFacts.settled_record W a d r S Hr) as [Hn _]. }
      assert (Hm' : PyStr.mem ct (PyStr.sorted_strings
                                    (map rec_fn (candidates (recognized d) flt))) = true).
      { apply FrontFacts.mem_In, OrdFacts.sort_In. exact G. }
      cbn [truthy or_empty]. rewrite Hne, Hm'. cbn [negb andb].
      eexists. reflexivity.
  - destruct G as [G|G]; [|now rewrite G].
    rewrite Hfl in G. now rewrite (no_filter_no_candidate _ _ G).
Qed.

End SelectFacts.

(** X6.  After the front stages, the table chosen for a filter is one of the
    measurement tables found for that filter, and none is chosen only when
    none was found.  So the fallbacks of the script are never taken: the
    table read for the entries is the chosen one, never the first in sorted
    order instead, and the upload list starts with it. *)
Theorem chosen_table_is_a_found_table
    (W : World) (a : Args) (ans : list string) (d : Front)
    (ans' : list string) (tr : list event) (flt : string) :
  front W a ans = (Ok d, ans', tr) ->
  match chosen_get (chosen_tbl_by_flt d) flt with
  | Some ct =>
      In ct (found_in d flt MEAS)
      /\ chosen_tbl d flt = ct
      /\ exists rest, upload_order d flt = (ct, MEAS) :: rest
  | None => found_in d flt MEAS = []
  end.
Proof.
  intros H. apply FrontFacts.front_inv in H as [S _].
  exact (SelectFacts.settled_chosen W a d flt S).
Qed.

(** X6 on the complete directory. *)
Lemma chosen_table_is_a_found_table_witness :
  In (Scenario.name "measurements.tbl") (found_in Scenario.full_front "V" MEAS)
  /\ chosen_tbl Scenario.full_front "V" = Scenario.name "measurements.tbl"
  /\ exists rest,
       upload_order Scenario.full_front "V"
       = (Scenario.name "measurements.tbl", MEAS) :: rest.
Proof.
  destruct (full_front_is_front (Some Scenario.table) (Some "3.41") false []
              (or_introl eq_refl)) as (tr & E).
  exact (chosen_table_is_a_found_table _ _ _ _ _ _ "V" E).
Defined.

(* ================================================================== *)
(** * Every recognized file is walked once *)
(* ================================================================== *)

Module OrderFacts.

Import Settled.

Lemma insert_perm {A} (lt : A -> A -> bool) x l :
  Permutation (PyStr.insert lt x l) (x :: l).
Proof.
  induction l as [|y l IH]; simpl; [reflexivity|].
  destruct (lt y x); [|reflexivity].
  rewrite IH. apply perm_swap.
Qed.

Lemma sort_perm {A} (lt : A -> A -> bool) l : Permutation (PyStr.sort lt l) l.
Proof.
  induction l as [|x l IH]; simpl; [reflexivity|].
  rewrite insert_perm. now constructor.
Qed.

(** Moving an element of a duplicate-free list to the front. *)
Lemma move_front x l :
  NoDup l -> In x l ->
  Permutation (x :: filter (fun y => negb (y =? x)%string) l) l.
Proof.
  induction l as [|y l IH]; simpl; [tauto|].
  intros Hnd Hin. inversion Hnd as [|? ? Hy Hl]; subst.
  destruct (String.eqb_spec y x) as [->|Hne]; simpl.
  - constructor. clear IH Hin Hnd Hl.
    rewrite forallb_filter_id; [reflexivity|].
    apply forallb_forall. intros z Hz. apply Bool.negb_true_iff, String.eqb_neq.
    intros ->. contradiction.
  - destruct Hin as [E|Hin]; [congruence|].
    rewrite perm_swap. constructor. now apply IH.
Qed.

Lemma flat_map_perm {A B} (f g : A -> list B) l :
  (forall x, Permutation (f x) (g x)) -> Permutation (flat_map f l) (flat_map g l).
Proof.
  intros H. induction l as [|x l IH]; simpl; [reflexivity|].
  now apply Permutation_app.
Qed.

Lemma map_flat_map {A B C} (g : B -> C) (f : A -> list B) l :
  flat_map (fun k => map g (f k)) l = map g (flat_map f l).
Proof.
  induction l as [|x l IH]; simpl; [reflexivity|]. now rewrite map_app, IH.
Qed.

Lemma flat_map_skip {A} (key : A -> string) x l keys :
  ~ In (key x) keys ->
  flat_map (fun k => filter (fun y => (key y =? k)%string) (x :: l)) keys
  = flat_map (fun k => filter (fun y => (key y =? k)%string) l) keys.
Proof.
  induction keys as [|k keys IH]; [reflexivity|].
  intros H. cbn [flat_map]. rewrite IH; [|intros Hin; apply H; now right].
  cbn [filter]. destruct (String.eqb_spec (key x) k) as [E|E]; [|reflexivity].
  destruct H. left. now symmetry.
Qed.

Lemma flat_map_cons {A} (key : A -> string) x l keys :
  NoDup keys -> In (key x) keys ->
  Permutation
    (flat_map (fun k => filter (fun y => (key y =? k)%string) (x :: l)) keys)
    (x :: flat_map (fun k => filter (fun y => (key y =? k)%string) l) keys).
Proof.
  induction keys as [|k keys IH]; [simpl; tauto|].
  intros Hnd Hin. inversion Hnd as [|? ? Hk Hks]; subst. cbn [flat_map].
  destruct (String.eqb_spec (key x) k) as [E|E].
  - subst k. rewrite flat_map_skip by exact Hk.
    cbn [filter]. now rewrite String.eqb_refl.
  - destruct Hin as [Hin|Hin]; [congruence|].
    rewrite (IH Hks Hin). cbn [filter].
    destruct (String.eqb_spec (key x) k) as [E'|_]; [contradiction|].
    symmetry. apply Permutation_middle.
Qed.

(** Grouping a list by a key that takes its values among duplicate-free
    [keys] rearranges it. *)
Lemma group_perm {A} (key : A -> string) keys l :
  NoDup keys -> (forall x, In x l -> In (key x) keys) ->
  Permutation (flat_map (fun k => filter (fun y => (key y =? k)%string) l) keys) l.
Proof.
  intros Hnd. induction l as [|x l IH]; intros H.
  - clear H. induction keys as [|k keys IHk]; simpl; [reflexivity|].
    inversion Hnd; subst. now apply IHk.
  - rewrite flat_map_cons; [|exact Hnd|apply H; now left].
    constructor. apply IH. intros y Hy. apply H. now right.
Qed.

Lemma NoDup_map_filter {A B} (f : A -> B) (p : A -> bool) l :
  NoDup (map f l) -> NoDup (map f (filter p l)).
Proof.
  induction l as [|x l IH]; simpl; [auto|].
  intros H. inversion H as [|? ? Hx Hl]; subst.
  destruct (p x); simpl; [|auto].
  constructor; [|auto]. intros Hin. apply Hx.
  apply in_map_iff in Hin as (y & E & Hy). apply filter_In in Hy as [Hy _].
  rewrite <- E. now apply in_map.
Qed.

Lemma recognized_names p files :
  (forall fn r, classify p fn = inl r -> rec_fn r = fn) ->
  NoDup files -> NoDup (map rec_fn (recognized_of (map (classify p) files))).
Proof.
  intros Hc. induction files as [|fn files IH]; simpl; [constructor|].
  intros H. inversion H as [|? ? Hx Hl]; subst.
  destruct (classify p fn) as [r|x] eqn:E; simpl; [|auto].
  constructor; [|auto]. rewrite (Hc fn r E). intros Hin. apply Hx.
  apply in_map_iff in Hin as (r' & E' & Hr').
  apply FrontFacts.recognized_of_In in Hr' as (fn' & Hf & Hc').
  now rewrite <- E', (Hc fn' r' Hc').
Qed.

Lemma order_types_NoDup : NoDup order_types.
Proof.
  unfold order_types.
  repeat (constructor; [simpl; intros H; repeat (destruct H as [H|H]; [discriminate|]);
                        exact H|]).
  constructor.
Qed.

(** The recognized files of a filter, grouped by descriptor. *)
Lemma grouped_files W a d flt :
  settled W a d ->
  Permutation
    (flat_map (fun typ => map (fun fn => (fn, typ)) (found_in d flt typ)) order_types)
    (files_of d flt).
Proof.
  intros S. pose proof S as (_ & _ & _ & _ & Hs & _).
  unfold files_of.
  set (L := filter (fun r => (rec_flt r =? flt)%string) (recognized d)).
  assert (E : forall typ,
             map (fun fn => (fn, typ)) (found_in d flt typ)
             = map (fun r => (rec_fn r, rec_desc r))
                   (filter (fun r => (rec_desc r =? typ)%string) L)).
  { intros typ. unfold found_in, found, L. rewrite map_map.
    assert (F : forall l : list FileRecord,
               (forall r, In r l -> rec_ymd r = date d /\ rec_obs r = observatory d) ->
               map (fun r => (rec_fn r, typ))
                   (filter (fun x => ((rec_flt x =? flt)%string
                                      && (rec_ymd x =? date d)%string
                                      && (rec_obs x =? observatory d)%string
                                      && (rec_desc x =? typ)%string)%bool) l)
               = map (fun r => (rec_fn r, rec_desc r))
                     (filter (fun r => (rec_desc r =? typ)%string)
                             (filter (fun r => (rec_flt r =? flt)%string) l))).
    { induction l as [|r l IH]; intros Hl; [reflexivity|]. simpl.
      destruct (Hl r (or_introl eq_refl)) as [-> ->]. rewrite !String.eqb_refl.
      rewrite !Bool.andb_true_r.
      assert (IH' := IH (fun r' Hr' => Hl r' (or_intror Hr'))).
      destruct (rec_flt r =? flt)%string; simpl; [|exact IH'].
      destruct (String.eqb_spec (rec_desc r) typ) as [Et|Et]; simpl;
        [rewrite Et at 1; now rewrite IH'|exact IH']. }
    apply F. exact Hs. }
  rewrite (flat_map_ext _ _ E), map_flat_map.
  apply Permutation_map. apply group_perm; [exact order_types_NoDup|].
  intros r Hr. apply filter_In in Hr as [Hr _].
  now destruct (FrontFacts.settled_record W a d r S Hr) as (_ & H & _).
Qed.

End OrderFacts.

(** X7.  When the directory lists no name twice, the upload list of a filter
    is a rearrangement of the recognized files of that filter, each with its
    descriptor: every recognized file of the filter is walked once, none is
    left out and none is walked twice. *)
Theorem every_recognized_file_is_walked_once
    (W : World) (a : Args) (ans : list string) (d : Front)
    (ans' : list string) (tr : list event) (flt : string) :
  front W a ans = (Ok d, ans', tr) ->
  NoDup (listdir W (directory a)) ->
  Permutation (upload_order d flt) (Settled.files_of d flt).
Proof.
  intros H Hnd. apply FrontFacts.front_inv in H as [S _].
  rewrite <- (OrderFacts.grouped_files W a d flt S).
  pose proof S as (_ & Hr & _).
  assert (Hn : forall typ, NoDup (found_in d flt typ)).
  { intros typ. unfold found_in, found. apply OrderFacts.NoDup_map_filter.
    rewrite Hr. apply OrderFacts.recognized_names.
    - intros fn r Hc. now apply FrontFacts.classify_inl in Hc.
    - apply (Permutation_NoDup (l := listdir W (directory a))); [|exact Hnd].
      symmetry. apply OrderFacts.sort_perm. }
  unfold upload_order. remember (List.tl order_types) as T eqn:ET.
  replace order_types with (MEAS :: T) by (subst T; reflexivity).
  cbn [flat_map].
  apply Permutation_app.
  - destruct (truthy _ && PyStr.mem _ _)%bool eqn:Eb.
    + apply Bool.andb_true_iff in Eb as [_ Eb]. apply FrontFacts.mem_In in Eb.
      change ((or_empty (chosen_get (chosen_tbl_by_flt d) flt), MEAS)
              :: map (fun fn => (fn, MEAS))
                   (filter (fun x => negb (x =? or_empty (chosen_get (chosen_tbl_by_flt d) flt))%string)
                           (PyStr.sorted_strings (found_in d flt MEAS))))
        with (map (fun fn => (fn, MEAS))
                (or_empty (chosen_get (chosen_tbl_by_flt d) flt)
                 :: filter (fun x => negb (x =? or_empty (chosen_get (chosen_tbl_by_flt d) flt))%string)
                      (PyStr.sorted_strings (found_in d flt MEAS)))).
      apply Permutation_map.
      rewrite OrderFacts.move_front; [apply OrderFacts.sort_perm| |exact Eb].
      apply (Permutation_NoDup (l := found_in d flt MEAS)); [|apply Hn].
      symmetry. apply OrderFacts.sort_perm.
    + apply Permutation_map. apply OrderFacts.sort_perm.
  - apply OrderFacts.flat_map_perm. intros typ.
    apply Permutation_map. apply OrderFacts.sort_perm.
Qed.

(** X7 on the complete directory. *)
Lemma every_recognized_file_is_walked_once_witness :
  Permutation (upload_order Scenario.full_front "V")
              (Settled.files_of Scenario.full_front "V").
Proof.
  destruct (full_front_is_front (Some Scenario.table) (Some "3.41") false []
              (or_introl eq_refl)) as (tr & E).
  apply (every_recognized_file_is_walked_once _ _ _ _ _ _ "V" E).
  unfold Scenario.world, Scenario.args, Scenario.full_dir. simpl.
  repeat (constructor; [simpl; intros H; repeat (destruct H as [H|H]; [discriminate|]);
                        exact H|]).
  constructor.
Defined.

(* ================================================================== *)
(** * Requests refused by the server *)
(* ================================================================== *)

Module RequestFacts.

Import Run RunFacts Events Requests.

Lemma quiet_accepted W e : is_post e = false -> accepted W e.
Proof. destruct e; simpl; auto. discriminate. Qed.

(** A computation that sends nothing and dies only through [_err]. *)
Lemma failfast_quiet {A} W (m : M A) :
  emits (fun e => is_post e = false) m -> dies_by_err m -> failfast W m.
Proof.
  intros He Hd ans. specialize (He ans). specialize (Hd ans).
  assert (C : clean W (trace_of (m ans))).
  { unfold clean. eapply Forall_impl; [|exact He]. intros e. apply quiet_accepted. }
  destruct (result_of (m ans)); auto. destruct Hd as [-> _]. auto.
Qed.

Lemma failfast_bind {A B} W (m : M A) (k : A -> M B) :
  failfast W m -> (forall x, failfast W (k x)) -> failfast W (bind m k).
Proof.
  intros Hm Hk ans. specialize (Hm ans). unfold bind, result_of, trace_of in *.
  destruct (m ans) as [[[x|c|e] ans'] tr]; simpl in *; auto.
  specialize (Hk x ans'). unfold result_of, trace_of in Hk.
  destruct (k x ans') as [[[y|c|e] ans''] tr']; simpl in *.
  - apply Forall_app. auto.
  - destruct Hk as [-> [Hc|(pre & url & data & file & msg & -> & Hc & Hs)]].
    + split; [reflexivity|]. left. apply Forall_app. auto.
    + split; [reflexivity|]. right.
      exists (tr ++ pre)%list, url, data, file, msg.
      split; [now rewrite <- app_assoc|]. split; [|exact Hs].
      apply Forall_app. auto.
  - apply Forall_app. auto.
Qed.

Lemma failfast_when W b (m : M unit) : failfast W m -> failfast W (when b m).
Proof. destruct b; simpl; auto. intros _ ans. constructor. Qed.

Lemma failfast_for_each {A} W (l : list A) (body : A -> M unit) :
  (forall x, failfast W (body x)) -> failfast W (for_each l body).
Proof.
  intros H. induction l as [|x l IH]; simpl.
  - intros ans. constructor.
  - apply failfast_bind; auto.
Qed.

(** The request and its test, followed by [k]. *)
Lemma failfast_post_then {A} W url data file msg (k : M A) :
  failfast W k ->
  failfast W (bind (post W url data file)
                   (fun failed => bind (when failed (_err msg)) (fun _ => k))).
Proof.
  intros Hk ans. specialize (Hk ans).
  unfold bind, post, emit, ret, when, _err, print, _bell, exit, result_of, trace_of in *.
  simpl. destruct (Z.leb_spec 400 (status_code W url data file)) as [Hs|Hs]; simpl.
  - split; [reflexivity|]. right. exists [], url, data, file, msg.
    repeat split; auto. constructor.
  - destruct (k ans) as [[[y|c|e] ans''] tr']; simpl in *.
    + constructor; auto.
    + destruct Hk as [-> [Hc|(pre & u & dt & f & m' & -> & Hc & Hs')]].
      * split; [reflexivity|]. left. constructor; auto.
      * split; [reflexivity|]. right.
        exists (Post url data file :: pre), u, dt, f, m'.
        repeat split; auto. constructor; auto.
    + constructor; auto.
Qed.

(** The request and its test. *)
Lemma failfast_post_check W url data file msg :
  failfast W (bind (post W url data file) (fun failed => when failed (_err msg))).
Proof.
  intros ans.
  unfold bind, post, emit, ret, when, _err, print, _bell, exit, result_of, trace_of.
  simpl. destruct (Z.leb_spec 400 (status_code W url data file)) as [Hs|Hs]; simpl.
  - split; [reflexivity|]. right. exists [], url, data, file, msg.
    repeat split; auto. constructor.
  - constructor; auto.
Qed.

Lemma failfast_rest_of_front W a tg :
  failfast W
    (files <- list_files W a ;;
     let cls := map (classify (tgt_prefix tg)) files in
     let recd := recognized_of cls in
     '(date, observatory, filter_list) <- consistency tg recd ;;
     chosen <- lift (select_tables W a recd filter_list) ;;
     let d := {| target := tg; recognized := recd; rejected := rejected_of cls;
                 date := date; observatory := observatory;
                 filter_list := filter_list; chosen_tbl_by_flt := chosen |} in
     show_files d ;;
     ret d).
Proof.
  apply failfast_quiet.
  - unfold list_files, consistency, show_files. repeat StageFacts.emits_step; auto.
  - unfold list_files, consistency, show_files. repeat StageFacts.dies_step; auto.
Qed.

Lemma failfast_front W a : failfast W (front W a).
Proof.
  unfold front.
  apply failfast_bind.
  { apply failfast_quiet; unfold check_args;
      [repeat StageFacts.emits_step|repeat StageFacts.dies_step]; auto. }
  intros _. apply failfast_bind.
  { apply failfast_quiet; unfold parse_target;
      [repeat StageFacts.emits_step|repeat StageFacts.dies_step]; auto. }
  intros tg. apply failfast_bind; [|intros _; apply failfast_rest_of_front].
  unfold login. apply failfast_post_then.
  apply failfast_quiet; [apply emits_print; reflexivity|apply dies_emit].
Qed.

Lemma failfast_submit_filter W a d fe : failfast W (submit_filter W a d fe).
Proof.
  destruct fe as [flt e]. unfold submit_filter.
  apply failfast_bind.
  - apply failfast_when, failfast_post_check.
  - intros _. apply failfast_when, failfast_for_each. intros [fn desc].
    apply failfast_post_check.
Qed.

Lemma failfast_finish W a d es : failfast W (finish W a d es).
Proof.
  unfold finish. destruct (skip_summary a && skip_files a)%bool.
  - apply failfast_quiet; [apply emits_print; reflexivity|apply dies_emit].
  - apply failfast_bind.
    { apply failfast_quiet; [apply emits_input; reflexivity|apply dies_input]. }
    intros x. apply failfast_bind.
    { apply failfast_quiet;
        [apply emits_when, emits_err; reflexivity|apply dies_when, dies_err]. }
    intros _. apply failfast_bind.
    { apply failfast_for_each. intros fe. apply failfast_submit_filter. }
    intros _. apply failfast_quiet; [apply emits_print; reflexivity|apply dies_emit].
Qed.

End RequestFacts.

(** X8.  A request the server refuses (status 400 or more) is the last
    request of the run: the login, a time-series summary or a file upload
    that is refused is followed by one message, the bell and exit status 1,
    and every request sent before it was accepted.  A run that returns or
    raises has had all its requests accepted. *)
Theorem refused_request_ends_the_run (W : World) (a : Args) :
  Requests.failfast W (upload W a).
Proof.
  unfold upload.
  apply RequestFacts.failfast_bind; [apply RequestFacts.failfast_front|]. intros d.
  apply RequestFacts.failfast_bind.
  { apply RequestFacts.failfast_quiet;
      [apply StageFacts.emits_completeness; reflexivity
      |apply StageFacts.dies_completeness]. }
  intros _. apply RequestFacts.failfast_bind.
  { apply RequestFacts.failfast_quiet;
      [apply StageFacts.emits_build_entries; reflexivity
      |apply StageFacts.dies_build_entries]. }
  intros es. apply RequestFacts.failfast_finish.
Qed.

(* ================================================================== *)
(** * The submission stage *)
(* ================================================================== *)

Module SubmitFacts.

Import Run RunFacts Events Requests.

Lemma gated_quiet tr : Forall (fun e => submits e = false) tr -> gated tr.
Proof.
  intros H. exists tr, []. rewrite app_nil_r. auto.
Qed.

Lemma gated_app tr tr' :
  Forall (fun e => submits e = false) tr -> gated tr' -> gated (tr ++ tr').
Proof.
  intros H (quiet & rest & -> & Hq & Hr).
  exists (tr ++ quiet)%list, rest. rewrite app_assoc.
  split; [reflexivity|]. split; [now apply Forall_app|exact Hr].
Qed.

(** A quiet stage before a gated one. *)
Lemma gated_bind {A B} (m : M A) (k : A -> M B) ans :
  emits (fun e => submits e = false) m ->
  (forall x ans', gated (trace_of (k x ans'))) ->
  gated (trace_of (bind m k ans)).
Proof.
  intros Hm Hk. specialize (Hm ans). unfold bind, trace_of in *.
  destruct (m ans) as [[[x|c|e] ans'] tr]; simpl in *;
    try (now apply gated_quiet).
  specialize (Hk x ans'). destruct (k x ans') as [[r ans''] tr']; simpl in *.
  now apply gated_app.
Qed.

Lemma after_prompt W a d es :
  emits (fun e => is_input PROMPT_SUBMIT e = false)
        (for_each es (submit_filter W a d) ;; print "All requested uploads completed.").
Proof.
  unfold submit_filter. repeat StageFacts.emits_step; auto.
Qed.

Lemma gated_finish W a d es ans : gated (trace_of (finish W a d es ans)).
Proof.
  unfold finish. destruct (skip_summary a && skip_files a)%bool.
  - apply gated_quiet. repeat constructor.
  - exists [], (trace_of ((x <- input PROMPT_SUBMIT ;;
                           when (PyStr.lower (PyStr.strip x) =? "n")%string
                                (_err MSG_CANCELLED) ;;
                           for_each es (submit_filter W a d) ;;
                           print "All requested uploads completed.") ans)).
    split; [reflexivity|]. split; [constructor|]. right.
    destruct ans as [|x rest].
    + exists []. split; [reflexivity|constructor].
    + unfold bind at 1. unfold input.
      match goal with
      | |- context [bind ?m ?k rest] =>
          pose proof (emits_bind (fun e => is_input PROMPT_SUBMIT e = false) m k) as H;
          destruct (bind m k rest) as [[r ans''] tr'] eqn:E
      end.
      exists tr'. split; [reflexivity|].
      assert (G : emits (fun e => is_input PROMPT_SUBMIT e = false)
                    (when (PyStr.lower (PyStr.strip x) =? "n")%string
                          (_err MSG_CANCELLED) ;;
                     for_each es (submit_filter W a d) ;;
                     print "All requested uploads completed.")).
      { apply emits_bind; [apply emits_when, emits_err; reflexivity|].
        intros _. apply after_prompt. }
      specialize (G rest). unfold trace_of in G. now rewrite E in G.
Qed.

(** With the flag set, a filter sends no summary. *)
Lemma no_summary W a d fe :
  skip_summary a = true ->
  emits (fun e => posts_to URL_TSERIES e = false) (submit_filter W a d fe).
Proof.
  intros Hs. destruct fe as [flt e]. unfold submit_filter. rewrite Hs.
  cbn [negb when]. repeat StageFacts.emits_step; try reflexivity; auto.
Qed.

(** With the flag set, a filter sends no file. *)
Lemma no_files W a d fe :
  skip_files a = true ->
  emits (fun e => posts_to URL_FILE e = false) (submit_filter W a d fe).
Proof.
  intros Hs. destruct fe as [flt e]. unfold submit_filter. rewrite Hs.
  cbn [negb when]. repeat StageFacts.emits_step; try reflexivity; auto.
Qed.

Lemma upload_emits W a (P : event -> Prop) :
  (forall s, P (Print s)) -> P Bell -> (forall p, P (Input p)) ->
  (forall data file, P (Post URL_LOGIN data file)) ->
  (forall d fe, emits P (submit_filter W a d fe)) ->
  emits P (upload W a).
Proof.
  intros Pp Pb Pi Pl Ps. unfold upload.
  apply emits_bind; [now apply StageFacts.emits_front|]. intros d.
  apply emits_bind; [now apply StageFacts.emits_completeness|]. intros _.
  apply emits_bind; [now apply StageFacts.emits_build_entries|]. intros es.
  unfold finish. destruct (skip_summary a && skip_files a)%bool.
  - now apply emits_print.
  - apply emits_bind; [now apply emits_input|]. intros x.
    apply emits_bind; [now apply emits_when, emits_err|]. intros _.
    apply emits_bind; [apply emits_for_each; intros; apply Ps|]. intros _.
    now apply emits_print.
Qed.

(** The requests of one filter on a server that accepts them. *)
Lemma submit_filter_accepted W a d fe ans :
  (forall url data file, status_code W url data file < 400) ->
  submit_filter W a d fe ans = (Ok tt, ans, requests a d fe).
Proof.
  intros Hw. destruct fe as [flt e]. unfold submit_filter, requests. simpl fst. simpl snd.
  assert (Hp : forall url data file msg ans0,
             bind (post W url data file) (fun failed => when failed (_err msg)) ans0
             = (Ok tt, ans0, [Post url data file])).
  { intros. unfold bind, post, emit, ret.
    destruct (Z.leb_spec 400 (status_code W url data file)) as [H|H];
      [specialize (Hw url data file); lia|reflexivity]. }
  assert (Hf : for_each (upload_order d flt) (fun '(fn, desc) =>
                 failed <- post W URL_FILE (file_form e desc)
                             (Some (PyStr.path_join (directory a) fn)) ;;
                 when failed (_err (nl ++ "ERROR: File upload failed: " ++ fn))) ans
               = (Ok tt, ans,
                  map (fun fd => Post URL_FILE (file_form e (snd fd))
                                      (Some (PyStr.path_join (directory a) (fst fd))))
                      (upload_order d flt))).
  { apply BuildFacts.for_each_prints. intros [fn desc] ans0. apply Hp. }
  unfold file_form in Hf.
  unfold bind at 1.
  destruct (skip_summary a); cbn [negb when].
  - destruct (skip_files a); cbn [negb when]; [reflexivity|].
    unfold ret at 1. now rewrite Hf.
  - rewrite Hp. destruct (skip_files a); cbn [negb when]; [reflexivity|].
    now rewrite Hf.
Qed.

Lemma submit_all_accepted W a d es ans :
  (forall url data file, status_code W url data file < 400) ->
  for_each es (submit_filter W a d) ans = (Ok tt, ans, flat_map (requests a d) es).
Proof.
  intros Hw. induction es as [|fe es IH]; [reflexivity|].
  cbn [for_each flat_map]. unfold bind.
  now rewrite (submit_filter_accepted W a d fe ans Hw), IH.
Qed.

End SubmitFacts.

(** X9.  In every run, nothing is submitted before the submit prompt: the
    trace is a part without any time-series or file request and without the
    prompt, followed either by nothing or by the prompt and a part in which
    the prompt is not shown again. *)
Theorem nothing_is_submitted_before_the_prompt
    (W : World) (a : Args) (ans : list string) :
  Requests.gated (Run.trace_of (upload W a ans)).
Proof.
  unfold upload.
  apply SubmitFacts.gated_bind; [apply FinishFacts.quiet_front|]. intros d ans1.
  apply SubmitFacts.gated_bind; [apply FinishFacts.quiet_completeness|]. intros _ ans2.
  apply SubmitFacts.gated_bind; [apply FinishFacts.quiet_build_entries|]. intros es ans3.
  apply SubmitFacts.gated_finish.
Qed.

(** X10.  Each of the two flags suppresses its own kind of request in every
    run, whatever the other flag says: with the summary flag set no
    time-series summary is posted, with the file flag set no file is
    posted. *)
Theorem each_flag_suppresses_its_requests (W : World) (a : Args) :
  (skip_summary a = true ->
   Run.emits (fun e => Events.posts_to URL_TSERIES e = false) (upload W a))
  /\ (skip_files a = true ->
      Run.emits (fun e => Events.posts_to URL_FILE e = false) (upload W a)).
Proof.
  split; intros Hs; apply SubmitFacts.upload_emits; try reflexivity; intros.
  - now apply SubmitFacts.no_summary.
  - now apply SubmitFacts.no_files.
Qed.

(** X11.  On a server that accepts every request, once the entries are
    built and the answer to the submit prompt is not [n], the submission
    stage sends, filter by filter in the order of the entries, the summary
    of the filter unless summaries are skipped and then each file of the
    upload list in its order unless files are skipped; it then prints the
    closing line and returns, having read one answer. *)
Theorem accepted_submission
    (W : World) (a : Args) (d : Front) (es : list (string * Entry))
    (x : string) (rest : list string) :
  (forall url data file, status_code W url data file < 400) ->
  (skip_summary a && skip_files a)%bool = false ->
  PyStr.lower (PyStr.strip x) <> "n" ->
  finish W a d es (x :: rest)
  = (Ok tt, rest,
     (Input PROMPT_SUBMIT :: flat_map (Requests.requests a d) es
      ++ [Print "All requested uploads completed."])%list).
Proof.
  intros Hw Hs Hx. unfold finish. rewrite Hs.
  unfold bind at 1. unfold input.
  apply String.eqb_neq in Hx. rewrite Hx. cbn [when].
  unfold bind at 1. unfold ret at 1.
  unfold bind. rewrite (SubmitFacts.submit_all_accepted W a d es rest Hw).
  reflexivity.
Qed.

(** X11 on the complete directory, with files only. *)
Lemma accepted_submission_witness :
  finish (Scenario.world Scenario.full_dir (Some Scenario.table)) Start.files_only
         Scenario.full_front [("V", Start.entry_V)] ["yes"]
  = (Ok tt, [],
     (Input PROMPT_SUBMIT
      :: flat_map (Requests.requests Start.files_only Scenario.full_front)
                  [("V", Start.entry_V)]
      ++ [Print "All requested uploads completed."])%list).
Proof.
  apply (accepted_submission
           (Scenario.world Scenario.full_dir (Some Scenario.table)) Start.files_only
           Scenario.full_front [("V", Start.entry_V)] "yes" []).
  - intros url data file. simpl. lia.
  - reflexivity.
  - vm_compute. discriminate.
Defined.

(* ================================================================== *)
(** * The start of a run *)
(* ================================================================== *)

Module StartFacts.

Import Run RunFacts Events Start.

Lemma check_args_run W a ans :
  check_args W a ans
  = if args_given W a then (Ok tt, ans, [Print BANNER])
    else (Exit 1, ans,
          [Print BANNER;
           Print (if negb (isdir W (directory a)) then "ERROR: Invalid directory."
                  else if negb (truthy (telsize a))
                       then "ERROR: Please provide telescope size via --telsize."
                  else if negb (truthy (camera a))
                       then "ERROR: Please provide camera name via --camera."
                  else "ERROR: Please provide --coverage (Full, Ingress, Egress, or 'Out of Transit').");
           Bell]).
Proof.
  unfold check_args, args_given.
  destruct (isdir W (directory a)), (truthy (telsize a)), (truthy (camera a)),
    (truthy (coverage a)); reflexivity.
Qed.

Lemma parse_target_exit a ans c ans' tr :
  parse_target a ans = (Exit c, ans', tr) ->
  c = 1 /\ ans' = ans /\ exists msg, tr = [Print msg; Bell].
Proof.
  unfold parse_target. cbv zeta.
  destruct (Re.fullmatch tic_pattern (PyStr.strip (tic a))) as [mt|];
    [|intros [= <- <- <-]; eauto].
  destruct (String.eqb (PyStr.strip (toi a)) "0"); [discriminate|].
  destruct (Re.fullmatch tic_pattern (PyStr.strip (toi a))) as [mo|];
    [|intros [= <- <- <-]; eauto].
  destruct (negb _); [intros [= <- <- <-]; eauto|discriminate].
Qed.

Lemma parse_target_ok a ans tg ans' tr :
  parse_target a ans = (Ok tg, ans', tr) -> ans' = ans /\ tr = [].
Proof.
  unfold parse_target. cbv zeta.
  destruct (Re.fullmatch tic_pattern (PyStr.strip (tic a))) as [mt|]; [|discriminate].
  destruct (String.eqb (PyStr.strip (toi a)) "0"); [intros [= <- <- <-]; auto|].
  destruct (Re.fullmatch tic_pattern (PyStr.strip (toi a))) as [mo|]; [|discriminate].
  destruct (negb _); [discriminate|intros [= <- <- <-]; auto].
Qed.

(** What follows a stage, when all that follows satisfies [Q]. *)
Lemma trace_bind_emits {A B} (Q : event -> Prop) (m : M A) (k : A -> M B)
      ans r ans' tr :
  m ans = (r, ans', tr) -> (forall x, emits Q (k x)) ->
  exists tl, trace_of (bind m k ans) = (tr ++ tl)%list /\ Forall Q tl.
Proof.
  intros E Hk. unfold bind, trace_of. rewrite E.
  destruct r as [x|c|e]; try (exists []; rewrite app_nil_r; split; [reflexivity|constructor]).
  specialize (Hk x ans'). unfold trace_of in Hk.
  destruct (k x ans') as [[r' ans''] tr']. simpl in *. eauto.
Qed.

Lemma login_run W a ans :
  exists r tl,
    login W a ans = (r, ans, Post URL_LOGIN (login_form a) None :: tl)
    /\ Forall (fun e => posts_to URL_LOGIN e = false) tl.
Proof.
  unfold login, post, bind, emit, ret, when, _err, print, _bell, exit, login_form.
  destruct (400 <=? _); simpl; do 2 eexists; (split; [reflexivity|]);
    repeat constructor.
Qed.

Lemma no_login_submit W a d fe :
  emits (fun e => posts_to URL_LOGIN e = false) (submit_filter W a d fe).
Proof.
  destruct fe as [flt e]. unfold submit_filter.
  repeat StageFacts.emits_step; try reflexivity; auto.
Qed.

(** Nothing after the login posts to the login page. *)
Lemma no_login_after W a tg :
  emits (fun e => posts_to URL_LOGIN e = false)
    (d <- (files <- list_files W a ;;
           let cls := map (classify (tgt_prefix tg)) files in
           let recd := recognized_of cls in
           '(date, observatory, filter_list) <- consistency tg recd ;;
           chosen <- lift (select_tables W a recd filter_list) ;;
           let d := {| target := tg; recognized := recd; rejected := rejected_of cls;
                       date := date; observatory := observatory;
                       filter_list := filter_list; chosen_tbl_by_flt := chosen |} in
           show_files d ;;
           ret d) ;;
     completeness d ;;
     entries_by_flt <- build_entries W a d ;;
     finish W a d entries_by_flt).
Proof.
  apply emits_bind.
  { unfold list_files, consistency, show_files.
    repeat StageFacts.emits_step; try reflexivity; auto. }
  intros d.
  apply emits_bind; [apply StageFacts.emits_completeness; reflexivity|]. intros _.
  apply emits_bind; [apply StageFacts.emits_build_entries; reflexivity|]. intros es.
  unfold finish. destruct (skip_summary a && skip_files a)%bool.
  - apply emits_print. reflexivity.
  - apply emits_bind; [apply emits_input; reflexivity|]. intros x.
    apply emits_bind; [apply emits_when, emits_err; reflexivity|]. intros _.
    apply emits_bind; [apply emits_for_each; intros; apply no_login_submit|].
    intros _. apply emits_print. reflexivity.
Qed.

(** [bind] is associative on the runs. *)
Lemma bind_assoc {A B C} (m : M A) (k : A -> M B) (h : B -> M C) ans :
  bind (bind m k) h ans = bind m (fun x => bind (k x) h) ans.
Proof.
  unfold bind. destruct (m ans) as [[[x|c|e] ans1] tr1]; auto.
  destruct (k x ans1) as [[[y|c|e] ans2] tr2]; auto.
  destruct (h y ans2) as [[r ans3] tr3]. now rewrite app_assoc.
Qed.

End StartFacts.

(** X12.  The login is the first request of a run and the only one to the
    login page; it is sent exactly when the directory exists, the telescope
    size, the camera and the coverage are given and the identifiers parse.
    Otherwise the run prints the banner and one message, rings and exits
    with status 1 without sending anything or reading the console. *)
Theorem login_comes_first (W : World) (a : Args) (ans : list string) :
  (Start.args_given W a = true ->
   (exists tg, parse_target a ans = (Ok tg, ans, [])) ->
   exists tl,
     Run.trace_of (upload W a ans)
     = Print Start.BANNER :: Post URL_LOGIN (Start.login_form a) None :: tl
     /\ Forall (fun e => Events.posts_to URL_LOGIN e = false) tl)
  /\ (Start.args_given W a = false
      \/ (exists c ans' tr, parse_target a ans = (Exit c, ans', tr)) ->
      exists msg,
        upload W a ans = (Exit 1, ans, [Print Start.BANNER; Print msg; Bell])).
Proof.
  pose proof (StartFacts.check_args_run W a ans) as Ec.
  split.
  - intros Hg (tg & Ep). rewrite Hg in Ec.
    unfold upload, front.
    rewrite !StartFacts.bind_assoc. unfold bind at 1. rewrite Ec.
    rewrite StartFacts.bind_assoc. unfold bind at 1. rewrite Ep.
    rewrite StartFacts.bind_assoc.
    destruct (StartFacts.login_run W a ans) as (r & tl & El & Hl).
    destruct (StartFacts.trace_bind_emits
                (fun e => Events.posts_to URL_LOGIN e = false)
                (login W a) _ ans r ans _ El
                (fun _ => StartFacts.no_login_after W a tg)) as (tl' & Et & Ht).
    unfold Run.trace_of in *.
    match goal with
    | |- context [bind (login W a) ?k ans] =>
        destruct (bind (login W a) k ans) as [[r' ans''] tr'] eqn:Eb
    end.
    simpl in Et. subst tr'. simpl.
    exists (tl ++ tl')%list. split; [reflexivity|]. apply Forall_app. auto.
  - intros H. unfold upload, front.
    destruct (Start.args_given W a) eqn:Hg.
    + destruct H as [H|(c & ans' & tr & Ep)]; [discriminate|].
      destruct (StartFacts.parse_target_exit _ _ _ _ _ Ep) as (-> & -> & msg & ->).
      exists msg. rewrite !StartFacts.bind_assoc. unfold bind at 1. rewrite Ec.
      rewrite StartFacts.bind_assoc. unfold bind at 1. rewrite Ep. reflexivity.
    + eexists. rewrite !StartFacts.bind_assoc. unfold bind at 1. rewrite Ec.
      reflexivity.
Qed.

(* ================================================================== *)
(** * What an entry is built from *)
(* ================================================================== *)

Module BuiltFacts.

Import Built.

Lemma first_valid_wcs_some W a l s p :
  first_valid_wcs W a l = Some (s, p) ->
  exists pre wfn post raw,
    l = (pre ++ wfn :: post)%list
    /\ Forall (fun w => usable W a w = false) pre
    /\ wcs_pixel_scales W (PyStr.path_join (directory a) wfn) = Some raw
    /\ valid raw = true
    /\ s = pixscale W raw
    /\ p = PyStr.path_join (directory a) wfn.
Proof.
  induction l as [|w l IH]; simpl; [discriminate|].
  destruct (wcs_pixel_scales W (PyStr.path_join (directory a) w)) as [raw|] eqn:Ew.
  - fold (scaled raw). fold (valid raw). destruct (valid raw) eqn:Ev.
    + intros [= <- <-]. exists [], w, l, raw. repeat split; auto.
    + intros H. destruct (IH H) as (pre & wfn & post & raw' & -> & Hp & H1 & H2 & H3 & H4).
      exists (w :: pre), wfn, post, raw'. repeat split; auto.
      constructor; [|exact Hp]. unfold usable. now rewrite Ew.
  - intros H. destruct (IH H) as (pre & wfn & post & raw' & -> & Hp & H1 & H2 & H3 & H4).
    exists (w :: pre), wfn, post, raw'. repeat split; auto.
    constructor; [|exact Hp]. unfold usable. now rewrite Ew.
Qed.

Lemma timing_rows W t tm : timing W t = inr tm -> t_rows tm = table_len t.
Proof.
  unfold timing.
  destruct (exposures W t) as [e|[exp0 exp1]]; [discriminate|].
  destruct (column "JD_UTC" t) as [c|]; [|discriminate].
  destruct (cell_float W false c) as [e|jd0]; [discriminate|].
  destruct (cell_float W true c) as [e|jd1]; [discriminate|].
  destruct (PyFloat.round _) as [e|n]; [discriminate|].
  intros [= <-]. reflexivity.
Qed.

Lemma cov_range a : In (cov a) ["Full"; "Ingress"; "Egress"; "Out of Transit"].
Proof.
  unfold cov.
  repeat match goal with
         | |- context [if ?b then _ else _] => destruct b
         end; simpl; tauto.
Qed.

(** A date of eight characters, cut as the script cuts it. *)
Lemma date_cut s :
  String.length s = 8%nat ->
  s = PyStr.take 4 s ++ PyStr.take 2 (PyStr.drop 4 s) ++ PyStr.drop 6 s
  /\ String.length (PyStr.take 4 s) = 4%nat
  /\ String.length (PyStr.take 2 (PyStr.drop 4 s)) = 2%nat
  /\ String.length (PyStr.drop 6 s) = 2%nat.
Proof.
  intros H.
  do 8 (destruct s as [|? s]; [discriminate|]).
  destruct s; [|discriminate]. repeat split.
Qed.

(** What the construction of an entry has gone through. *)
Lemma build_filter_inv W a d dms flt ans e ans' tr :
  build_filter W a d dms flt ans = (Ok e, ans', tr) ->
  found_in d flt MEAS <> []
  /\ exists t tm wcs,
       table_read W (PyStr.path_join (directory a) (chosen_tbl d flt)) = Some t
       /\ PyStr.mem "JD_UTC" (colnames t) = true
       /\ timing W t = inr tm
       /\ first_valid_wcs W a (found_in d flt WCS) = Some wcs
       /\ e_obsdur e = PyStr.str_of_int (t_minutes tm)
       /\ e_obsnum e = PyStr.str_of_int (Z.of_nat (t_rows tm))
       /\ e_photaprad e = fst (aperture W t)
       /\ e_pixscale e = fst wcs
       /\ e_obsdate e = PyStr.take 4 (date d) ++ "-"
                        ++ PyStr.take 2 (PyStr.drop 4 (date d)) ++ "-"
                        ++ PyStr.drop 6 (date d)
       /\ e_filter e = flt /\ e_tel e = observatory d /\ e_transcov e = cov a.
Proof.
  unfold build_filter. intros H.
  apply FinishFacts.bind_inv in H as (? & ans1 & ? & ? & H1 & H & ->).
  apply FinishFacts.bind_inv in H as (t & ans2 & ? & ? & H2 & H & ->).
  apply FinishFacts.bind_inv in H as (? & ans3 & ? & ? & H3 & H & ->).
  apply FinishFacts.bind_inv in H as (tm & ans4 & ? & ? & H4 & H & ->).
  apply FinishFacts.bind_inv in H as (wcs & ans5 & ? & ? & H5 & H & ->).
  destruct (aperture W t) as [photaprad var_note] eqn:Ea.
  apply FinishFacts.bind_inv in H as ([psf_final dm] & ? & ? & ? & _ & H & ->).
  apply FinishFacts.bind_inv in H as (radius & ? & ? & ? & _ & H & ->).
  apply FinishFacts.bind_inv in H as (? & ? & ? & ? & _ & H & ->).
  apply FinishFacts.bind_inv in H as (? & ? & ? & ? & _ & H & ->).
  injection H as <- _ _.
  split.
  { destruct (found_in d flt MEAS); [discriminate|discriminate]. }
  destruct (table_read W _) as [t'|] eqn:Et; [|discriminate].
  injection H2 as -> _ _.
  destruct (PyStr.mem "JD_UTC" (colnames t)) eqn:Ej; [|discriminate].
  destruct (timing W t) as [ex|tm'] eqn:Etm; [discriminate|].
  injection H4 as -> _ _.
  destruct (first_valid_wcs W a (found_in d flt WCS)) as [w|] eqn:Ew; [|discriminate].
  injection H5 as -> _ _.
  exists t, tm, wcs. simpl. repeat split; auto.
  now rewrite Ea.
Qed.

(** An entry built in a settled state is sound. *)
Lemma settled_sound W a d dms flt ans1 e ans2 tr :
  Settled.settled W a d ->
  build_filter W a d dms flt ans1 = (Ok e, ans2, tr) ->
  sound W a d flt e.
Proof.
  intros S Hb.
  apply build_filter_inv in Hb
    as (Hne & t & tm & [s p] & Et & Ej & Etm & Ew & E1 & E2 & E3 & E4 & E5 & E6 & E7 & E8).
  pose proof (SelectFacts.settled_chosen W a d flt S) as Hc.
  destruct (chosen_get (chosen_tbl_by_flt d) flt) as [ct|] eqn:Ec; [|contradiction].
  destruct Hc as (Hin & Hct & _).
  unfold sound. split; [|split; [|split; [|split; [|split]]]].
  - exists ct, t, tm. rewrite Hct in Et.
    rewrite (timing_rows W t tm Etm) in E2.
    apply FrontFacts.mem_In in Ej.
    repeat (split; [assumption|]). assumption.
  - apply first_valid_wcs_some in Ew
      as (pre & wfn & post & raw & El & Hp & H1 & H2 & H3 & H4).
    exists pre, wfn, post, raw. simpl in E4. subst s. auto.
  - destruct (FrontFacts.settled_date W a d S) as [Hl Hd].
    destruct (date_cut (date d) Hl) as (Hs & L1 & L2 & L3).
    exists (PyStr.take 4 (date d)), (PyStr.take 2 (PyStr.drop 4 (date d))),
           (PyStr.drop 6 (date d)).
    repeat split; auto.
  - exact E6.
  - exact E7.
  - rewrite E8. apply cov_range.
Qed.

End BuiltFacts.

(** X13.  An entry that is built for a filter after the front stages was
    computed from the chosen table of that filter, which the reader could
    read and which has the column [JD_UTC]; its duration and its number of
    observations come from that table; its pixel scale comes from the first
    plate-solved image of the filter, in listed order, whose scales are all
    finite and positive; its date is the eight-digit date of the set with a
    dash after the year and after the month; its coverage is one of the
    four the server knows. *)
Theorem entry_comes_from_the_chosen_table
    (W : World) (a : Args) (ans : list string) (d : Front) (ans0 : list string)
    (tr0 : list event) (dms flt : string) (ans1 : list string) (e : Entry)
    (ans2 : list string) (tr : list event) :
  front W a ans = (Ok d, ans0, tr0) ->
  build_filter W a d dms flt ans1 = (Ok e, ans2, tr) ->
  Built.sound W a d flt e.
Proof.
  intros Hf Hb. apply FrontFacts.front_inv in Hf as [S _].
  exact (BuiltFacts.settled_sound W a d dms flt ans1 e ans2 tr S Hb).
Qed.

(** X13 on the complete directory. *)
Lemma entry_comes_from_the_chosen_table_witness :
  exists e tr,
    build_filter (Scenario.world Scenario.full_dir (Some Scenario.table))
                 (Scenario.args (Some "3.41") false) Scenario.full_front "" "V" []
    = (Ok e, [], tr)
    /\ Built.sound (Scenario.world Scenario.full_dir (Some Scenario.table))
                   (Scenario.args (Some "3.41") false) Scenario.full_front "V" e.
Proof.
  destruct (full_front_is_front (Some Scenario.table) (Some "3.41") false []
              (or_introl eq_refl)) as (tr0 & E).
  destruct (build_filter (Scenario.world Scenario.full_dir (Some Scenario.table))
              (Scenario.args (Some "3.41") false) Scenario.full_front "" "V" [])
    as [[[e|c|x] rest] tr] eqn:Eb; [|vm_compute in Eb; discriminate..].
  assert (Er : rest = []) by (vm_compute in Eb; now injection Eb as _ <- _).
  subst rest. exists e, tr. split; [reflexivity|].
  exact (entry_comes_from_the_chosen_table _ _ _ _ _ _ _ _ _ _ _ _ E Eb).
Defined.

(* ================================================================== *)
(** * A run that completes *)
(* ================================================================== *)

Module CompletedFacts.

Import Run RunFacts Events Requests.

(** A request that did not stop the run was sent and accepted. *)
Lemma post_check_ok W url data file msg ans u ans' tr :
  bind (post W url data file) (fun failed => when failed (_err msg)) ans
  = (Ok u, ans', tr) ->
  ans' = ans /\ tr = [Post url data file].
Proof.
  unfold bind, post, emit, ret, when, _err, print, _bell, exit.
  destruct (400 <=? status_code W url data file); simpl; [discriminate|].
  intros [= _ <- <-]. auto.
Qed.

Lemma for_each_ok {A} (g : A -> list event) (body : A -> M unit) l ans u ans' tr :
  (forall x ans0 u0 ans1 tr0,
      body x ans0 = (Ok u0, ans1, tr0) -> ans1 = ans0 /\ tr0 = g x) ->
  for_each l body ans = (Ok u, ans', tr) ->
  ans' = ans /\ tr = flat_map g l.
Proof.
  intros Hb. revert ans tr. induction l as [|x l IH]; simpl; intros ans tr H.
  - injection H as _ <- <-. auto.
  - apply FinishFacts.bind_inv in H as (u0 & ans1 & tr1 & tr2 & H1 & H2 & ->).
    destruct (Hb _ _ _ _ _ H1) as [-> ->].
    destruct (IH _ _ H2) as [-> ->]. auto.
Qed.

Lemma flat_map_single {A B} (f : A -> B) l : flat_map (fun x => [f x]) l = map f l.
Proof. induction l as [|x l IH]; simpl; [reflexivity|now rewrite IH]. Qed.

(** A filter whose submission did not stop the run has sent its requests. *)
Lemma submit_filter_ok W a d fe ans u ans' tr :
  submit_filter W a d fe ans = (Ok u, ans', tr) ->
  ans' = ans /\ tr = requests a d fe.
Proof.
  destruct fe as [flt e]. unfold submit_filter, requests. simpl fst. simpl snd.
  intros H. apply FinishFacts.bind_inv in H as (u0 & ans1 & tr1 & tr2 & H1 & H2 & ->).
  assert (E1 : ans1 = ans
               /\ tr1 = if skip_summary a then []
                        else [Post URL_TSERIES (entry_data e) None]).
  { destruct (skip_summary a); cbn [negb when] in H1.
    - injection H1 as _ <- <-. auto.
    - now apply post_check_ok in H1. }
  destruct E1 as [-> ->].
  assert (E2 : ans' = ans
               /\ tr2 = if skip_files a then []
                        else map (fun fd => Post URL_FILE (file_form e (snd fd))
                                     (Some (PyStr.path_join (directory a) (fst fd))))
                                 (upload_order d flt)).
  { destruct (skip_files a); cbn [negb when] in H2.
    - injection H2 as _ <- <-. auto.
    - rewrite <- flat_map_single.
      apply (for_each_ok
               (fun fd => [Post URL_FILE (file_form e (snd fd))
                             (Some (PyStr.path_join (directory a) (fst fd)))]))
        in H2; [exact H2|].
      intros [fn desc] ans0 u1 ans2 tr0 Hp. now apply post_check_ok in Hp. }
  destruct E2 as [-> ->]. auto.
Qed.

(** A submission stage that returns has read one answer, which was not
    [n], and has sent the requests of every entry. *)
Lemma finish_ok W a d es ans u ans' tr :
  (skip_summary a && skip_files a)%bool = false ->
  finish W a d es ans = (Ok u, ans', tr) ->
  exists x,
    ans = x :: ans'
    /\ PyStr.lower (PyStr.strip x) <> "n"
    /\ tr = (Input PROMPT_SUBMIT :: flat_map (requests a d) es
             ++ [Print "All requested uploads completed."])%list.
Proof.
  intros Hs. unfold finish. rewrite Hs. intros H.
  apply FinishFacts.bind_inv in H as (x & ans1 & tr1 & tr2 & H1 & H & ->).
  destruct ans as [|x' rest]; [discriminate|]. injection H1 as -> -> <-.
  apply FinishFacts.bind_inv in H as (u1 & ans2 & tr3 & tr4 & H2 & H & ->).
  destruct (String.eqb_spec (PyStr.lower (PyStr.strip x)) "n") as [En|En];
    [discriminate|].
  injection H2 as _ <- <-.
  apply FinishFacts.bind_inv in H as (u2 & ans3 & tr5 & tr6 & H3 & H & ->).
  apply (for_each_ok (requests a d)) in H3;
    [|intros; eapply submit_filter_ok; eassumption].
  destruct H3 as [-> ->]. injection H as _ <- <-.
  exists x. repeat split; auto.
Qed.

(** The entries that were built are sound, one per filter. *)
Lemma map_m_sound W a d dms l ans es ans' tr :
  Settled.settled W a d ->
  map_m (fun flt => e <- build_filter W a d dms flt ;; ret (flt, e)) l ans
  = (Ok es, ans', tr) ->
  map fst es = l /\ Forall (fun fe => Built.sound W a d (fst fe) (snd fe)) es.
Proof.
  intros S. revert ans es ans' tr.
  induction l as [|flt l IH]; simpl; intros ans es ans' tr H.
  - injection H as <- _ _. split; [reflexivity|constructor].
  - apply FinishFacts.bind_inv in H as ([f e] & ans1 & tr1 & tr2 & H1 & H & ->).
    apply FinishFacts.bind_inv in H as (es' & ans2 & tr3 & tr4 & H2 & H & ->).
    injection H as <- _ _.
    apply FinishFacts.bind_inv in H1 as (e' & ans3 & tr5 & tr6 & Hb & H1 & ->).
    injection H1 as <- <- _ _.
    destruct (IH _ _ _ _ H2) as [Hm Hf].
    split; [simpl; now rewrite Hm|].
    constructor; [|exact Hf]. simpl.
    exact (BuiltFacts.settled_sound W a d dms flt _ _ _ _ S Hb).
Qed.

End CompletedFacts.

(** X14.  A run that returns, with at least one of the two skip flags
    unset, has gone through every stage: the front stages have settled the
    state, one sound entry was built for each filter in the order of the
    filters, nothing was submitted before the submit prompt, and after the
    prompt the run has sent, filter by filter, the summary unless skipped
    and then each file of the upload list unless skipped, and nothing else
    but the closing line. *)
Theorem completed_run_has_sent_everything
    (W : World) (a : Args) (ans ans' : list string) (tr : list event) :
  upload W a ans = (Ok tt, ans', tr) ->
  (skip_summary a && skip_files a)%bool = false ->
  exists d es pre,
    (exists tr0, front W a ans = (Ok d, ans, tr0))
    /\ map fst es = filter_list d
    /\ Forall (fun fe => Built.sound W a d (fst fe) (snd fe)) es
    /\ Forall (fun e => Run.submits e = false) pre
    /\ tr = (pre ++ Input PROMPT_SUBMIT :: flat_map (Requests.requests a d) es
             ++ [Print "All requested uploads completed."])%list.
Proof.
  intros H Hs. unfold upload in H.
  apply FinishFacts.bind_inv in H as (d & ans1 & tr1 & tr2 & H1 & H & ->).
  apply FinishFacts.bind_inv in H as (u & ans2 & tr3 & tr4 & H2 & H & ->).
  apply FinishFacts.bind_inv in H as (es & ans3 & tr5 & tr6 & H3 & H & ->).
  destruct (FrontFacts.front_inv _ _ _ _ _ _ H1) as [S ->].
  destruct (CompletedFacts.finish_ok _ _ _ _ _ _ _ _ Hs H) as (x & -> & Hx & ->).
  exists d, es, (tr1 ++ tr3 ++ tr5)%list.
  split; [eauto|].
  assert (Hb : map fst es = filter_list d
               /\ Forall (fun fe => Built.sound W a d (fst fe) (snd fe)) es).
  { unfold build_entries in H3.
    apply FinishFacts.bind_inv in H3 as (dms & ans4 & tr7 & tr8 & _ & H3 & _).
    exact (CompletedFacts.map_m_sound _ _ _ _ _ _ _ _ _ S H3). }
  destruct Hb as [Hm Hf]. split; [exact Hm|]. split; [exact Hf|]. split.
  - pose proof (FinishFacts.quiet_front W a ans) as Q1.
    pose proof (FinishFacts.quiet_completeness d ans) as Q2.
    pose proof (FinishFacts.quiet_build_entries W a d ans2) as Q3.
    unfold Run.trace_of in *. rewrite H1 in Q1. rewrite H2 in Q2. rewrite H3 in Q3.
    simpl in *. repeat (apply Forall_app; split); assumption.
  - now rewrite <- !app_assoc.
Qed.

(** X14 on the complete directory, with an empty answer to the prompt. *)
Lemma completed_run_has_sent_everything_witness :
  exists tr d es pre,
    upload (Scenario.world Scenario.full_dir (Some Scenario.table))
           (Scenario.args (Some "3.41") false) [""]
    = (Ok tt, [], tr)
    /\ map fst es = filter_list d
    /\ Forall (fun e => Run.submits e = false) pre
    /\ tr = (pre ++ Input PROMPT_SUBMIT
             :: flat_map (Requests.requests (Scenario.args (Some "3.41") false) d) es
             ++ [Print "All requested uploads completed."])%list.
Proof.
  destruct (upload (Scenario.world Scenario.full_dir (Some Scenario.table))
                   (Scenario.args (Some "3.41") false) [""])
    as [[[[]|c|x] rest] tr] eqn:E; [|vm_compute in E; discriminate..].
  assert (Er : rest = []) by (vm_compute in E; now injection E as <- _).
  subst rest.
  destruct (completed_run_has_sent_everything _ _ _ _ _ E eq_refl)
    as (d & es & pre & _ & Hm & _ & Hq & Ht).
  exists tr, d, es, pre. auto.
Defined.

(* ================================================================== *)
(** * The arguments for the seeing and the faintest neighbour *)
(* ================================================================== *)

Module ArgFacts.

Lemma bind_ext {A B} (m : M A) (k k' : A -> M B) ans :
  (forall x ans0, k x ans0 = k' x ans0) -> bind m k ans = bind m k' ans.
Proof.
  intros H. unfold bind. destruct (m ans) as [[[x|c|e] ans1] tr]; auto.
  now rewrite H.
Qed.

Lemma map_m_ext {A B} (f g : A -> M B) l ans :
  (forall x ans0, f x ans0 = g x ans0) -> map_m f l ans = map_m g l ans.
Proof.
  intros H. revert ans. induction l as [|x l IH]; intros ans; [reflexivity|].
  cbn [map_m]. unfold bind. rewrite H.
  destruct (g x ans) as [[[y|c|e] ans1] tr]; auto. now rewrite IH.
Qed.

Lemma psf_and_deltamag_several a d p q dms flt :
  single_filter d = false ->
  psf_and_deltamag (Start.with_psf a p q) d dms flt = psf_and_deltamag a d dms flt.
Proof. intros H. unfold psf_and_deltamag. now rewrite H. Qed.

Lemma build_filter_several W a d p q dms flt ans :
  single_filter d = false ->
  build_filter W (Start.with_psf a p q) d dms flt ans = build_filter W a d dms flt ans.
Proof.
  intros H. unfold build_filter.
  apply bind_ext. intros _ ans1.
  apply bind_ext. intros t ans2.
  apply bind_ext. intros _ ans3.
  apply bind_ext. intros tm ans4.
  apply bind_ext. intros wcs ans5.
  destruct (aperture W t) as [photaprad var_note].
  rewrite (psf_and_deltamag_several a d p q dms flt H).
  reflexivity.
Qed.

End ArgFacts.

(** X15.  With several filters the arguments [--psf] and [--deltamag] are
    not used: whatever they are, and whether they are given or not, the
    entries that are built, the answers that are read and everything that
    is printed and asked are the same. *)
Theorem several_filters_ignore_the_psf_arguments
    (W : World) (a : Args) (d : Front) (p q : option string) (ans : list string) :
  single_filter d = false ->
  build_entries W (Start.with_psf a p q) d ans = build_entries W a d ans.
Proof.
  intros H. unfold build_entries. rewrite H.
  apply ArgFacts.bind_ext. intros dms ans1.
  apply ArgFacts.map_m_ext. intros flt ans2.
  unfold bind. now rewrite (ArgFacts.build_filter_several W a d p q dms flt ans2 H).
Qed.

(** X15 on the complete directory of two filters: the run asks the two
    values of each filter, reads the four answers and builds the two
    entries, and after the confirmation submits them, with and without the
    two arguments. *)
Lemma several_filters_ignore_the_psf_arguments_witness :
  let W := Start.two_filter_world in
  let a := Scenario.args (Some "3.41") false in
  let a0 := Start.with_psf a None None in
  exists d tr0 es tr trU e1 e2,
    front W a [] = (Ok d, [], tr0)
    /\ filter_list d = ["R"; "V"]
    /\ single_filter d = false
    /\ build_entries W a d ["3.2"; ""; "2.9"; "0.5"] = (Ok es, [], tr)
    /\ es = [("R", e1); ("V", e2)]
    /\ (e_psf e1, e_deltamag e1) = ("3.2", "")
    /\ (e_psf e2, e_deltamag e2) = ("2.9", "0.5")
    /\ Run.count_input (prompt_psf "R") tr = 1%nat
    /\ Run.count_input (prompt_psf "V") tr = 1%nat
    /\ build_entries W a0 d ["3.2"; ""; "2.9"; "0.5"] = (Ok es, [], tr)
    /\ upload W a ["3.2"; ""; "2.9"; "0.5"; ""] = (Ok tt, [], trU)
    /\ upload W a0 ["3.2"; ""; "2.9"; "0.5"; ""] = (Ok tt, [], trU)
    /\ In (Post URL_TSERIES (entry_data e1) None) trU
    /\ In (Post URL_TSERIES (entry_data e2) None) trU.
Proof.
  cbv zeta.
  eexists. eexists. eexists. eexists. eexists. eexists. eexists.
  split; [vm_compute; reflexivity|].
  split; [reflexivity|]. split; [reflexivity|].
  split; [vm_compute; reflexivity|].
  split; [reflexivity|].
  split; [reflexivity|]. split; [reflexivity|].
  split; [reflexivity|]. split; [reflexivity|].
  split.
  { rewrite several_filters_ignore_the_psf_arguments by reflexivity.
    vm_compute. reflexivity. }
  split; [vm_compute; reflexivity|].
  split; [vm_compute; reflexivity|].
  split; vm_compute; repeat (first [left; reflexivity | right]).
Defined.

(* ================================================================== *)
(** * Names written after the convention are recognized *)
(* ================================================================== *)

Module GreedyFacts.

Import Re ReSem Greedy.

Lemma first_lit1 c pos rest g : first (Lit c) pos (String c "") rest g g.
Proof. intros A k x H. simpl in *. now rewrite Ascii.eqb_refl. Qed.

Lemma first_lit l pos rest g : first (lit l) pos l rest g g.
Proof. intros A k x H. now rewrite ClassifyFacts.run_lit_prefix. Qed.

Lemma first_bol rest g : first Bol 0 "" rest g g.
Proof. intros A k x H. exact H. Qed.

Lemma first_eol pos g : first Eol pos "" "" g g.
Proof. intros A k x H. exact H. Qed.

Lemma first_empty pos rest g : first Empty pos "" rest g g.
Proof. intros A k x H. exact H. Qed.

Lemma first_seq r1 r2 pos w1 w2 rest g g1 g2 :
  first r1 pos w1 (w2 ++ rest) g g1 ->
  first r2 (String.length w1 + pos) w2 rest g1 g2 ->
  first (Seq r1 r2) pos (w1 ++ w2) rest g g2.
Proof.
  intros H1 H2 A k x H. cbn [run]. rewrite ReFacts.app_assoc.
  apply H1. apply H2. rewrite ReFacts.length_app in H.
  now replace (String.length w2 + (String.length w1 + pos))%nat
    with (String.length w1 + String.length w2 + pos)%nat by lia.
Qed.

Lemma first_group name r pos w rest g g1 :
  first r pos w rest g g1 -> first (Group name r) pos w rest g ((name, w) :: g1).
Proof.
  intros H1 A k x H. cbn [run]. apply H1.
  replace (String.length w + pos - pos)%nat with (String.length w) by lia.
  now rewrite ReFacts.substring_prefix.
Qed.

Lemma first_opt_some r pos w rest g g1 :
  first r pos w rest g g1 -> first (Opt r) pos w rest g g1.
Proof. intros H1 A k x H. cbn [run]. now rewrite (H1 A k x H). Qed.

Lemma first_opt_none r pos rest g :
  (forall A (k : nat -> string -> groups -> option A), run r pos rest g k = None) ->
  first (Opt r) pos "" rest g g.
Proof. intros H1 A k x H. cbn [run append]. now rewrite H1. Qed.

Lemma first_times n p w pos rest g :
  String.length w = n -> PyStr.all_chars p w = true ->
  first (times n (Class p)) pos w rest g g.
Proof.
  revert w pos. induction n as [|n IH]; intros w pos Hl Hp A k x H.
  - destruct w; [exact H|discriminate].
  - destruct w as [|c w]; [discriminate|]. simpl in Hp.
    apply Bool.andb_true_iff in Hp as [Hc Hp]. injection Hl as Hl.
    cbn [times run append]. rewrite Hc. apply (IH w (S pos) Hl Hp).
    simpl in H. now rewrite Nat.add_succ_r.
Qed.

Lemma loop_stops {A} p (k : nat -> string -> groups -> option A) fuel pos rest g :
  stops p rest ->
  plus_loop (fun pos s g k' => run (Class p) pos s g k') k fuel pos rest g = None.
Proof.
  intros H. destruct fuel; [reflexivity|]. simpl.
  destruct rest as [|c rest]; [reflexivity|]. simpl in H. now rewrite H.
Qed.

Lemma loop_longest {A} p (k : nat -> string -> groups -> option A) w rest g x :
  PyStr.all_chars p w = true -> stops p rest ->
  forall fuel pos,
    w <> "" -> (String.length w <= fuel)%nat ->
    k (String.length w + pos)%nat rest g = Some x ->
    plus_loop (fun pos s g k' => run (Class p) pos s g k') k fuel pos (w ++ rest) g
    = Some x.
Proof.
  intros Hp Hs. induction w as [|c w IH]; intros fuel pos Hne Hf Hk; [congruence|].
  simpl in Hp. apply Bool.andb_true_iff in Hp as [Hc Hp].
  destruct fuel as [|fuel]; [simpl in Hf; lia|].
  set (step := fun pos s g (k' : nat -> string -> groups -> option A) =>
                 run (Class p) pos s g k') in *.
  cbn [plus_loop append]. unfold step at 1. cbn [run]. rewrite Hc.
  replace (Nat.leb (S pos) pos) with false by (symmetry; apply Nat.leb_gt; lia).
  destruct w as [|c' w].
  - cbn [append]. unfold step. rewrite loop_stops by exact Hs. exact Hk.
  - rewrite (IH Hp fuel (S pos)); [reflexivity|discriminate|simpl in *; lia|].
    cbn [String.length] in *. now rewrite Nat.add_succ_r.
Qed.

(** A repetition of a class takes every character of the class first. *)
Lemma first_plus p w pos rest g :
  w <> "" -> PyStr.all_chars p w = true -> stops p rest ->
  first (Plus (Class p)) pos w rest g g.
Proof.
  intros Hne Hp Hs A k x H. rewrite ReFacts.run_plus.
  apply loop_longest; auto. rewrite ReFacts.length_app. lia.
Qed.

Lemma plus_fails {A} p pos s g (k : nat -> string -> groups -> option A) :
  stops p s -> run (Plus (Class p)) pos s g k = None.
Proof. intros H. rewrite ReFacts.run_plus. now apply loop_stops. Qed.

Lemma lit_inj a b : lit a = lit b -> a = b.
Proof.
  revert b. induction a as [|c a IH]; intros [|c' b]; simpl; try discriminate; auto.
  intros [= -> E]. now rewrite (IH b E).
Qed.

Lemma exactly_inj a b : exactly a = exactly b -> a = b.
Proof. unfold exactly. cbn [seq]. intros [= E]. now apply lit_inj. Qed.

(** The suffixes of the table, and what the pattern needs of them. *)
Lemma allowed_tail tail desc :
  In (exactly tail, desc) allowed_specs ->
  tail <> ""
  /\ PyStr.all_chars (fun c => negb (Ascii.eqb c "010")) tail = true
  /\ stops PyStr.is_digit tail
  /\ first_desc allowed_specs tail = Some desc.
Proof.
  intros H. unfold allowed_specs in H. cbn [In] in H.
  repeat (destruct H as [H|H];
          [pose proof (f_equal fst H) as E1; pose proof (f_equal snd H) as E2;
           cbn [fst snd] in E1, E2; apply exactly_inj in E1; subst tail desc;
           repeat split; try discriminate; reflexivity|]).
  destruct H.
Qed.

(** The end of the pattern, from the filter token on. *)
Lemma first_end flt px tail pos g :
  flt <> "" -> PyStr.all_chars flt_char flt = true -> Shape.digits px ->
  tail <> "" -> PyStr.all_chars (fun c => negb (Ascii.eqb c "010")) tail = true ->
  stops PyStr.is_digit tail ->
  first
    (seq [Group "flt" (Plus (Class flt_char));
          Opt (seq [Lit "_"; Group "px" (Plus digit); lit "px"]);
          Lit "_"; Group "tail" (Plus dot); Eol])
    pos (flt ++ Shape.px_part px ++ "_" ++ tail) ""
    g
    (("tail", tail)
     :: (if String.eqb px "" then [] else [("px", px)]) ++ ("flt", flt) :: g)%list.
Proof.
  intros Hf1 Hf2 Hx Ht1 Ht2 Ht3.
  assert (Etail : forall pos g,
             first (seq [Lit "_"; Group "tail" (Plus dot); Eol]) pos ("_" ++ tail) ""
                   g (("tail", tail) :: g)).
  { intros pos0 g0. cbn [seq].
    replace ("_" ++ tail) with ("_" ++ tail ++ "" ++ "")
      by (simpl; now rewrite ClassifyFacts.append_nil_r).
    eapply (first_seq _ _ _ "_"); [apply first_lit1|].
    eapply first_seq.
    - apply first_group, first_plus; [exact Ht1|exact Ht2|exact I].
    - eapply (first_seq _ _ _ "" ""); [apply first_eol|apply first_empty]. }
  unfold Shape.px_part. destruct (String.eqb_spec px "") as [->|Hpx].
  - cbn [seq app].
    eapply first_seq.
    + apply first_group, first_plus; [exact Hf1|exact Hf2|reflexivity].
    + change ("" ++ "_" ++ tail) with ("" ++ ("_" ++ tail)).
      eapply first_seq; [|apply Etail].
      apply first_opt_none. intros A k. cbn [seq run append].
      change (Ascii.eqb "_" "_") with true. cbv iota.
      apply plus_fails. unfold stops in *. destruct tail; [congruence|exact Ht3].
  - cbn [seq app].
    eapply first_seq.
    + apply first_group, first_plus; [exact Hf1|exact Hf2|reflexivity].
    + replace (("_" ++ px ++ "px") ++ "_" ++ tail)
        with (("_" ++ px ++ "px" ++ "") ++ ("_" ++ tail))
        by (simpl; now rewrite !ReFacts.app_assoc).
      eapply first_seq; [|apply Etail].
      apply first_opt_some. cbn [seq].
      eapply (first_seq _ _ _ "_"); [apply first_lit1|].
      eapply first_seq.
      * apply first_group, first_plus; [exact Hpx|exact Hx|reflexivity].
      * eapply first_seq; [apply first_lit|apply first_empty].
Qed.

(** The whole pattern on a name written from its tokens. *)
Lemma first_base d pp ymd obs flt px tail :
  well_formed d pp ymd obs flt px ->
  tail <> "" -> PyStr.all_chars (fun c => negb (Ascii.eqb c "010")) tail = true ->
  stops PyStr.is_digit tail ->
  match_ base ("TIC" ++ d ++ "-" ++ pp ++ "_" ++ ymd ++ "_" ++ obs ++ "_" ++ flt
               ++ Shape.px_part px ++ "_" ++ tail)
  = Some (("tail", tail)
          :: (if String.eqb px "" then [] else [("px", px)])
          ++ [("flt", flt); ("obs", obs); ("ymd", ymd); ("pp", pp);
              ("tgt", ("TIC" ++ d)%string)])%list.
Proof.
  intros (Hd1 & Hd2 & Hp1 & Hp2 & Hy1 & Hy2 & Ho1 & Ho2 & Hf1 & Hf2 & Hx) Ht1 Ht2 Ht3.
  unfold match_, base. cbn [seq].
  assert (F : first
            (Seq Bol
               (Seq (Group "tgt" (Seq (lit "TIC") (Plus digit)))
                  (Seq (Lit "-")
                     (Seq (Group "pp" (times 2 digit))
                        (Seq (Lit "_")
                           (Seq (Group "ymd" (times 8 digit))
                              (Seq (Lit "_")
                                 (Seq (Group "obs" (Plus (Class obs_char)))
                                    (Seq (Lit "_")
                                       (seq [Group "flt" (Plus (Class flt_char));
                                             Opt (seq [Lit "_"; Group "px" (Plus digit);
                                                       lit "px"]);
                                             Lit "_"; Group "tail" (Plus dot); Eol]))))))))))
            0
            ("" ++ ("TIC" ++ d) ++ "-" ++ pp ++ "_" ++ ymd ++ "_" ++ obs ++ "_"
             ++ (flt ++ Shape.px_part px ++ "_" ++ tail))
            "" []
            (("tail", tail)
             :: (if String.eqb px "" then [] else [("px", px)])
             ++ [("flt", flt); ("obs", obs); ("ymd", ymd); ("pp", pp);
                 ("tgt", ("TIC" ++ d)%string)])%list).
  { eapply first_seq; [apply first_bol|].
    eapply first_seq.
    { apply first_group. eapply first_seq; [apply first_lit|].
      apply first_plus; [exact Hd1|exact Hd2|reflexivity]. }
    eapply (first_seq _ _ _ "-"); [apply first_lit1|].
    eapply first_seq; [apply first_group, first_times; assumption|].
    eapply (first_seq _ _ _ "_"); [apply first_lit1|].
    eapply first_seq; [apply first_group, first_times; assumption|].
    eapply (first_seq _ _ _ "_"); [apply first_lit1|].
    eapply first_seq.
    { apply first_group, first_plus; [exact Ho1|exact Ho2|reflexivity]. }
    eapply (first_seq _ _ _ "_"); [apply first_lit1|].
    apply first_end; assumption. }
  specialize (F groups (fun _ _ g => Some g) _ eq_refl).
  rewrite ClassifyFacts.append_nil_r in F.
  etransitivity; [|exact F]. reflexivity.
Qed.

End GreedyFacts.

(** X16.  A name written after the naming convention is recognized, with
    the tokens it was written from: the prefix of the target, an
    eight-digit date, an observatory and a filter token of the allowed
    characters, an optional pixel token of digits followed by [px], and one
    of the allowed suffixes, joined by underscores, give the record of these
    tokens and the descriptor of the suffix. *)
Theorem well_formed_name_is_recognized (d pp ymd obs flt px tail desc : string) :
  Greedy.well_formed d pp ymd obs flt px ->
  In (exactly tail, desc) allowed_specs ->
  classify ("TIC" ++ d ++ "-" ++ pp)
           (rec_fn (Greedy.named d pp ymd obs flt px tail desc))
  = inl (Greedy.named d pp ymd obs flt px tail desc).
Proof.
  intros Hw Hin.
  destruct (GreedyFacts.allowed_tail tail desc Hin) as (Ht1 & Ht2 & Ht3 & Hd).
  unfold classify, Greedy.named. cbn [rec_fn].
  rewrite (GreedyFacts.first_base d pp ymd obs flt px tail Hw Ht1 Ht2 Ht3).
  destruct (String.eqb_spec px "") as [->|Hpx];
    cbn [app grp Re.group String.eqb Ascii.eqb Bool.eqb or_empty];
    rewrite Hd; cbn [truthy or_empty];
    (replace (("TIC" ++ d) ++ "-" ++ pp) with ("TIC" ++ d ++ "-" ++ pp)
       by (simpl; reflexivity));
    rewrite String.eqb_refl; cbn [negb];
    (destruct (String.eqb_spec desc "") as [->|_];
     [exfalso; simpl in Hin;
      repeat (destruct Hin as [Hin|Hin]; [discriminate|]); exact Hin|]);
    reflexivity.
Qed.

(** X16 on a measurement table with a pixel token. *)
Lemma well_formed_name_is_recognized_witness :
  classify "TIC12345678-01" "TIC12345678-01_20230115_ObsA_V_10px_measurements.tbl"
  = inl (Greedy.named "12345678" "01" "20230115" "ObsA" "V" "10"
                      "measurements.tbl" MEAS).
Proof.
  apply (well_formed_name_is_recognized "12345678" "01" "20230115" "ObsA" "V" "10"
           "measurements.tbl" MEAS).
  - unfold Greedy.well_formed, Shape.digits.
    repeat split; try discriminate; reflexivity.
  - simpl. tauto.
Defined.

(* ================================================================== *)
(** * Files that are posted *)
(* ================================================================== *)

Module PostedFacts.

Import Run RunFacts Settled Reported.

(** The steps of the front stages that [front_inv] leaves out. *)
Lemma front_steps W a ans d ans' tr :
  front W a ans = (Ok d, ans', tr) ->
  parse_target a ans = (Ok (target d), ans, [])
  /\ exists pre tl, tr = (pre ++ tl)%list /\ show_files d ans = (Ok tt, ans, tl).
Proof.
  unfold front. intros H.
  apply FinishFacts.bind_inv in H as (x1 & ans1 & tr1 & tr1' & H1 & H & ->).
  apply (FrontFacts.stops_same _ _ _ _ _ (ListingFacts.check_args_cases W a)) in H1 as ->.
  apply FinishFacts.bind_inv in H as (tg & ans2 & tr2 & tr2' & H2 & H & ->).
  destruct (StartFacts.parse_target_ok _ _ _ _ _ H2) as [-> ->].
  apply FinishFacts.bind_inv in H as (x3 & ans3 & tr3 & tr3' & H3 & H & ->).
  apply (FrontFacts.stops_same _ _ _ _ _ (ListingFacts.login_cases W a)) in H3 as ->.
  apply FinishFacts.bind_inv in H as (files & ans4 & tr4 & tr4' & H4 & H & ->).
  rewrite ListingFacts.list_files_run in H4.
  destruct (find disallowed (PyStr.sorted_strings (listdir W (directory a))));
    [discriminate|]. injection H4 as <- <- <-.
  apply FinishFacts.bind_inv in H as ([[dt ob] fl] & ans5 & tr5 & tr5' & H5 & H & ->).
  apply ConsistencyFacts.consistency_ok in H5 as (_ & _ & _ & _ & ->).
  apply FinishFacts.bind_inv in H as (chosen & ans6 & tr6 & tr6' & H6 & H & ->).
  assert (E6 : ans6 = ans).
  { destruct (select_tables W a _ fl); simpl in H6; [discriminate|].
    now injection H6 as _ <- _. }
  subst ans6.
  apply FinishFacts.bind_inv in H as (x7 & ans7 & tr7 & tr7' & H7 & H & ->).
  injection H as <- _ <-. cbn [target].
  split; [exact H2|].
  match type of H7 with
  | show_files ?d0 ans = _ =>
      destruct (FrontFacts.prints_show_files d0 ans) as (tr8 & E8 & _)
  end.
  rewrite E8 in H7. injection H7 as _ _ <-.
  exists (tr1 ++ tr3 ++ tr5 ++ tr6)%list, tr8.
  split; [|exact E8].
  cbn [app]. rewrite app_nil_r. now rewrite <- !app_assoc.
Qed.

Lemma chosen_first_In ct l x : In x (chosen_first ct l) -> In x l.
Proof.
  unfold chosen_first. destruct (PyStr.mem ct l) eqn:E; [|auto].
  intros [<-|H]; [now apply FrontFacts.mem_In|].
  now apply filter_In in H.
Qed.

(** A file of the upload list is a recognized file of the filter. *)
Lemma upload_order_In d flt fn desc :
  In (fn, desc) (upload_order d flt) -> In fn (found_in d flt desc).
Proof.
  unfold upload_order. rewrite in_app_iff. intros [H|H].
  - assert (G : In (fn, desc)
                  (map (fun fn => (fn, MEAS)) (PyStr.sorted_strings (found_in d flt MEAS)))).
    { destruct (truthy _ && PyStr.mem _ _)%bool eqn:Eb; [|exact H].
      apply Bool.andb_true_iff in Eb as [_ Eb]. apply FrontFacts.mem_In in Eb.
      destruct H as [H|H].
      - injection H as <- <-. now apply (in_map (fun fn => (fn, MEAS))).
      - apply in_map_iff in H as (y & E & Hy). apply filter_In in Hy as [Hy _].
        rewrite <- E. now apply (in_map (fun fn => (fn, MEAS))). }
    apply in_map_iff in G as (y & [= <- <-] & Hy).
    exact (proj1 (OrdFacts.sort_In _ _ _) Hy).
  - apply in_flat_map in H as (typ & _ & H).
    apply in_map_iff in H as (y & [= <- <-] & Hy).
    exact (proj1 (OrdFacts.sort_In _ _ _) Hy).
Qed.

Lemma settled_file W a d flt fn desc tg ans :
  settled W a d -> parse_target a ans = (Ok tg, ans, []) -> tg = target d ->
  In fn (found_in d flt desc) ->
  exists r, recognized_as W a fn r /\ rec_desc r = desc.
Proof.
  intros S Hp -> Hin. pose proof S as (_ & Hr & _).
  apply SelectFacts.found_In in Hin as (r & Hin & Ef & Ed & _).
  rewrite Hr in Hin. apply FrontFacts.recognized_of_In in Hin as (fn' & Hf & Hc).
  destruct (FrontFacts.classify_inl _ _ _ Hc) as (E & _).
  rewrite E in Ef. subst fn'.
  exists r. split; [|exact Ed]. split.
  - exact (proj1 (OrdFacts.sort_In String.ltb fn _) Hf).
  - exists (target d), ans. auto.
Qed.

Lemma emits_bind_ok {A B} (P : event -> Prop) (m : M A) (k : A -> M B) :
  emits P m ->
  (forall x ans ans' tr, m ans = (Ok x, ans', tr) -> emits P (k x)) ->
  emits P (bind m k).
Proof.
  intros Hm Hk ans. specialize (Hm ans). unfold bind, trace_of in *.
  destruct (m ans) as [[[x|c|e] ans'] tr] eqn:E; simpl in *; auto.
  specialize (Hk x ans ans' tr E ans'). unfold trace_of in Hk.
  destruct (k x ans') as [[r ans''] tr']; simpl in *.
  apply Forall_app. auto.
Qed.

Lemma emits_for_each_in {A} (P : event -> Prop) (l : list A) (body : A -> M unit) :
  (forall x, In x l -> emits P (body x)) -> emits P (for_each l body).
Proof.
  induction l as [|x l IH]; simpl; intros H.
  - apply emits_ret.
  - apply emits_bind; [apply H; now left|]. intros _. apply IH.
    intros y Hy. apply H. now right.
Qed.

Lemma front_posts_no_file W a : emits (posts_recognized W a) (front W a).
Proof.
  unfold front, check_args, parse_target, login, list_files, consistency, show_files.
  repeat StageFacts.emits_step; exact I.
Qed.

End PostedFacts.

(** X17.  In every run, a request that carries a file carries a file of
    the directory that was recognized for the target of the run, goes to
    the file page, and names the descriptor of the suffix of that file: a
    rejected file is never posted, and no file is posted under another
    descriptor. *)
Theorem only_recognized_files_are_posted (W : World) (a : Args) :
  Run.emits (Reported.posts_recognized W a) (upload W a).
Proof.
  unfold upload.
  apply PostedFacts.emits_bind_ok.
  { apply PostedFacts.front_posts_no_file. }
  intros d ans ans' tr Hf.
  destruct (FrontFacts.front_inv _ _ _ _ _ _ Hf) as [S _].
  destruct (PostedFacts.front_steps _ _ _ _ _ _ Hf) as [Hp _].
  apply RunFacts.emits_bind; [apply StageFacts.emits_completeness; intros; exact I|].
  intros _.
  apply RunFacts.emits_bind;
    [apply StageFacts.emits_build_entries; intros; exact I|].
  intros es. unfold finish. destruct (skip_summary a && skip_files a)%bool.
  { apply RunFacts.emits_print. exact I. }
  apply RunFacts.emits_bind; [apply RunFacts.emits_input; exact I|]. intros x.
  apply RunFacts.emits_bind;
    [apply RunFacts.emits_when, RunFacts.emits_err; exact I|].
  intros _.
  apply RunFacts.emits_bind; [|intros _; apply RunFacts.emits_print; exact I].
  apply RunFacts.emits_for_each. intros [flt e]. unfold submit_filter.
  apply RunFacts.emits_bind.
  { apply RunFacts.emits_when, RunFacts.emits_bind;
      [apply RunFacts.emits_post; exact I|].
    intros failed. apply RunFacts.emits_when, RunFacts.emits_err; exact I. }
  intros _. apply RunFacts.emits_when, PostedFacts.emits_for_each_in.
  intros [fn desc] Hin.
  apply RunFacts.emits_bind;
    [|intros failed; apply RunFacts.emits_when, RunFacts.emits_err; exact I].
  apply RunFacts.emits_post. split; [reflexivity|].
  apply PostedFacts.upload_order_In in Hin.
  destruct (PostedFacts.settled_file W a d flt fn desc _ _ S Hp eq_refl Hin)
    as (r & Hr & <-).
  exists fn, r. split; [exact Hr|]. split; [reflexivity|]. simpl. tauto.
Qed.

(* ================================================================== *)
(** * The listing accounts for every file *)
(* ================================================================== *)

Module ListedFacts.

Import Run RunFacts Settled Reported.

Lemma for_each_blocks {A} (g : A -> list event) (body : A -> M unit) l ans :
  (forall x ans0, body x ans0 = (Ok tt, ans0, g x)) ->
  for_each l body ans = (Ok tt, ans, flat_map g l).
Proof.
  intros H. induction l as [|x l IH]; simpl; [reflexivity|].
  unfold bind. now rewrite H, IH.
Qed.

(** The listing, line by line. *)
Lemma show_files_run d ans :
  show_files d ans
  = (Ok tt, ans, (flat_map (recognized_block d) (filter_list d) ++ rejected_block d)%list).
Proof.
  unfold show_files, bind.
  rewrite (for_each_blocks (recognized_block d)).
  - unfold rejected_block. destruct (rejected d) as [|x rej] eqn:E; [reflexivity|].
    cbn [when]. unfold bind, print, emit.
    rewrite (BuildFacts.for_each_prints
               (fun fw => rejected_line (max_len (map fst (x :: rej))) (fst fw) (snd fw))).
    + reflexivity.
    + intros [fn why] ans0. reflexivity.
  - intros flt ans0. unfold recognized_block.
    destruct (ordered_listing d flt) as [|x ordered] eqn:E; [reflexivity|].
    cbn [when]. unfold bind, print, emit.
    rewrite (BuildFacts.for_each_prints
               (fun fd => recognized_line (max_len (map fst (x :: ordered)))
                                          (fst fd) (snd fd))).
    + reflexivity.
    + intros [fn desc] ans1. reflexivity.
Qed.

Lemma recognized_of_intro p files fn r :
  In fn files -> classify p fn = inl r -> In r (recognized_of (map (classify p) files)).
Proof.
  induction files as [|f files IH]; simpl; [tauto|].
  intros [->|H] Hc.
  - rewrite Hc. now left.
  - destruct (classify p f); [right|]; auto.
Qed.

Lemma rejected_of_intro p files fn x :
  In fn files -> classify p fn = inr x -> In x (rejected_of (map (classify p) files)).
Proof.
  induction files as [|f files IH]; simpl; [tauto|].
  intros [->|H] Hc.
  - rewrite Hc. now left.
  - destruct (classify p f); [|right]; auto.
Qed.

Lemma classify_inr p fn x : classify p fn = inr x -> fst x = fn.
Proof.
  unfold classify. destruct (Re.match_ base fn); [|intros [= <-]; reflexivity].
  destruct (negb _); [intros [= <-]; reflexivity|].
  destruct (truthy _); [discriminate|intros [= <-]; reflexivity].
Qed.

Lemma chosen_first_intro ct l x : In x l -> In x (chosen_first ct l).
Proof.
  unfold chosen_first. destruct (PyStr.mem ct l); [|auto].
  intros H. destruct (String.eqb_spec x ct) as [->|Hne]; [now left|].
  right. apply filter_In. split; [exact H|].
  apply Bool.negb_true_iff, String.eqb_neq. exact Hne.
Qed.

(** A recognized file of the set is in the listing of its filter. *)
Lemma ordered_listing_intro d r :
  In r (recognized d) -> In (rec_desc r) order_types ->
  rec_ymd r = date d -> rec_obs r = observatory d ->
  In (rec_fn r, rec_desc r) (ordered_listing d (rec_flt r)).
Proof.
  intros Hr Ho Hy Hb. unfold ordered_listing.
  apply in_flat_map. exists (rec_desc r). split; [exact Ho|].
  apply (in_map (fun fn => (fn, rec_desc r))).
  assert (Hs : In (rec_fn r)
                 (PyStr.sorted_strings
                    (found (recognized d) (date d) (observatory d) (rec_flt r)
                           (rec_desc r)))).
  { apply (OrdFacts.sort_In String.ltb). unfold found. apply in_map.
    apply filter_In. split; [exact Hr|].
    now rewrite Hy, Hb, !String.eqb_refl. }
  destruct (_ && _)%bool; [now apply chosen_first_intro|exact Hs].
Qed.

Lemma block_intro d flt fn desc :
  In (fn, desc) (ordered_listing d flt) ->
  In (recognized_line (max_len (map fst (ordered_listing d flt))) fn desc)
     (recognized_block d flt).
Proof.
  unfold recognized_block. intros H.
  destruct (ordered_listing d flt) as [|x l]; [destruct H|].
  right.
  exact (in_map (fun fd => recognized_line (max_len (map fst (x :: l))) (fst fd) (snd fd))
                _ _ H).
Qed.

Lemma rejected_intro d fn why :
  In (fn, why) (rejected d) ->
  In (rejected_line (max_len (map fst (rejected d))) fn why) (rejected_block d).
Proof.
  unfold rejected_block. intros H.
  destruct (rejected d) as [|x l]; [destruct H|].
  right.
  exact (in_map (fun fw => rejected_line (max_len (map fst (x :: l))) (fst fw) (snd fw))
                _ _ H).
Qed.

End ListedFacts.

(** X18.  The listing accounts for every file of the directory: once the
    front stages return, each file was printed on one line, either as a
    recognized file under its filter with the descriptor of its suffix, or
    as a rejected file with the reason of its rejection. *)
Theorem every_file_is_listed
    (W : World) (a : Args) (ans : list string) (d : Front)
    (ans' : list string) (tr : list event) (fn : string) :
  front W a ans = (Ok d, ans', tr) ->
  In fn (listdir W (directory a)) ->
  (exists r,
      classify (tgt_prefix (target d)) fn = inl r
      /\ In (rec_flt r) (filter_list d)
      /\ In (Reported.recognized_line
               (max_len (map fst (ordered_listing d (rec_flt r)))) fn (rec_desc r)) tr)
  \/ (exists why,
         classify (tgt_prefix (target d)) fn = inr (fn, why)
         /\ In (Reported.rejected_line (max_len (map fst (rejected d))) fn why) tr).
Proof.
  intros Hf Hin.
  destruct (FrontFacts.front_inv _ _ _ _ _ _ Hf) as [S _].
  destruct (PostedFacts.front_steps _ _ _ _ _ _ Hf) as (_ & pre & tl & -> & Hs).
  rewrite ListedFacts.show_files_run in Hs. injection Hs as <-.
  pose proof S as (_ & Hr & Hj & _ & Hn & _ & Hfl & _).
  assert (Hsort : In fn (PyStr.sorted_strings (listdir W (directory a))))
    by exact (proj2 (OrdFacts.sort_In String.ltb fn _) Hin).
  destruct (classify (tgt_prefix (target d)) fn) as [r|[fn' why]] eqn:Ec.
  - left. exists r. split; [reflexivity|].
    assert (Hrec : In r (recognized d)).
    { rewrite Hr. exact (ListedFacts.recognized_of_intro _ _ _ _ Hsort Ec). }
    destruct (FrontFacts.classify_inl _ _ _ Ec) as (Efn & _ & Ho).
    destruct (Hn r Hrec) as [Hy Hb].
    assert (Hflt : In (rec_flt r) (filter_list d)).
    { rewrite Hfl. apply (OrdFacts.sort_In String.ltb), NightFacts.dedup_In.
      now apply in_map. }
    split; [exact Hflt|].
    rewrite !in_app_iff. right. left.
    apply in_flat_map. exists (rec_flt r). split; [exact Hflt|].
    apply ListedFacts.block_intro. rewrite <- Efn.
    now apply ListedFacts.ordered_listing_intro.
  - right. exists why.
    pose proof (ListedFacts.classify_inr _ _ _ Ec) as E. simpl in E. subst fn'.
    split; [reflexivity|].
    rewrite !in_app_iff. right. right.
    apply ListedFacts.rejected_intro. rewrite Hj.
    exact (ListedFacts.rejected_of_intro _ _ _ _ Hsort Ec).
Qed.

(** X18 on the notes file of the complete directory. *)
Lemma every_file_is_listed_witness :
  exists tr,
    front (Scenario.world Scenario.full_dir (Some Scenario.table))
          (Scenario.args (Some "3.41") false) []
    = (Ok Scenario.full_front, [], tr)
    /\ exists w desc,
         In (Reported.recognized_line w (Scenario.name "notes.txt") desc) tr.
Proof.
  destruct (full_front_is_front (Some Scenario.table) (Some "3.41") false []
              (or_introl eq_refl)) as (tr & E).
  exists tr. split; [exact E|].
  destruct (every_file_is_listed _ _ _ _ _ _ (Scenario.name "notes.txt") E)
    as [(r & _ & _ & H)|(why & Hc & _)].
  - unfold Scenario.world, Scenario.args, Scenario.full_dir. simpl. tauto.
  - eauto.
  - vm_compute in Hc. discriminate.
Defined.
